(** * Abacus training example generator: rules, sequence generator, print batch

    A shallow embedding of the generator's JavaScript sources:
    - [core/rules/BaseRule.js], [UnifiedSimpleRule.js], [BrothersRule.js],
      [FriendsRule.js], [MixRule.js]: the four techniques,
    - [core/ExampleGenerator.js]: the bounded generate-and-validate loop,
    - [core/MultiDigitGenerator.js]: the multi-digit composer,
    - [core/generator.js] and [print/PrintGenerator.js]: the batch front end.

    Conventions.
    - JavaScript numbers that the code keeps integral are [Z].
    - [Math.random()] is a value [u / 2^53] with [0 <= u < 2^53]; the run's
      successive values are read from a list (an exhausted list keeps
      answering 0).  [Math.floor (Math.random () * n)] is then
      [(u * n) `div` 2^53], computed exactly.
    - [throw]/[try]/[catch] is an error monad layered over that list.
    - A [Set] of string keys [`${v}-${vNext}-brother${n}`] is a [gset] of
      triples [(v, vNext, n)]; a [Map] keyed by numbers is a [gmap Z]. *)

From stdpp Require Import base numbers option list gmap sets strings pretty.
From Stdlib Require Import ZArith Lia.

Local Open Scope Z_scope.

(** ** Random source and exceptions *)

Inductive Error : Type :=
  | NoActionsAtStep (i state : Z)
  | NoCombinedActions
  | InvalidArrayLength
  | NoMultiDigitAction (i : Z)
  | StateOutOfRange (state : Z)
  | GenerationFailed
  | BadExamplesCount
  | BadActionsCount
  | BadDigitCount
  | NoActiveBlock
  | FriendsNeedTwoDigits
  | MixNeedTwoDigits.

Inductive Outcome (A : Type) : Type :=
  | Ok (a : A)
  | Thrown (e : Error).
Arguments Ok {A} a.
Arguments Thrown {A} e.

Definition Source : Type := list Z.

Definition RESOLUTION : Z := 2 ^ 53.

Definition M (A : Type) : Type := Source → Outcome A * Source.

#[global] Instance M_ret : MRet M := λ A a src, (Ok a, src).

#[global] Instance M_bind : MBind M := λ A B f m src,
  match m src with
  | (Ok a, src') => f a src'
  | (Thrown e, src') => (Thrown e, src')
  end.

Definition throw {A : Type} (e : Error) : M A := λ src, (Thrown e, src).

(** [try { body } catch (err) { handler }] *)
Definition tryCatch {A : Type} (body : M A) (handler : Error → M A) : M A :=
  λ src,
    match body src with
    | (Ok a, src') => (Ok a, src')
    | (Thrown e, src') => handler e src'
    end.

(** [Math.random()], in units of [2^-53]. *)
Definition Math_random : M Z := λ src,
  match src with
  | [] => (Ok 0, [])
  | u :: src' => (Ok (u `mod` RESOLUTION), src')
  end.

(** [Math.floor(Math.random() * n)] *)
Definition randomFloor (n : Z) : M Z :=
  u ← Math_random; mret ((u * n) `div` RESOLUTION).

(** [Math.random() < num / den] for a positive [den]. *)
Definition randomBelow (num den : Z) : M bool :=
  u ← Math_random; mret (bool_decide (u * den < num * RESOLUTION)).

(** [arr[Math.floor(Math.random() * arr.length)]]; callers test that the
    array is not empty, so the index is always in range. *)
Definition pickRandom (arr : list Z) : M Z :=
  idx ← randomFloor (Z.of_nat (length arr));
  mret (default 0 (arr !! Z.to_nat idx)).

(** ** Steps and examples *)

Record Step : Type := mkStep { action : Z; fromState : Z; toState : Z }.

Record Example : Type := mkExample { start : Z; steps : list Step; answer : Z }.

#[global] Instance Step_eq_dec : EqDecision Step.
Proof. solve_decision. Defined.

#[global] Instance Example_eq_dec : EqDecision Example.
Proof. solve_decision. Defined.

(** [steps.some(step => step.action < 0)] and its mirror. *)
Definition hasNegative (sts : list Step) : bool :=
  existsb (λ st, bool_decide (action st < 0)) sts.

Definition hasPositive (sts : list Step) : bool :=
  existsb (λ st, bool_decide (action st > 0)) sts.

(** [let s = start; for (const step of steps) s += step.action] *)
Definition replay (s : Z) (sts : list Step) : Z :=
  foldl (λ cur st, cur + action st) s sts.

(** The loop "every intermediate state lies in [lo, hi]" that all four
    validators share: the state is advanced first, then tested. *)
Fixpoint statesWithin (lo hi cur : Z) (sts : list Step) : bool :=
  match sts with
  | [] => true
  | st :: rest =>
      let cur' := cur + action st in
      if bool_decide (cur' < lo) || bool_decide (cur' > hi) then false
      else statesWithin lo hi cur' rest
  end.

(** ** Constructor arguments

    The object literal passed to a rule constructor.  [None] stands for an
    absent ([undefined]) property; [selectedDigits] is [Some] exactly when
    [Array.isArray] holds, [simpleBlock] is [config.blocks?.simple?.digits].
    Digits are the integers [parseInt] yields (a [NaN] never passes the range
    filters). *)

Record RawConfig : Type := mkRaw {
  raw_selectedDigits : option (list Z);
  raw_includeFive : option bool;
  raw_minState : option Z;
  raw_maxState : option Z;
  raw_minSteps : option Z;
  raw_maxSteps : option Z;
  raw_onlyAddition : option bool;
  raw_onlySubtraction : option bool;
  raw_digitCount : option Z;
  raw_combineLevels : option bool;
  raw_simpleBlock : option (list Z)
}.

Definition emptyRaw : RawConfig :=
  mkRaw None None None None None None None None None None None.

(** The resolved [this.config] fields that the generator and validators read. *)
Record RuleConfig : Type := mkConfig {
  selectedDigits : list Z;
  includeFive : bool;
  minState : Z;
  maxState : Z;
  minSteps : Z;
  maxSteps : Z;
  onlyAddition : bool;
  onlySubtraction : bool;
  digitCount : Z;
  combineLevels : bool
}.

(** [arr.map(n => parseInt(n, 10)).filter(n => n >= lo && n <= hi)] *)
Definition digitsBetween (lo hi : Z) (arr : list Z) : list Z :=
  filter (λ n, lo ≤ n ≤ hi) arr.

(** [minSteps + Math.floor(Math.random() * (maxSteps - minSteps + 1))] *)
Definition randomStepsCount (c : RuleConfig) : M Z :=
  k ← randomFloor (maxSteps c - minSteps c + 1); mret (minSteps c + k).

(** ** BaseRule *)
Module BaseRule.

Definition new (config : RawConfig) : RuleConfig :=
  {| selectedDigits := default [] (raw_selectedDigits config);
     includeFive := default true (raw_includeFive config);
     minState := default 0 (raw_minState config);
     maxState := default 9 (raw_maxState config);
     minSteps := default 1 (raw_minSteps config);
     maxSteps := default 3 (raw_maxSteps config);
     onlyAddition := default false (raw_onlyAddition config);
     onlySubtraction := default false (raw_onlySubtraction config);
     digitCount := default 1 (raw_digitCount config);
     combineLevels := default false (raw_combineLevels config) |}.

Definition generateStepsCount (c : RuleConfig) : M Z :=
  if bool_decide (minSteps c = maxSteps c) then mret (minSteps c)
  else randomStepsCount c.

(** The stub of the abstract class. *)
Definition getAvailableActions (c : RuleConfig) (state : Z) (isFirst : bool)
    : list Z :=
  (if negb isFirst && negb (onlyAddition c) then [-3; -2; -1] else [])
  ++ (if negb (onlySubtraction c) then [1; 2; 3] else []).

Definition applyAction (state act : Z) : Z := state + act.

Definition validateExample (c : RuleConfig) (example : Example) : bool :=
  if bool_decide (length (steps example) = 0%nat) then false
  else if negb (bool_decide
                  (replay (start example) (steps example) = answer example))
  then false
  else if onlyAddition c && hasNegative (steps example) then false
  else if onlySubtraction c && hasPositive (steps example) then false
  else
    let isMultiDigitMode := bool_decide (digitCount c > 1) in
    if negb isMultiDigitMode
    then statesWithin (minState c) (maxState c) (start example) (steps example)
    else true.

End BaseRule.

(** ** UnifiedSimpleRule: direct counting on one column *)
Module UnifiedSimpleRule.

Definition new (config : RawConfig) : RuleConfig :=
  let base := BaseRule.new config in
  let selectedDigits :=
    match raw_selectedDigits config with
    | Some arr => digitsBetween 1 9 arr
    | None => [1; 2; 3; 4]
    end in
  let includeFive :=
    existsb (λ d, bool_decide (d >= 5)) selectedDigits
    || bool_decide (raw_includeFive config = Some true) in
  let maxState := if includeFive then 9 else 4 in
  {| selectedDigits := selectedDigits;
     includeFive := includeFive;
     minState := 0;
     maxState := maxState;
     minSteps := default 3 (raw_minSteps config);
     maxSteps := default 7 (raw_maxSteps config);
     onlyAddition := default false (raw_onlyAddition config);
     onlySubtraction := default false (raw_onlySubtraction config);
     digitCount := default 1 (raw_digitCount config);
     combineLevels := default false (raw_combineLevels config) |}.

Definition getAvailableActions (c : RuleConfig) (state : Z) (isFirst : bool)
    : list Z :=
  if isFirst && negb (onlySubtraction c) then
    digit ← selectedDigits c;
    let newState := state + digit in
    if bool_decide (newState >= 0) && bool_decide (newState ≤ maxState c)
    then [digit] else []
  else if bool_decide (state = 0) && negb (onlySubtraction c) then
    digit ← selectedDigits c;
    if bool_decide (digit ≤ maxState c) then [digit] else []
  else
    (if negb (onlySubtraction c) then
       digit ← selectedDigits c;
       let newState := state + digit in
       if bool_decide (newState >= 0) && bool_decide (newState ≤ maxState c)
       then [digit] else []
     else [])
    ++
    (if negb (onlyAddition c) then
       digit ← selectedDigits c;
       let newState := state - digit in
       if bool_decide (newState >= 0) && bool_decide (newState ≤ maxState c)
       then [- digit] else []
     else []).

Definition applyAction (state act : Z) : Z := state + act.

Definition isPhysicallyPossible (c : RuleConfig) (state act : Z) : bool :=
  let newState := state + act in
  if bool_decide (newState < 0) || bool_decide (newState > maxState c)
  then false
  else
    let upperActive := if bool_decide (state >= 5) then 1 else 0 in
    let lowerActive := if bool_decide (state >= 5) then state - 5 else state in
    let newUpperActive := if bool_decide (newState >= 5) then 1 else 0 in
    let newLowerActive :=
      if bool_decide (newState >= 5) then newState - 5 else newState in
    if bool_decide (act > 0) then
      let needUpper := newUpperActive - upperActive in
      let needLower := newLowerActive - lowerActive in
      if bool_decide (needUpper > 0) && bool_decide (upperActive = 1)
      then false
      else if bool_decide (needLower > 0)
              && bool_decide (lowerActive + needLower > 4)
      then false
      else if bool_decide (needLower < 0)
              && bool_decide (lowerActive + needLower < 0)
      then false
      else true
    else
      let needUpper := upperActive - newUpperActive in
      let needLower := lowerActive - newLowerActive in
      if bool_decide (needUpper > 0) && bool_decide (upperActive = 0)
      then false
      else if bool_decide (needLower > 0)
              && bool_decide (lowerActive < needLower)
      then false
      else if bool_decide (needLower < 0)
              && bool_decide (lowerActive - needLower > 4)
      then false
      else true.

Fixpoint allPhysicallyPossible (c : RuleConfig) (cur : Z) (sts : list Step)
    : bool :=
  match sts with
  | [] => true
  | st :: rest =>
      if negb (isPhysicallyPossible c cur (action st)) then false
      else allPhysicallyPossible c (applyAction cur (action st)) rest
  end.

Definition validateExample (c : RuleConfig) (example : Example) : bool :=
  if negb (BaseRule.validateExample c example) then false
  else allPhysicallyPossible c (start example) (steps example).

Definition generateStartState : Z := 0.

Definition generateStepsCount (c : RuleConfig) : M Z := randomStepsCount c.

End UnifiedSimpleRule.

(** The keys of a transition table: [(v, vNext, n)] for the string
    [`${v}-${vNext}-brother${n}`] (or [...-friend${n}]). *)
Abbreviation TransitionTable := (gset (Z * Z * Z)).

(** [for (const n of digits) if (delta === n) return pairs.has(key); return false] *)
Fixpoint tableLookup (pairs : TransitionTable) (from to delta : Z)
    (digits : list Z) : bool :=
  match digits with
  | [] => false
  | n :: rest =>
      if bool_decide (delta = n) then bool_decide ((from, to, n) ∈ pairs)
      else tableLookup pairs from to delta rest
  end.

(** A micro-step of a decomposition; the [description] strings are display
    text only and are left out. *)
Inductive MicroType : Type := TyUpper | TyLower | TySimple | TyFriend | TyBrother.

Record MicroStep : Type := mkMicro { micro_action : Z; micro_type : MicroType }.

Definition microSum (ms : list MicroStep) : Z :=
  foldr (λ m acc, micro_action m + acc) 0 ms.

(** ** BrothersRule: compensation to 5 on one column *)
Module BrothersRule.

Record t : Type := mk {
  config : RuleConfig;
  brothersDigits : list Z;
  simpleBlockDigits : list Z;
  brotherPairs : TransitionTable
}.

Definition getBrother (n : Z) : Z := 5 - n.

(** Body of the first inner loop: [v -> v + n] through [+5 - brother]. *)
Definition addUp (n : Z) (pairs : TransitionTable) (v : Z) : TransitionTable :=
  let brother := getBrother n in
  let vNext := v + n in
  if bool_decide (vNext >= 0) && bool_decide (vNext ≤ 9) then
    let U := if bool_decide (v >= 5) then 1 else 0 in
    let L := if bool_decide (v >= 5) then v - 5 else v in
    if bool_decide (U = 0) && bool_decide (L + 5 >= brother)
    then {[ (v, vNext, n) ]} ∪ pairs else pairs
  else pairs.

(** Body of the second inner loop: [v -> v - n] through [-5 + brother]. *)
Definition addDown (n : Z) (pairs : TransitionTable) (v : Z) : TransitionTable :=
  let brother := getBrother n in
  let vNext := v - n in
  if bool_decide (vNext >= 0) && bool_decide (vNext ≤ 9) then
    let U := if bool_decide (v >= 5) then 1 else 0 in
    let L := if bool_decide (v >= 5) then v - 5 else v in
    if bool_decide (U = 1) && bool_decide (L - 5 + brother >= 0)
       && bool_decide (L - 5 + brother ≤ 4)
    then {[ (v, vNext, n) ]} ∪ pairs else pairs
  else pairs.

Definition _buildBrotherPairs (digits : list Z) : TransitionTable :=
  foldl (λ pairs n,
           foldl (addDown n) (foldl (addUp n) pairs (seqZ 0 10)) (seqZ 0 10))
        ∅ digits.

Definition new (cfg : RawConfig) : t :=
  let base := BaseRule.new cfg in
  let brothersDigits :=
    match raw_selectedDigits cfg with
    | Some arr => digitsBetween 1 4 arr
    | None => [4]
    end in
  let simpleBlockDigits :=
    match raw_simpleBlock cfg with
    | Some arr => digitsBetween 1 9 arr
    | None => [1; 2; 3; 4; 5]
    end in
  {| config :=
       {| selectedDigits := selectedDigits base;
          includeFive := includeFive base;
          minState := 0;
          maxState := 9;
          minSteps := default 3 (raw_minSteps cfg);
          maxSteps := default 7 (raw_maxSteps cfg);
          onlyAddition := default false (raw_onlyAddition cfg);
          onlySubtraction := default false (raw_onlySubtraction cfg);
          digitCount := default 1 (raw_digitCount cfg);
          combineLevels := default false (raw_combineLevels cfg) |};
     brothersDigits := brothersDigits;
     simpleBlockDigits := simpleBlockDigits;
     brotherPairs := _buildBrotherPairs brothersDigits |}.

Definition _isBrotherTransition (r : t) (from to : Z) : bool :=
  let delta := Z.abs (to - from) in
  tableLookup (brotherPairs r) from to delta (brothersDigits r).

(** [Math.floor(brotherPriority * 10)] with [brotherPriority = 0.5] *)
Definition times : nat := 5.

Definition getAvailableActions (r : t) (state : Z) (isFirst : bool) : list Z :=
  let c := config r in
  if isFirst && negb (onlySubtraction c) then
    (digit ← simpleBlockDigits r;
     let newState := state + digit in
     if bool_decide (newState >= 0) && bool_decide (newState ≤ 9)
     then [digit] else [])
    ++
    (digit ← brothersDigits r;
     let newState := state + digit in
     if bool_decide (newState >= 0) && bool_decide (newState ≤ 9)
        && _isBrotherTransition r state newState
     then replicate times digit else [])
  else if bool_decide (state = 0) && negb (onlySubtraction c) then
    (digit ← simpleBlockDigits r;
     if bool_decide (digit ≤ 9) then [digit] else [])
    ++
    (digit ← brothersDigits r;
     let newState := state + digit in
     if bool_decide (newState ≤ 9) && _isBrotherTransition r state newState
     then replicate times digit else [])
  else
    (if negb (onlySubtraction c) then
       (digit ← simpleBlockDigits r;
        let newState := state + digit in
        if bool_decide (newState >= 0) && bool_decide (newState ≤ 9)
        then [digit] else [])
       ++
       (digit ← brothersDigits r;
        let newState := state + digit in
        if bool_decide (newState >= 0) && bool_decide (newState ≤ 9)
           && _isBrotherTransition r state newState
        then replicate times digit else [])
     else [])
    ++
    (if negb (onlyAddition c) then
       (digit ← simpleBlockDigits r;
        let newState := state - digit in
        if bool_decide (newState >= 0) && bool_decide (newState ≤ 9)
        then [- digit] else [])
       ++
       (digit ← brothersDigits r;
        let newState := state - digit in
        if bool_decide (newState >= 0) && bool_decide (newState ≤ 9)
           && _isBrotherTransition r state newState
        then replicate times (- digit) else [])
     else []).

Definition applyAction (state act : Z) : Z := state + act.

Definition decomposeAction (r : t) (state act : Z) : list MicroStep :=
  let absAction := Z.abs act in
  if _isBrotherTransition r state (state + act) then
    let brother := getBrother absAction in
    if bool_decide (act > 0)
    then [ mkMicro 5 TyUpper; mkMicro (- brother) TyLower ]
    else [ mkMicro (-5) TyUpper; mkMicro brother TyLower ]
  else [ mkMicro act TySimple ].

(** "Is there at least one brother step": the scan stops at the first. *)
Fixpoint hasBrotherStep (r : t) (cur : Z) (sts : list Step) : bool :=
  match sts with
  | [] => false
  | st :: rest =>
      let nextState := cur + action st in
      if _isBrotherTransition r cur nextState then true
      else hasBrotherStep r nextState rest
  end.

Definition validateExample (r : t) (example : Example) : bool :=
  if bool_decide (length (steps example) = 0%nat) then false
  else if negb (hasBrotherStep r (start example) (steps example)) then false
  else if negb (statesWithin 0 9 (start example) (steps example)) then false
  else if onlyAddition (config r) && hasNegative (steps example) then false
  else if onlySubtraction (config r) && hasPositive (steps example) then false
  else true.

Definition generateStartState : Z := 0.

Definition generateStepsCount (r : t) : M Z := randomStepsCount (config r).

End BrothersRule.

(** ** FriendsRule: compensation to 10 across two columns *)
Module FriendsRule.

Record t : Type := mk {
  config : RuleConfig;
  friendsDigits : list Z;
  simpleBlockDigits : list Z;
  friendPairs : TransitionTable
}.

Definition getFriend (n : Z) : Z := 10 - n.

(** [v -> v + n] through [+10 - friend]; [v % 10] and
    [Math.floor(v / 10)] on the loop's non-negative [v]. *)
Definition addUp (n : Z) (pairs : TransitionTable) (v : Z) : TransitionTable :=
  let vNext := v + n in
  if bool_decide (vNext >= 0) && bool_decide (vNext ≤ 99) then
    let units := v `rem` 10 in
    let tens := v `div` 10 in
    if bool_decide (units + n >= 10) && bool_decide (tens < 9)
    then {[ (v, vNext, n) ]} ∪ pairs else pairs
  else pairs.

(** [v -> v - n] through [-10 + friend]. *)
Definition addDown (n : Z) (pairs : TransitionTable) (v : Z) : TransitionTable :=
  let vNext := v - n in
  if bool_decide (vNext >= 0) && bool_decide (vNext ≤ 99) then
    let units := v `rem` 10 in
    let tens := v `div` 10 in
    if bool_decide (units < n) && bool_decide (tens > 0)
    then {[ (v, vNext, n) ]} ∪ pairs else pairs
  else pairs.

Definition _buildFriendPairs (digits : list Z) : TransitionTable :=
  foldl (λ pairs n,
           foldl (addDown n) (foldl (addUp n) pairs (seqZ 0 100)) (seqZ 0 100))
        ∅ digits.

Definition new (cfg : RawConfig) : t :=
  let base := BaseRule.new cfg in
  let friendsDigits :=
    match raw_selectedDigits cfg with
    | Some arr => digitsBetween 1 9 arr
    | None => [9]
    end in
  let simpleBlockDigits :=
    match raw_simpleBlock cfg with
    | Some arr => digitsBetween 1 9 arr
    | None => [1; 2; 3; 4; 5]
    end in
  {| config :=
       {| selectedDigits := selectedDigits base;
          includeFive := includeFive base;
          minState := 0;
          maxState := 99;
          minSteps := default 3 (raw_minSteps cfg);
          maxSteps := default 7 (raw_maxSteps cfg);
          onlyAddition := default false (raw_onlyAddition cfg);
          onlySubtraction := default false (raw_onlySubtraction cfg);
          digitCount := default 2 (raw_digitCount cfg);
          combineLevels := default false (raw_combineLevels cfg) |};
     friendsDigits := friendsDigits;
     simpleBlockDigits := simpleBlockDigits;
     friendPairs := _buildFriendPairs friendsDigits |}.

Definition _isFriendTransition (r : t) (from to : Z) : bool :=
  let delta := Z.abs (to - from) in
  tableLookup (friendPairs r) from to delta (friendsDigits r).

(** [Math.floor(friendPriority * 10)] with [friendPriority = 0.5] *)
Definition times : nat := 5.

Definition getAvailableActions (r : t) (state : Z) (isFirst : bool) : list Z :=
  let c := config r in
  if isFirst && negb (onlySubtraction c) then
    (digit ← simpleBlockDigits r;
     let newState := state + digit in
     if bool_decide (newState >= 0) && bool_decide (newState ≤ 99)
     then [digit] else [])
    ++
    (digit ← friendsDigits r;
     let newState := state + digit in
     if bool_decide (newState >= 0) && bool_decide (newState ≤ 99)
        && _isFriendTransition r state newState
     then replicate times digit else [])
  else if bool_decide (state = 0) && negb (onlySubtraction c) then
    (digit ← simpleBlockDigits r;
     if bool_decide (digit ≤ 99) then [digit] else [])
    ++
    (digit ← friendsDigits r;
     let newState := state + digit in
     if bool_decide (newState ≤ 99) && _isFriendTransition r state newState
     then replicate times digit else [])
  else
    (if negb (onlySubtraction c) then
       (digit ← simpleBlockDigits r;
        let newState := state + digit in
        if bool_decide (newState >= 0) && bool_decide (newState ≤ 99)
        then [digit] else [])
       ++
       (digit ← friendsDigits r;
        let newState := state + digit in
        if bool_decide (newState >= 0) && bool_decide (newState ≤ 99)
           && _isFriendTransition r state newState
        then replicate times digit else [])
     else [])
    ++
    (if negb (onlyAddition c) then
       (digit ← simpleBlockDigits r;
        let newState := state - digit in
        if bool_decide (newState >= 0) && bool_decide (newState ≤ 99)
        then [- digit] else [])
       ++
       (digit ← friendsDigits r;
        let newState := state - digit in
        if bool_decide (newState >= 0) && bool_decide (newState ≤ 99)
           && _isFriendTransition r state newState
        then replicate times (- digit) else [])
     else []).

Definition applyAction (state act : Z) : Z := state + act.

Fixpoint hasFriendStep (r : t) (cur : Z) (sts : list Step) : bool :=
  match sts with
  | [] => false
  | st :: rest =>
      let nextState := cur + action st in
      if _isFriendTransition r cur nextState then true
      else hasFriendStep r nextState rest
  end.

Definition validateExample (r : t) (example : Example) : bool :=
  if bool_decide (length (steps example) = 0%nat) then false
  else if negb (hasFriendStep r (start example) (steps example)) then false
  else if negb (statesWithin 0 99 (start example) (steps example)) then false
  else if onlyAddition (config r) && hasNegative (steps example) then false
  else if onlySubtraction (config r) && hasPositive (steps example) then false
  else true.

Definition generateStartState : Z := 0.

Definition generateStepsCount (r : t) : M Z := randomStepsCount (config r).

End FriendsRule.

(** ** MixRule: a friend step whose compensation needs a brother step *)
Module MixRule.

(** An entry of [mixCombinations]; the [formula] string is display text. *)
Record Combination : Type := mkCombination {
  digit : Z;
  friendOf : Z;
  brotherOf : Z;
  microSteps : list MicroStep
}.

Record t : Type := mk {
  config : RuleConfig;
  mixDigits : list Z;
  simpleBlockDigits : list Z;
  mixCombinations : gmap Z Combination
}.

Definition getFriend (n : Z) : Z := 10 - n.

Definition getBrother (n : Z) : Z := 5 - n.

Definition _buildMixCombinations (digits : list Z) : gmap Z Combination :=
  foldl (λ combinations n,
           let friend := getFriend n in
           let brother := getBrother friend in
           let combinations1 :=
             <[ n := {| digit := n; friendOf := friend; brotherOf := brother;
                        microSteps := [ mkMicro 10 TyFriend;
                                        mkMicro (-5) TyBrother;
                                        mkMicro (- (friend - 5)) TySimple ] |} ]>
               combinations in
           <[ - n := {| digit := - n; friendOf := friend; brotherOf := brother;
                        microSteps := [ mkMicro (-10) TyFriend;
                                        mkMicro 5 TyBrother;
                                        mkMicro (friend - 5) TySimple ] |} ]>
             combinations1)
        ∅ digits.

Definition new (cfg : RawConfig) : t :=
  let base := BaseRule.new cfg in
  let mixDigits :=
    match raw_selectedDigits cfg with
    | Some arr => digitsBetween 6 9 arr
    | None => [6; 7; 8; 9]
    end in
  let simpleBlockDigits :=
    match raw_simpleBlock cfg with
    | Some arr => digitsBetween 1 9 arr
    | None => [1; 2; 3; 4; 5]
    end in
  {| config :=
       {| selectedDigits := selectedDigits base;
          includeFive := includeFive base;
          minState := 0;
          maxState := 99;
          minSteps := default 3 (raw_minSteps cfg);
          maxSteps := default 7 (raw_maxSteps cfg);
          onlyAddition := default false (raw_onlyAddition cfg);
          onlySubtraction := default false (raw_onlySubtraction cfg);
          digitCount := default 2 (raw_digitCount cfg);
          combineLevels := default false (raw_combineLevels cfg) |};
     mixDigits := mixDigits;
     simpleBlockDigits := simpleBlockDigits;
     mixCombinations := _buildMixCombinations mixDigits |}.

(** [%] is the truncating remainder, [Math.floor(x / 10)] the floored
    quotient. *)
Definition _isMixTransition (r : t) (from to : Z) : bool :=
  let delta := to - from in
  if bool_decide (is_Some (mixCombinations r !! delta)) then
    let fromUnits := from `rem` 10 in
    let toUnits := to `rem` 10 in
    let fromTens := from `div` 10 in
    let toTens := to `div` 10 in
    if bool_decide (delta > 0) then
      let friend := getFriend delta in
      bool_decide (fromUnits + delta >= 10) && bool_decide (fromTens < 9)
      && bool_decide (friend > 5)
    else if bool_decide (delta < 0) then
      let absDelta := Z.abs delta in
      let friend := getFriend absDelta in
      bool_decide (fromUnits < absDelta) && bool_decide (fromTens > 0)
      && bool_decide (friend > 5)
    else false
  else false.

(** [Math.floor(mixPriority * 10)] with [mixPriority = 0.6] *)
Definition times : nat := 6.

Definition getAvailableActions (r : t) (state : Z) (isFirst : bool) : list Z :=
  let c := config r in
  if isFirst && negb (onlySubtraction c) then
    (digit ← simpleBlockDigits r;
     let newState := state + digit in
     if bool_decide (newState >= 0) && bool_decide (newState ≤ 99)
     then [digit] else [])
    ++
    (digit ← mixDigits r;
     let newState := state + digit in
     if bool_decide (newState >= 0) && bool_decide (newState ≤ 99)
        && _isMixTransition r state newState
     then replicate times digit else [])
  else if bool_decide (state = 0) && negb (onlySubtraction c) then
    (digit ← simpleBlockDigits r;
     if bool_decide (digit ≤ 99) then [digit] else [])
    ++
    (digit ← mixDigits r;
     let newState := state + digit in
     if bool_decide (newState ≤ 99) && _isMixTransition r state newState
     then replicate times digit else [])
  else
    (if negb (onlySubtraction c) then
       (digit ← simpleBlockDigits r;
        let newState := state + digit in
        if bool_decide (newState >= 0) && bool_decide (newState ≤ 99)
        then [digit] else [])
       ++
       (digit ← mixDigits r;
        let newState := state + digit in
        if bool_decide (newState >= 0) && bool_decide (newState ≤ 99)
           && _isMixTransition r state newState
        then replicate times digit else [])
     else [])
    ++
    (if negb (onlyAddition c) then
       (digit ← simpleBlockDigits r;
        let newState := state - digit in
        if bool_decide (newState >= 0) && bool_decide (newState ≤ 99)
        then [- digit] else [])
       ++
       (digit ← mixDigits r;
        let newState := state - digit in
        if bool_decide (newState >= 0) && bool_decide (newState ≤ 99)
           && _isMixTransition r state newState
        then replicate times (- digit) else [])
     else []).

Definition applyAction (state act : Z) : Z := state + act.

Definition decomposeAction (r : t) (act : Z) : list MicroStep :=
  match mixCombinations r !! act with
  | Some combination => microSteps combination
  | None => [ mkMicro act TySimple ]
  end.

Fixpoint hasMixStep (r : t) (cur : Z) (sts : list Step) : bool :=
  match sts with
  | [] => false
  | st :: rest =>
      let nextState := cur + action st in
      if _isMixTransition r cur nextState then true
      else hasMixStep r nextState rest
  end.

Definition validateExample (r : t) (example : Example) : bool :=
  if bool_decide (length (steps example) = 0%nat) then false
  else if negb (hasMixStep r (start example) (steps example)) then false
  else if negb (statesWithin 0 99 (start example) (steps example)) then false
  else if onlyAddition (config r) && hasNegative (steps example) then false
  else if onlySubtraction (config r) && hasPositive (steps example) then false
  else true.

Definition generateStartState : Z := 0.

Definition generateStepsCount (r : t) : M Z := randomStepsCount (config r).

End MixRule.

(** ** The rule interface

    The generator calls its rule through method names; the object is one of
    the four subclasses of [BaseRule]. *)

Inductive RuleClass : Type :=
  | UnifiedSimpleRuleClass
  | BrothersRuleClass
  | FriendsRuleClass
  | MixRuleClass.

Inductive Rule : Type :=
  | Simple (c : RuleConfig)
  | Brothers (r : BrothersRule.t)
  | Friends (r : FriendsRule.t)
  | Mix (r : MixRule.t).

(** [new RuleClass(config)] *)
Definition construct (K : RuleClass) (cfg : RawConfig) : Rule :=
  match K with
  | UnifiedSimpleRuleClass => Simple (UnifiedSimpleRule.new cfg)
  | BrothersRuleClass => Brothers (BrothersRule.new cfg)
  | FriendsRuleClass => Friends (FriendsRule.new cfg)
  | MixRuleClass => Mix (MixRule.new cfg)
  end.

Definition classOf (rule : Rule) : RuleClass :=
  match rule with
  | Simple _ => UnifiedSimpleRuleClass
  | Brothers _ => BrothersRuleClass
  | Friends _ => FriendsRuleClass
  | Mix _ => MixRuleClass
  end.

(** [rule.config] *)
Definition configOf (rule : Rule) : RuleConfig :=
  match rule with
  | Simple c => c
  | Brothers r => BrothersRule.config r
  | Friends r => FriendsRule.config r
  | Mix r => MixRule.config r
  end.

Definition generateStartState (rule : Rule) : Z :=
  match rule with
  | Simple _ => UnifiedSimpleRule.generateStartState
  | Brothers _ => BrothersRule.generateStartState
  | Friends _ => FriendsRule.generateStartState
  | Mix _ => MixRule.generateStartState
  end.

Definition generateStepsCount (rule : Rule) : M Z :=
  match rule with
  | Simple c => UnifiedSimpleRule.generateStepsCount c
  | Brothers r => BrothersRule.generateStepsCount r
  | Friends r => FriendsRule.generateStepsCount r
  | Mix r => MixRule.generateStepsCount r
  end.

(** The [position] argument is ignored by every subclass. *)
Definition getAvailableActions (rule : Rule) (state : Z) (isFirst : bool)
    : list Z :=
  match rule with
  | Simple c => UnifiedSimpleRule.getAvailableActions c state isFirst
  | Brothers r => BrothersRule.getAvailableActions r state isFirst
  | Friends r => FriendsRule.getAvailableActions r state isFirst
  | Mix r => MixRule.getAvailableActions r state isFirst
  end.

Definition applyAction (rule : Rule) (state act : Z) : Z :=
  match rule with
  | Simple _ => UnifiedSimpleRule.applyAction state act
  | Brothers _ => BrothersRule.applyAction state act
  | Friends _ => FriendsRule.applyAction state act
  | Mix _ => MixRule.applyAction state act
  end.

Definition validateExample (rule : Rule) (example : Example) : bool :=
  match rule with
  | Simple c => UnifiedSimpleRule.validateExample c example
  | Brothers r => BrothersRule.validateExample r example
  | Friends r => FriendsRule.validateExample r example
  | Mix r => MixRule.validateExample r example
  end.

(** The signature-transition classifier of a rule; the Simple rule has none. *)
Definition isSignatureTransition (rule : Rule) (from to : Z) : bool :=
  match rule with
  | Simple _ => false
  | Brothers r => BrothersRule._isBrotherTransition r from to
  | Friends r => FriendsRule._isFriendTransition r from to
  | Mix r => MixRule._isMixTransition r from to
  end.

(** ** MultiDigitGenerator *)
Module MultiDigitGenerator.

Record t : Type := mk {
  baseRule : Rule;
  displayDigitCount : Z;
  maxDigitCount : Z;
  variableDigitCounts : bool
}.

Definition maxZeroDigits : Z := 1.

Definition new (K : RuleClass) (maxDigitCountArg : Z) (config : RawConfig)
    (variableDigitCountsArg : option bool) : t :=
  let displayDigitCount := Z.max 1 (Z.min 9 maxDigitCountArg) in
  {| baseRule := construct K config;
     displayDigitCount := displayDigitCount;
     maxDigitCount := displayDigitCount + 1;
     variableDigitCounts := default false variableDigitCountsArg |}.

(** The [while (attempts < maxDigitAttempts)] loop that picks one digit;
    [fuel] is [maxDigitAttempts - attempts].  [duplicateDigitProbability] is
    [0.1]. *)
Fixpoint chooseDigit (fuel : nat) (selected : list Z) (usedDigits : gset Z)
    (pos zeroDigitsUsed : Z) : M Z :=
  match fuel with
  | O => mret (default 0 (selected !! 0%nat))
  | S fuel' =>
      digit ← pickRandom selected;
      allowDuplicate ← randomBelow 1 10;
      if negb (bool_decide (digit ∈ usedDigits)) || allowDuplicate then
        if bool_decide (pos = 0) && bool_decide (digit = 0)
        then chooseDigit fuel' selected usedDigits pos zeroDigitsUsed
        else if bool_decide (digit = 0)
                && bool_decide (zeroDigitsUsed >= maxZeroDigits)
        then chooseDigit fuel' selected usedDigits pos zeroDigitsUsed
        else mret digit
      else chooseDigit fuel' selected usedDigits pos zeroDigitsUsed
  end.

(** [for (let pos = 0; pos < digitCount; pos++)]; the counter
    [config._zeroDigitsUsed] is threaded through. *)
Fixpoint chooseDigits (n : nat) (selected : list Z) (pos : Z)
    (digits : list Z) (usedDigits : gset Z) (zeroDigitsUsed : Z)
    : M (list Z * Z) :=
  match n with
  | O => mret (digits, zeroDigitsUsed)
  | S n' =>
      digit ← chooseDigit 50 selected usedDigits pos zeroDigitsUsed;
      chooseDigits n' selected (pos + 1) (digits ++ [digit])
        ({[ digit ]} ∪ usedDigits)
        (if bool_decide (digit = 0) then zeroDigitsUsed + 1 else zeroDigitsUsed)
  end.

(** [number += digits[i] * Math.pow(10, digits.length - 1 - i)] *)
Fixpoint composeNumber (len i number : Z) (digits : list Z) : Z :=
  match digits with
  | [] => number
  | d :: rest => composeNumber len (i + 1) (number + d * 10 ^ (len - 1 - i)) rest
  end.

(** Returns the action ([None] for [null]) and the updated zero counter.
    With an empty digit array the source computes [NaN] actions, which every
    [validateExample] rejects; that attempt is recorded here as failing at
    once. *)
Definition _generateMultiDigitAction (g : t) (currentState : Z)
    (isFirst : bool) (zeroDigitsUsed : Z) : M (option Z * Z) :=
  let selected := selectedDigits (configOf (baseRule g)) in
  if bool_decide (length selected = 0%nat) then throw (NoMultiDigitAction (-1))
  else
    digitCount ←
      (if variableDigitCounts g
       then k ← randomFloor (displayDigitCount g); mret (1 + k)
       else mret (displayDigitCount g));
    '(digits, zeroDigitsUsed') ←
      chooseDigits (Z.to_nat digitCount) selected 0 [] ∅ zeroDigitsUsed;
    let number := composeNumber (Z.of_nat (length digits)) 0 0 digits in
    sign ←
      (if isFirst then mret 1
       else if bool_decide (currentState = 0) then mret 1
       else if onlyAddition (configOf (baseRule g)) then mret 1
       else if onlySubtraction (configOf (baseRule g)) then mret (-1)
       else b ← randomBelow 1 2; mret (if b : bool then 1 else -1));
    let act := number * sign in
    let nextState := currentState + act in
    if bool_decide (nextState < 0)
       || bool_decide (nextState >= 10 ^ maxDigitCount g)
    then mret (None, zeroDigitsUsed')
    else mret (Some act, zeroDigitsUsed').

Fixpoint attemptLoop (g : t) (n : nat) (i currentState : Z)
    (sts : list Step) (zeroDigitsUsed : Z) : M (list Step * Z) :=
  match n with
  | O => mret (sts, currentState)
  | S n' =>
      let isFirst := bool_decide (i = 0) in
      '(act, zeroDigitsUsed') ←
        _generateMultiDigitAction g currentState isFirst zeroDigitsUsed;
      match act with
      | None => throw (NoMultiDigitAction i)
      | Some act =>
          let nextState := currentState + act in
          if bool_decide (nextState < 0)
             || bool_decide (nextState >= 10 ^ maxDigitCount g)
          then throw (StateOutOfRange nextState)
          else attemptLoop g n' (i + 1) nextState
                 (sts ++ [mkStep act currentState nextState]) zeroDigitsUsed'
      end
  end.

Definition _generateAttempt (g : t) (stepsCount : Z) : M Example :=
  let startState := 0 in
  '(sts, currentState) ←
    attemptLoop g (Z.to_nat stepsCount) 0 startState [] 0;
  mret (mkExample startState sts currentState).

(** One pass of the [for (attempt ...)] body: [Some] is the [return],
    [None] the [continue] or the swallowed exception. *)
Definition tryAttempt (g : t) (stepsCount : Z) : M (option Example) :=
  tryCatch
    (example ← _generateAttempt g stepsCount;
     if negb (validateExample (baseRule g) example) then mret None
     else mret (Some example))
    (λ err, mret None).

Fixpoint attempts (g : t) (stepsCount : Z) (fuel : nat) : M (option Example) :=
  match fuel with
  | O => mret None
  | S fuel' =>
      res ← tryAttempt g stepsCount;
      match res with
      | Some example => mret (Some example)
      | None => attempts g stepsCount fuel'
      end
  end.

Definition maxAttempts : nat := 500.

Definition generateExample (g : t) : M Example :=
  stepsCount ← generateStepsCount (baseRule g);
  res ← attempts g stepsCount maxAttempts;
  match res with
  | Some example => mret example
  | None => throw GenerationFailed
  end.

End MultiDigitGenerator.

(** ** ExampleGenerator *)
Module ExampleGenerator.

(** [this.rule]: a rule, or a [MultiDigitGenerator] (recognised by its
    constructor name). *)
Inductive RuleObject : Type :=
  | Plain (rule : Rule)
  | MultiDigit (g : MultiDigitGenerator.t).

Definition _generateFallbackExample : Example :=
  {| start := 0;
     steps := [ mkStep 1 0 1; mkStep 1 1 2; mkStep (-1) 2 1 ];
     answer := 1 |}.

(** [this.rule.config?.digitCount || 1] *)
Definition effectiveDigitCount (rule : Rule) : Z :=
  if bool_decide (digitCount (configOf rule) = 0) then 1
  else digitCount (configOf rule).

Fixpoint singleDigitLoop (rule : Rule) (n : nat) (i currentState : Z)
    (sts : list Step) : M (list Step * Z) :=
  match n with
  | O => mret (sts, currentState)
  | S n' =>
      let isFirst := bool_decide (i = 0) in
      let available := getAvailableActions rule currentState isFirst in
      if bool_decide (length available = 0%nat)
      then throw (NoActionsAtStep i currentState)
      else
        act ← pickRandom available;
        let nextState := applyAction rule currentState act in
        singleDigitLoop rule n' (i + 1) nextState
          (sts ++ [mkStep act currentState nextState])
  end.

Definition _generateSingleDigitAttempt (rule : Rule) : M Example :=
  let startState := generateStartState rule in
  stepsCount ← generateStepsCount rule;
  '(sts, currentState) ←
    singleDigitLoop rule (Z.to_nat stepsCount) 0 startState [];
  mret (mkExample startState sts currentState).

(** [vector.reduce((sum, val, idx) => sum + val * 10^(length - 1 - idx), 0)] *)
Fixpoint vectorReduce (len idx sum : Z) (vector : list Z) : Z :=
  match vector with
  | [] => sum
  | val :: rest =>
      vectorReduce len (idx + 1) (sum + val * 10 ^ (len - 1 - idx)) rest
  end.

Definition _vectorToNumber (vector : list Z) : Z :=
  vectorReduce (Z.of_nat (length vector)) 0 0 vector.

Definition _pickCombinedAction (rule : Rule) (stateVector : list Z)
    (isFirst : bool) : M Z :=
  let available :=
    getAvailableActions rule (default 0 (stateVector !! 0%nat)) isFirst in
  if bool_decide (length available = 0%nat) then throw NoCombinedActions
  else pickRandom available.

(** The inner [for (let pos ...)] of the independent mode: every column
    reads its own old value and writes its own new value. *)
Fixpoint advanceColumns (rule : Rule) (isFirst : bool) (columns : list Z)
    : M (list Z) :=
  match columns with
  | [] => mret []
  | val :: rest =>
      let available := getAvailableActions rule val isFirst in
      val' ←
        (if bool_decide (length available = 0%nat) then mret val
         else act ← pickRandom available; mret (applyAction rule val act));
      rest' ← advanceColumns rule isFirst rest;
      mret (val' :: rest')
  end.

Fixpoint vectorLoop (rule : Rule) (combine : bool) (n : nat) (i : Z)
    (currentStateVector : list Z) (sts : list Step) : M (list Step * list Z) :=
  match n with
  | O => mret (sts, currentStateVector)
  | S n' =>
      let isFirst := bool_decide (i = 0) in
      if combine then
        act ← _pickCombinedAction rule currentStateVector isFirst;
        let nextStateVector :=
          (λ val, applyAction rule val act) <$> currentStateVector in
        vectorLoop rule combine n' (i + 1) nextStateVector
          (sts ++ [mkStep act (_vectorToNumber currentStateVector)
                              (_vectorToNumber nextStateVector)])
      else
        nextStateVector ← advanceColumns rule isFirst currentStateVector;
        let totalAction :=
          _vectorToNumber nextStateVector
          - _vectorToNumber currentStateVector in
        vectorLoop rule combine n' (i + 1) nextStateVector
          (sts ++ [mkStep totalAction (_vectorToNumber currentStateVector)
                                      (_vectorToNumber nextStateVector)])
  end.

(** [new Array(digitCount)] raises a [RangeError] outside [0 .. 2^32 - 1]. *)
Definition _generateMultiDigitAttemptVectorBased (rule : Rule) : M Example :=
  let digitCount := effectiveDigitCount rule in
  let combine := combineLevels (configOf rule) in
  if negb (bool_decide (0 ≤ digitCount < 2 ^ 32)) then throw InvalidArrayLength
  else
    let startStateVector := replicate (Z.to_nat digitCount) 0 in
    stepsCount ← generateStepsCount rule;
    '(sts, currentStateVector) ←
      vectorLoop rule combine (Z.to_nat stepsCount) 0 startStateVector [];
    mret (mkExample (_vectorToNumber startStateVector) sts
            (_vectorToNumber currentStateVector)).

(** [arr.slice(0, m)]: a negative [m] counts from the end. *)
Definition slice0 {A : Type} (arr : list A) (m : Z) : list A :=
  if bool_decide (m < 0) then take (Z.to_nat (Z.of_nat (length arr) + m)) arr
  else take (Z.to_nat m) arr.

(** "If the chain is longer than [maxSteps], cut it and recompute the
    answer." *)
Definition truncateExample (rule : Rule) (example : Example) : Example :=
  let maxStepsAllowed := maxSteps (configOf rule) in
  if bool_decide (Z.of_nat (length (steps example)) > maxStepsAllowed) then
    let sts := slice0 (steps example) maxStepsAllowed in
    {| start := start example; steps := sts;
       answer := replay (start example) sts |}
  else example.

(** One pass of the [for (attempt ...)] body: [Some] is the [return],
    [None] the [continue] or the swallowed exception. *)
Definition tryAttempt (rule : Rule) (digitCount : Z) : M (option Example) :=
  tryCatch
    (example ←
       (if bool_decide (digitCount = 1) then _generateSingleDigitAttempt rule
        else _generateMultiDigitAttemptVectorBased rule);
     let example := truncateExample rule example in
     if negb (validateExample rule example) then mret None
     else mret (Some example))
    (λ err, mret None).

Fixpoint attempts (rule : Rule) (digitCount : Z) (fuel : nat)
    : M (option Example) :=
  match fuel with
  | O => mret None
  | S fuel' =>
      res ← tryAttempt rule digitCount;
      match res with
      | Some example => mret (Some example)
      | None => attempts rule digitCount fuel'
      end
  end.

Definition maxAttempts (rule : Rule) : nat :=
  let digitCount := effectiveDigitCount rule in
  let base :=
    if bool_decide (digitCount = 1) then 100%nat
    else if bool_decide (digitCount ≤ 3) then 200%nat else 250%nat in
  if negb (combineLevels (configOf rule)) && bool_decide (digitCount > 1)
  then (base * 2)%nat else base.

Definition generate (obj : RuleObject) : M Example :=
  match obj with
  | MultiDigit g => MultiDigitGenerator.generateExample g
  | Plain rule =>
      res ← attempts rule (effectiveDigitCount rule) (maxAttempts rule);
      match res with
      | Some example => mret example
      | None => mret _generateFallbackExample
      end
  end.

(** [{ start, steps: ["+3", "+1", "-2"], answer }] *)
Record TrainerExample : Type := mkTrainer {
  trainer_start : Z;
  trainer_steps : list string;
  trainer_answer : Z
}.

Definition formatAction (act : Z) : string :=
  if bool_decide (act > 0) then "+" +:+ pretty act else pretty act.

Definition toTrainerFormat (example : Example) : TrainerExample :=
  {| trainer_start := start example;
     trainer_steps := (λ st, formatAction (action st)) <$> steps example;
     trainer_answer := answer example |}.

End ExampleGenerator.

(** ** core/generator.js: from UI settings to one formatted example *)

(** One block of the settings: [digits] is [None] when the property is
    absent. *)
Record Block : Type := mkBlock {
  block_digits : option (list Z);
  block_onlyAddition : option bool;
  block_onlySubtraction : option bool
}.

Record Blocks : Type := mkBlocks {
  block_simple : option Block;
  block_brothers : option Block;
  block_friends : option Block;
  block_mix : option Block
}.

Definition noBlocks : Blocks := mkBlocks None None None None.

Record Actions : Type := mkActions {
  actions_infinite : bool;
  actions_min : option Z;
  actions_max : option Z;
  actions_count : option Z
}.

Record Settings : Type := mkSettings {
  settings_digits : option Z;
  settings_combineLevels : bool;
  settings_actions : Actions;
  settings_blocks : Blocks
}.

(** [blocks?.name?.digits || []] *)
Definition digitsOf (b : option Block) : list Z :=
  default [] (b ≫= block_digits).

(** [blocks?.name?.digits?.length > 0] *)
Definition blockActive (b : option Block) : bool :=
  bool_decide (0 < length (digitsOf b))%nat.

Module Generator.

Definition fallback : ExampleGenerator.TrainerExample :=
  {| ExampleGenerator.trainer_start := 0;
     ExampleGenerator.trainer_steps := ["+1"; "+2"; "-1"]%string;
     ExampleGenerator.trainer_answer := 2 |}.

(** The [ruleConfigForClass] literal of the chosen branch. *)
Definition ruleConfigFor (K : RuleClass) (blocks : Blocks)
    (minSteps maxSteps : Z) (combine : bool) : RawConfig :=
  let block :=
    match K with
    | MixRuleClass => block_mix blocks
    | FriendsRuleClass => block_friends blocks
    | BrothersRuleClass => block_brothers blocks
    | UnifiedSimpleRuleClass => block_simple blocks
    end in
  let selected :=
    match K with
    | MixRuleClass => digitsBetween 6 9 (digitsOf block)
    | FriendsRuleClass => digitsBetween 1 9 (digitsOf block)
    | BrothersRuleClass => digitsBetween 1 4 (digitsOf block)
    | UnifiedSimpleRuleClass => digitsBetween 1 9 (digitsOf block)
    end in
  let fallbackDigits :=
    match K with
    | MixRuleClass => [6; 7; 8; 9]
    | FriendsRuleClass => [9]
    | BrothersRuleClass => [4]
    | UnifiedSimpleRuleClass => [1; 2; 3; 4]
    end in
  {| raw_selectedDigits :=
       Some (if bool_decide (0 < length selected)%nat then selected
             else fallbackDigits);
     raw_includeFive :=
       match K with
       | UnifiedSimpleRuleClass =>
           Some (existsb (λ d, bool_decide (d >= 5)) selected)
       | _ => None
       end;
     raw_minState := None;
     raw_maxState := None;
     raw_minSteps := Some minSteps;
     raw_maxSteps := Some maxSteps;
     raw_onlyAddition :=
       Some (default false (block ≫= block_onlyAddition));
     raw_onlySubtraction :=
       Some (default false (block ≫= block_onlySubtraction));
     raw_digitCount := Some 1;
     raw_combineLevels := Some combine;
     raw_simpleBlock :=
       match K with
       | UnifiedSimpleRuleClass => None
       | _ => block_simple blocks ≫= block_digits
       end |}.

(** Priority: Mix > Friends > Brothers > Simple. *)
Definition chooseRuleClass (blocks : Blocks) : RuleClass :=
  if blockActive (block_mix blocks) then MixRuleClass
  else if blockActive (block_friends blocks) then FriendsRuleClass
  else if blockActive (block_brothers blocks) then BrothersRuleClass
  else UnifiedSimpleRuleClass.

Definition generateExample (settings : Settings)
    : M ExampleGenerator.TrainerExample :=
  tryCatch
    (let digitCount :=
       match settings_digits settings with
       | Some d => if bool_decide (d > 0) then d else 1
       | None => 1
       end in
     let combine := settings_combineLevels settings in
     let actionsCfg := settings_actions settings in
     let minSteps :=
       if actions_infinite actionsCfg then 2
       else default (default 2 (actions_count actionsCfg))
                    (actions_min actionsCfg) in
     let maxSteps :=
       if actions_infinite actionsCfg then 12
       else default (default 4 (actions_count actionsCfg))
                    (actions_max actionsCfg) in
     let blocks := settings_blocks settings in
     let K := chooseRuleClass blocks in
     let ruleConfigForClass := ruleConfigFor K blocks minSteps maxSteps combine in
     let rule :=
       if bool_decide (digitCount > 1)
       then ExampleGenerator.MultiDigit
              (MultiDigitGenerator.new K digitCount ruleConfigForClass
                 (Some combine))
       else ExampleGenerator.Plain (construct K ruleConfigForClass) in
     rawExample ← ExampleGenerator.generate rule;
     mret (ExampleGenerator.toTrainerFormat rawExample))
    (λ error, mret fallback).

End Generator.

(** ** print/PrintGenerator.js: a batch of examples for a worksheet *)
Module PrintGenerator.

(** The constructor argument; [None] is an absent property. *)
Record Supplied : Type := mkSupplied {
  supplied_examplesCount : option Z;
  supplied_actionsCount : option Z;
  supplied_digitCount : option Z;
  supplied_blocks : option Blocks;
  supplied_combineLevels : option bool;
  supplied_maxAttemptsPerExample : option Z
}.

Record Config : Type := mkConfig {
  examplesCount : Z;
  actionsCount : Z;
  digitCount : Z;
  blocks : Blocks;
  combineLevels : bool;
  maxAttemptsPerExample : Z
}.

(** [value || fallback] on a number: [undefined] and [0] are falsy. *)
Definition orElse (value : option Z) (fallback : Z) : Z :=
  match value with
  | Some v => if bool_decide (v = 0) then fallback else v
  | None => fallback
  end.

Definition new (config : Supplied) : Config :=
  {| examplesCount := orElse (supplied_examplesCount config) 20;
     actionsCount := orElse (supplied_actionsCount config) 5;
     digitCount := orElse (supplied_digitCount config) 1;
     blocks := default noBlocks (supplied_blocks config);
     combineLevels := default false (supplied_combineLevels config);
     maxAttemptsPerExample :=
       orElse (supplied_maxAttemptsPerExample config) 100 |}.

Definition _hasActiveBlock (blocks : Blocks) : bool :=
  blockActive (block_simple blocks) || blockActive (block_brothers blocks)
  || blockActive (block_friends blocks) || blockActive (block_mix blocks).

Definition validate (c : Config) : M bool :=
  if bool_decide (examplesCount c < 1) || bool_decide (examplesCount c > 1000)
  then throw BadExamplesCount
  else if bool_decide (actionsCount c < 1) || bool_decide (actionsCount c > 20)
  then throw BadActionsCount
  else if bool_decide (digitCount c < 1) || bool_decide (digitCount c > 9)
  then throw BadDigitCount
  else if negb (_hasActiveBlock (blocks c)) then throw NoActiveBlock
  else if blockActive (block_friends (blocks c))
          && bool_decide (digitCount c < 2)
  then throw FriendsNeedTwoDigits
  else if blockActive (block_mix (blocks c)) && bool_decide (digitCount c < 2)
  then throw MixNeedTwoDigits
  else mret true.

Record PrintExample : Type := mkPrintExample {
  id : Z;
  print_steps : list string;
  print_answer : Z;
  print_start : Z
}.

(** The token of fallback position [i] with the number [parseInt] reads
    back from it. *)
Definition fallbackToken (i : Z) : string * Z :=
  if bool_decide (i = 0) then ("+1"%string, 1)
  else if bool_decide (i `rem` 2 = 0) then ("+2"%string, 2)
  else ("-1"%string, -1).

Definition _generateFallbackExample (c : Config) (id : Z) : PrintExample :=
  let count := Z.min 3 (actionsCount c) in
  let tokens := fallbackToken <$> seqZ 0 count in
  {| id := id;
     print_steps := fst <$> tokens;
     print_answer := foldl (λ acc t, acc + snd t) 0 tokens;
     print_start := 0 |}.

Definition settingsOf (c : Config) : Settings :=
  {| settings_digits := Some (digitCount c);
     settings_combineLevels := combineLevels c;
     settings_actions :=
       {| actions_infinite := false; actions_min := None;
          actions_max := None; actions_count := Some (actionsCount c) |};
     settings_blocks := blocks c |}.

(** The [while (attempts < maxAttempts)] loop; [fuel] is
    [maxAttempts - attempts]. *)
Fixpoint singleExampleLoop (c : Config) (id : Z) (fuel : nat)
    : M PrintExample :=
  match fuel with
  | O => mret (_generateFallbackExample c id)
  | S fuel' =>
      res ←
        tryCatch
          (rawExample ← Generator.generateExample (settingsOf c);
           if bool_decide
                (length (ExampleGenerator.trainer_steps rawExample) = 0%nat)
           then mret None
           else mret (Some
                  {| id := id;
                     print_steps := ExampleGenerator.trainer_steps rawExample;
                     print_answer := ExampleGenerator.trainer_answer rawExample;
                     print_start := ExampleGenerator.trainer_start rawExample |}))
          (λ error, mret None);
      match res with
      | Some example => mret example
      | None => singleExampleLoop c id fuel'
      end
  end.

Definition _generateSingleExample (c : Config) (id : Z) : M PrintExample :=
  singleExampleLoop c id (Z.to_nat (maxAttemptsPerExample c)).

Fixpoint generateLoop (c : Config) (n : nat) (i : Z)
    (examples : list PrintExample) : M (list PrintExample) :=
  match n with
  | O => mret examples
  | S n' =>
      examples' ←
        tryCatch
          (example ← _generateSingleExample c (i + 1);
           mret (examples ++ [example]))
          (λ error, mret examples);
      generateLoop c n' (i + 1) examples'
  end.

Definition generate (c : Config) : M (list PrintExample) :=
  _ ← tryCatch (validate c) (λ error, throw error);
  generateLoop c (Z.to_nat (examplesCount c)) 0 [].

End PrintGenerator.

(** ** ui/PrintScreen.js: from the settings form to the worksheet *)
Module PrintScreen.

(** One block of the form: the digits of the active buttons and the two
    check boxes. *)
Record UIBlock : Type := mkUIBlock {
  ui_digits : list Z;
  ui_onlyAddition : bool;
  ui_onlySubtraction : bool
}.

Record UIBlocks : Type := mkUIBlocks {
  ui_simple : UIBlock;
  ui_brothers : UIBlock;
  ui_friends : UIBlock;
  ui_mix : UIBlock
}.

(** What [collectSettings] reads from the page.  [parseInt] of a number
    field is a number or [NaN], here [None]; the title and the comment are
    read by the display code only and are left out. *)
Record Page : Type := mkPage {
  field_examplesCount : option Z;
  field_actionsCount : option Z;
  field_digitCount : option Z;
  page_blocks : UIBlocks
}.

Record Settings : Type := mkSettings {
  examplesCount : option Z;
  actionsCount : option Z;
  digitCount : option Z;
  blocks : UIBlocks;
  combineLevels : bool
}.

Definition collectSettings (page : Page) : Settings :=
  {| examplesCount := field_examplesCount page;
     actionsCount := field_actionsCount page;
     digitCount := field_digitCount page;
     blocks := page_blocks page;
     combineLevels := false |}.

(** [x < n] and [x > n] on a number that may be [NaN]: a comparison with
    [NaN] is false. *)
Definition below (x : option Z) (n : Z) : bool :=
  match x with Some v => bool_decide (v < n) | None => false end.

Definition above (x : option Z) (n : Z) : bool :=
  match x with Some v => bool_decide (v > n) | None => false end.

(** The keys of [t.errors] that [validateSettings] reports. *)
Inductive ValidationError : Type :=
  | examplesCountInvalid
  | actionsCountInvalid
  | digitCountInvalid
  | noBlocksSelected
  | friendsNeed2Digits
  | mixNeed2Digits.

(** [{ valid: true }] or [{ valid: false, error }] *)
Inductive Validation : Type :=
  | Valid
  | Invalid (error : ValidationError).

Definition selected (block : UIBlock) : bool :=
  bool_decide (0 < length (ui_digits block))%nat.

Definition validateSettings (settings : Settings) : Validation :=
  if below (examplesCount settings) 1 || above (examplesCount settings) 1000
  then Invalid examplesCountInvalid
  else if below (actionsCount settings) 1 || above (actionsCount settings) 20
  then Invalid actionsCountInvalid
  else if below (digitCount settings) 1 || above (digitCount settings) 9
  then Invalid digitCountInvalid
  else if negb (selected (ui_simple (blocks settings))
                || selected (ui_brothers (blocks settings))
                || selected (ui_friends (blocks settings))
                || selected (ui_mix (blocks settings)))
  then Invalid noBlocksSelected
  else if selected (ui_friends (blocks settings))
          && below (digitCount settings) 2
  then Invalid friendsNeed2Digits
  else if selected (ui_mix (blocks settings)) && below (digitCount settings) 2
  then Invalid mixNeed2Digits
  else Valid.

(** The [blocks] object as the generator reads it. *)
Definition blockObject (block : UIBlock) : Block :=
  mkBlock (Some (ui_digits block)) (Some (ui_onlyAddition block))
    (Some (ui_onlySubtraction block)).

Definition blocksObject (b : UIBlocks) : Blocks :=
  mkBlocks (Some (blockObject (ui_simple b)))
    (Some (blockObject (ui_brothers b)))
    (Some (blockObject (ui_friends b)))
    (Some (blockObject (ui_mix b))).

(** The argument of [new PrintGenerator({...})]; a [NaN] count is falsy
    like an absent one. *)
Definition generatorConfig (settings : Settings) : PrintGenerator.Supplied :=
  {| PrintGenerator.supplied_examplesCount := examplesCount settings;
     PrintGenerator.supplied_actionsCount := actionsCount settings;
     PrintGenerator.supplied_digitCount := digitCount settings;
     PrintGenerator.supplied_blocks := Some (blocksObject (blocks settings));
     PrintGenerator.supplied_combineLevels := Some (combineLevels settings);
     PrintGenerator.supplied_maxAttemptsPerExample := None |}.

(** What the user gets to see after pressing the button. *)
Inductive Shown : Type :=
  | AlertInvalid (error : ValidationError)
  | Declined
  | AlertNoExamples
  | AlertGenerationFailed (error : Error)
  | Displayed (examples : list PrintGenerator.PrintExample).

(** [handleGenerate]; [confirmed] is the answer to the [confirm] dialog that
    is shown for more than 100 examples, and the body of the [setTimeout]
    callback is run in place.  The constructor options [verbose] and
    [onProgress] only affect logging. *)
Definition handleGenerate (page : Page) (confirmed : bool) : M Shown :=
  let settings := collectSettings page in
  match validateSettings settings with
  | Invalid error => mret (AlertInvalid error)
  | Valid =>
      if above (examplesCount settings) 100 && negb confirmed
      then mret Declined
      else
        tryCatch
          (examples ←
             PrintGenerator.generate
               (PrintGenerator.new (generatorConfig settings));
           if bool_decide (length examples = 0%nat) then mret AlertNoExamples
           else mret (Displayed examples))
          (λ error, mret (AlertGenerationFailed error))
  end.

End PrintScreen.

(** * Statements: auxiliary definitions *)

(** ** Properties of examples used in the statements *)

(** Each step starts where the previous one ended and records
    [toState = fromState + action]. *)
Fixpoint chained (s : Z) (sts : list Step) : Prop :=
  match sts with
  | [] => True
  | st :: rest =>
      fromState st = s ∧ toState st = s + action st
      ∧ chained (s + action st) rest
  end.

(** The running sum after the first [k] steps. *)
Definition prefixSum (example : Example) (k : nat) : Z :=
  replay (start example) (take k (steps example)).

(** "Step [i] of the example is a signature transition of the rule", on the
    running sums that [validateExample] re-simulates. *)
Definition signatureAt (rule : Rule) (example : Example) (i : nat) : Prop :=
  (i < length (steps example))%nat
  ∧ isSignatureTransition rule (prefixSum example i) (prefixSum example (S i))
    = true.

(** The same on the [fromState]/[toState] fields the step records. *)
Definition signatureStepAt (rule : Rule) (example : Example) (i : nat) : Prop :=
  ∃ st, steps example !! i = Some st
        ∧ isSignatureTransition rule (fromState st) (toState st) = true.

(** The rule behind a generator object. *)
Definition ruleOf (obj : ExampleGenerator.RuleObject) : Rule :=
  match obj with
  | ExampleGenerator.Plain rule => rule
  | ExampleGenerator.MultiDigit g => MultiDigitGenerator.baseRule g
  end.

(** Lock-step vector mode: a plain rule with several columns that all move
    by the same action. *)
Definition lockStep (obj : ExampleGenerator.RuleObject) : bool :=
  match obj with
  | ExampleGenerator.Plain rule =>
      negb (bool_decide (ExampleGenerator.effectiveDigitCount rule = 1))
      && combineLevels (configOf rule)
  | ExampleGenerator.MultiDigit _ => false
  end.

(** What the attempt loop guarantees about an example it lets through. *)
Definition accepted (obj : ExampleGenerator.RuleObject) (example : Example)
    : Prop :=
  validateExample (ruleOf obj) example = true
  ∧ start example = 0
  ∧ (lockStep obj = false →
     chained (start example) (steps example)
     ∧ answer example = replay (start example) (steps example)).

(** ** Concrete generator objects used as inputs *)

(** [new BrothersRule({selectedDigits: [4], minSteps: 3, maxSteps: 3,
    digitCount: 2, combineLevels: true})] driven directly. *)
Definition lockStepBrothers : ExampleGenerator.RuleObject :=
  ExampleGenerator.Plain
    (construct BrothersRuleClass
       (mkRaw (Some [4]) None None None (Some 3) (Some 3) None None
              (Some 2) (Some true) None)).

(** [new BrothersRule({selectedDigits: [4], minSteps: 3, maxSteps: 3,
    onlyAddition: true, onlySubtraction: true})]: no action is ever
    available. *)
Definition contradictoryBrothersRule : Rule :=
  construct BrothersRuleClass
    (mkRaw (Some [4]) None None None (Some 3) (Some 3)
           (Some true) (Some true) None None None).

Definition contradictoryBrothers : ExampleGenerator.RuleObject :=
  ExampleGenerator.Plain contradictoryBrothersRule.

(** [new MultiDigitGenerator(UnifiedSimpleRule, 2, {selectedDigits:
    [1,2,3,4], ..., digitCount: 1, variableDigitCounts: false})], as
    [core/generator.js] builds it for two-digit "Simple" worksheets. *)
Definition twoDigitSimpleRaw : RawConfig :=
  mkRaw (Some [1; 2; 3; 4]) (Some false) None None (Some 3) (Some 3)
        (Some false) (Some false) (Some 1) (Some false) None.

Definition twoDigitSimpleGenerator : MultiDigitGenerator.t :=
  MultiDigitGenerator.new UnifiedSimpleRuleClass 2 twoDigitSimpleRaw
    (Some false).

Definition twoDigitSimple : ExampleGenerator.RuleObject :=
  ExampleGenerator.MultiDigit twoDigitSimpleGenerator.

(** The same for the Brothers rule with variable-length numbers. *)
Definition variableBrothersRaw : RawConfig :=
  mkRaw (Some [4]) None None None (Some 3) (Some 3)
        (Some false) (Some false) (Some 1) (Some true) None.

Definition variableBrothers : ExampleGenerator.RuleObject :=
  ExampleGenerator.MultiDigit
    (MultiDigitGenerator.new BrothersRuleClass 2 variableBrothersRaw
       (Some true)).

(** [start + sum(step.action)] *)
Definition sumOfActions (example : Example) : Z :=
  start example + foldr (λ st acc, action st + acc) 0 (steps example).

(** The declared state bound of each technique. *)
Definition declaredBoundOk (K : RuleClass) (bound : Z) : Prop :=
  match K with
  | UnifiedSimpleRuleClass => bound = 4 ∨ bound = 9
  | BrothersRuleClass => bound = 9
  | FriendsRuleClass | MixRuleClass => bound = 99
  end.

(** ** The ConfigInvalid preconditions *)

(** "[examplesCount] outside [1,1000], [actionsCount] outside [1,20],
    [digitCount] outside [1,9], no block selected, or friends/mix selected
    with [digitCount < 2]". *)
Definition violatesPreconditions (examplesCount actionsCount digitCount : Z)
    (blocks : Blocks) : bool :=
  negb (bool_decide (1 ≤ examplesCount ≤ 1000))
  || negb (bool_decide (1 ≤ actionsCount ≤ 20))
  || negb (bool_decide (1 ≤ digitCount ≤ 9))
  || negb (blockActive (block_simple blocks)
           || blockActive (block_brothers blocks)
           || blockActive (block_friends blocks)
           || blockActive (block_mix blocks))
  || ((blockActive (block_friends blocks) || blockActive (block_mix blocks))
      && bool_decide (digitCount < 2)).

(** The preconditions on the configuration the constructor resolved. *)
Definition configInvalid (c : PrintGenerator.Config) : bool :=
  violatesPreconditions (PrintGenerator.examplesCount c)
    (PrintGenerator.actionsCount c) (PrintGenerator.digitCount c)
    (PrintGenerator.blocks c).

Definition simpleBlocks : Blocks :=
  mkBlocks (Some (mkBlock (Some [1; 2; 3; 4]) None None)) None None None.

(** [new PrintGenerator({examplesCount: 0, actionsCount: 5, digitCount: 1,
    blocks: {simple: {digits: [1,2,3,4]}}})] *)
Definition zeroExamplesSupplied : PrintGenerator.Supplied :=
  PrintGenerator.mkSupplied (Some 0) (Some 5) (Some 1) (Some simpleBlocks)
    None None.

(** The same with [examplesCount: 2000]. *)
Definition tooManyExamplesSupplied : PrintGenerator.Supplied :=
  PrintGenerator.mkSupplied (Some 2000) (Some 5) (Some 1) (Some simpleBlocks)
    None None.

(** ** Auxiliary definitions for the rules *)

Definition onlySubtractionRaw : RawConfig :=
  mkRaw (Some [1; 2; 3; 4]) None None None None None None (Some true) None None None.

Definition brotherUp (n v : Z) : bool :=
  bool_decide (v + n >= 0) && bool_decide (v + n ≤ 9)
  && bool_decide (v < 5) && bool_decide (v + 5 >= 5 - n).

Definition brotherDown (n v : Z) : bool :=
  bool_decide (v - n >= 0) && bool_decide (v - n ≤ 9)
  && bool_decide (v >= 5) && bool_decide (v - 5 - n >= 0)
  && bool_decide (v - 5 - n ≤ 4).

(** The signature condition in the design's words: the move is [+5 - (5 - n)]
    with the upper bead inactive and [5 - n] active lower beads to take
    away, or [-5 + (5 - n)] with the upper bead active and room for [5 - n]
    more lower beads. *)
Definition brotherTransition_spec (n from to : Z) : bool :=
  let upperActive := bool_decide (from >= 5) in
  let lowerActive := if upperActive then from - 5 else from in
  (bool_decide (to = from + n) && negb upperActive
   && bool_decide (lowerActive >= 5 - n))
  || (bool_decide (to = from - n) && upperActive
      && bool_decide (lowerActive + (5 - n) ≤ 4)).

Definition brothersOf (digits : list Z) : RawConfig :=
  mkRaw (Some digits) None None None None None None None None None None.



(** The bound each validator enforces. *)
Definition enforcedBound (rule : Rule) : Z :=
  match rule with
  | Simple c => maxState c
  | Brothers _ => 9
  | Friends _ | Mix _ => 99
  end.

(** ** Notions used in the further properties *)

(** What makes an offered action legal on one column: the move stays inside
    the rule's bounds, is a single non-zero digit and has the sign the flags
    allow. *)
Definition offeredOk (c : RuleConfig) (state act : Z) : Prop :=
  0 ≤ state + act ≤ maxState c
  ∧ 1 ≤ Z.abs act ≤ 9
  ∧ (onlyAddition c = true → 0 < act)
  ∧ (onlySubtraction c = true → act < 0).

(** The conditions under which [_buildFriendPairs] records [v -> v + n] and
    [v -> v - n]. *)
Definition friendUp (n v : Z) : bool :=
  bool_decide (v + n >= 0) && bool_decide (v + n ≤ 99)
  && bool_decide (v `rem` 10 + n >= 10) && bool_decide (v `div` 10 < 9).

Definition friendDown (n v : Z) : bool :=
  bool_decide (v - n >= 0) && bool_decide (v - n ≤ 99)
  && bool_decide (v `rem` 10 < n) && bool_decide (v `div` 10 > 0).

(** How often [x] occurs in an action list. *)
Definition countIn (x : Z) (l : list Z) : nat :=
  length (filter (λ y, y = x) l).

(** The attempt [ExampleGenerator.generate] makes before truncation and
    validation. *)
Definition rawAttempt (rule : Rule) : M Example :=
  if bool_decide (ExampleGenerator.effectiveDigitCount rule = 1)
  then ExampleGenerator._generateSingleDigitAttempt rule
  else ExampleGenerator._generateMultiDigitAttemptVectorBased rule.

(** "Step [i] was picked from the list the rule offered in the state the
    step records." *)
Definition offeredAt (rule : Rule) (i : nat) (st : Step) : Prop :=
  action st ∈ getAvailableActions rule (fromState st) (bool_decide (i = 0%nat)).

(** The number a digit list denotes, most significant digit first. *)
Fixpoint valueOf (digits : list Z) : Z :=
  match digits with
  | [] => 0
  | d :: rest => d * 10 ^ Z.of_nat (length rest) + valueOf rest
  end.


(** An operand of a multi-digit example: it has at most
    [displayDigitCount] digits, and exactly that many in fixed-length mode. *)
Definition multiDigitActionOk (g : MultiDigitGenerator.t) (act : Z) : Prop :=
  1 ≤ Z.abs act < 10 ^ MultiDigitGenerator.displayDigitCount g
  ∧ (MultiDigitGenerator.variableDigitCounts g = false →
     10 ^ (MultiDigitGenerator.displayDigitCount g - 1) ≤ Z.abs act).

(** The values [core/generator.js] derives from the settings before it
    builds the rule. *)
Definition settingsDigitCount (settings : Settings) : Z :=
  match settings_digits settings with
  | Some d => if bool_decide (d > 0) then d else 1
  | None => 1
  end.

Definition settingsMinSteps (settings : Settings) : Z :=
  let actionsCfg := settings_actions settings in
  if actions_infinite actionsCfg then 2
  else default (default 2 (actions_count actionsCfg)) (actions_min actionsCfg).

Definition settingsMaxSteps (settings : Settings) : Z :=
  let actionsCfg := settings_actions settings in
  if actions_infinite actionsCfg then 12
  else default (default 4 (actions_count actionsCfg)) (actions_max actionsCfg).

Definition settingsRuleConfig (settings : Settings) : RawConfig :=
  Generator.ruleConfigFor (Generator.chooseRuleClass (settings_blocks settings))
    (settings_blocks settings) (settingsMinSteps settings)
    (settingsMaxSteps settings) (settings_combineLevels settings).

(** The object [generateExample] hands to [ExampleGenerator]. *)
Definition settingsRule (settings : Settings) : ExampleGenerator.RuleObject :=
  let K := Generator.chooseRuleClass (settings_blocks settings) in
  if bool_decide (settingsDigitCount settings > 1)
  then ExampleGenerator.MultiDigit
         (MultiDigitGenerator.new K (settingsDigitCount settings)
            (settingsRuleConfig settings)
            (Some (settings_combineLevels settings)))
  else ExampleGenerator.Plain (construct K (settingsRuleConfig settings)).

(** The three shapes a formatted example can have. *)
Definition formattedOk (lo hi : Z) (ex : ExampleGenerator.TrainerExample)
    : Prop :=
  ExampleGenerator.trainer_start ex = 0
  ∧ (ex = Generator.fallback
     ∨ ex = ExampleGenerator.toTrainerFormat
              ExampleGenerator._generateFallbackExample
     ∨ lo ≤ Z.of_nat (length (ExampleGenerator.trainer_steps ex)) ≤ hi).

(** The raw example whose formatting is the fallback of
    [core/generator.js]. *)
Definition generatorFallbackRaw : Example :=
  mkExample 0 [mkStep 1 0 1; mkStep 2 1 3; mkStep (-1) 3 2] 2.

(** A worksheet line: it starts from 0 and has [actionsCount] steps, or the
    three steps of a fallback. *)
Definition printedOk (c : PrintGenerator.Config)
    (ex : PrintGenerator.PrintExample) : Prop :=
  PrintGenerator.print_start ex = 0
  ∧ (Z.of_nat (length (PrintGenerator.print_steps ex))
     = PrintGenerator.actionsCount c
     ∨ length (PrintGenerator.print_steps ex) = 3%nat).

(** The fallback of [core/generator.js] as a worksheet line. *)
Definition printedFallback (id : Z) : PrintGenerator.PrintExample :=
  {| PrintGenerator.id := id;
     PrintGenerator.print_steps := ["+1"; "+2"; "-1"]%string;
     PrintGenerator.print_answer := 2;
     PrintGenerator.print_start := 0 |}.

Definition alwaysFallback (settings : Settings) : Prop :=
  ∀ src, ∃ src',
    Generator.generateExample settings src = (Ok Generator.fallback, src').

(** ** The settings form *)

(** The form left the digit-count field unreadable while a block that needs
    two columns is selected. *)
Definition blankDigitCount (page : PrintScreen.Page) : Prop :=
  PrintScreen.field_digitCount page = None
  ∧ (PrintScreen.ui_digits (PrintScreen.ui_friends (PrintScreen.page_blocks page))
       ≠ []
     ∨ PrintScreen.ui_digits (PrintScreen.ui_mix (PrintScreen.page_blocks page))
       ≠ []).

Definition pageConfig (page : PrintScreen.Page) : PrintGenerator.Config :=
  PrintGenerator.new
    (PrintScreen.generatorConfig (PrintScreen.collectSettings page)).

(** ** Further concrete inputs *)

Definition variableBrothersSource : Source :=
  [0; 0; 0; 0; 0; 0; 0; 2 ^ 52; 0; 2 ^ 52; 0; 0; 2 ^ 53 - 1].

(** [new UnifiedSimpleRule({})] driven directly. *)
Definition plainSimple : ExampleGenerator.RuleObject :=
  ExampleGenerator.Plain (construct UnifiedSimpleRuleClass emptyRaw).

Definition mixBlocks : Blocks :=
  mkBlocks None None None (Some (mkBlock (Some [6; 7]) None None)).

(** [actions: {count: 3}] *)
Definition threeActions : Actions := mkActions false None None (Some 3).

Definition twoDigitSettings : Settings :=
  mkSettings (Some 2) false threeActions simpleBlocks.

Definition mixSettings : Settings :=
  mkSettings (Some 2) true threeActions mixBlocks.

Definition oneDigitSettings : Settings :=
  mkSettings (Some 1) false threeActions simpleBlocks.

(** [new PrintGenerator({examplesCount: 2, actionsCount: 3, digitCount: 1,
    blocks: {simple: {digits: [1,2,3,4]}}})] *)
Definition smallWorksheet : PrintGenerator.Config :=
  PrintGenerator.new
    (PrintGenerator.mkSupplied (Some 2) (Some 3) (Some 1) (Some simpleBlocks)
       None None).

(** The same with [digitCount: 2]. *)
Definition twoDigitWorksheet : PrintGenerator.Config :=
  PrintGenerator.new
    (PrintGenerator.mkSupplied (Some 2) (Some 3) (Some 2) (Some simpleBlocks)
       None None).

(** The form with two examples of three actions on one column, digits 1-4
    of the Simple block active. *)
Definition simplePageBlocks : PrintScreen.UIBlocks :=
  PrintScreen.mkUIBlocks
    (PrintScreen.mkUIBlock [1; 2; 3; 4] false false)
    (PrintScreen.mkUIBlock [] false false)
    (PrintScreen.mkUIBlock [] false false)
    (PrintScreen.mkUIBlock [] false false).

Definition simplePage : PrintScreen.Page :=
  PrintScreen.mkPage (Some 2) (Some 3) (Some 1) simplePageBlocks.

(** The same with two columns. *)
Definition twoColumnPage : PrintScreen.Page :=
  PrintScreen.mkPage (Some 2) (Some 3) (Some 2) simplePageBlocks.

(** * The rules *)

(** ** Shared facts: the monad *)

Lemma bind_run {A B : Type} (m : M A) (f : A → M B) (src : Source) :
  (m ≫= f) src =
  match m src with
  | (Ok a, src') => f a src'
  | (Thrown e, src') => (Thrown e, src')
  end.
Proof. reflexivity. Qed.

Lemma bind_ok {A B : Type} (m : M A) (f : A → M B) src b src2 :
  (m ≫= f) src = (Ok b, src2) →
  ∃ a src1, m src = (Ok a, src1) ∧ f a src1 = (Ok b, src2).
Proof.
  rewrite bind_run. destruct (m src) as [[a|e] src1]; [eauto | discriminate].
Qed.

Lemma ret_ok {A : Type} (a b : A) (src src' : Source) :
  (mret a : M A) src = (Ok b, src') → a = b ∧ src = src'.
Proof. intros [= -> ->]. done. Qed.

(** ** The model on small inputs *)

Example simple_first_actions :
  getAvailableActions (construct UnifiedSimpleRuleClass emptyRaw) 0 true
  = [1; 2; 3; 4].
Proof. reflexivity. Qed.

Example simple_actions_from_three :
  getAvailableActions (construct UnifiedSimpleRuleClass emptyRaw) 3 false
  = [1; -1; -2; -3].
Proof. reflexivity. Qed.

(** Friends rule with digit 9: 13 -> 22 and 5 -> 14 carry into the tens. *)
Example friends_thirteen_plus_nine :
  FriendsRule._isFriendTransition (FriendsRule.new emptyRaw) 13 22 = true
  ∧ FriendsRule._isFriendTransition (FriendsRule.new emptyRaw) 5 14 = true
  ∧ FriendsRule._isFriendTransition (FriendsRule.new emptyRaw) 0 9 = false.
Proof. vm_compute. repeat split. Qed.

Example brothers_actions_from_four :
  getAvailableActions (construct BrothersRuleClass emptyRaw) 4 false
  = [1; 2; 3; 4; 5; 4; 4; 4; 4; 4; -1; -2; -3; -4].
Proof. vm_compute. reflexivity. Qed.

Example fallback_in_trainer_format :
  ExampleGenerator.toTrainerFormat ExampleGenerator._generateFallbackExample
  = ExampleGenerator.mkTrainer 0 ["+1"; "+1"; "-1"]%string 1.
Proof. vm_compute. reflexivity. Qed.

Example vector_to_number : ExampleGenerator._vectorToNumber [4; 0; 7] = 407.
Proof. reflexivity. Qed.

Example slice_negative_end :
  ExampleGenerator.slice0 [1; 2; 3; 4] (-1) = [1; 2; 3]
  ∧ ExampleGenerator.slice0 [1; 2; 3; 4] 2 = [1; 2].
Proof. split; reflexivity. Qed.

Example print_fallback_example :
  PrintGenerator._generateFallbackExample
    (PrintGenerator.new tooManyExamplesSupplied) 7
  = PrintGenerator.mkPrintExample 7 ["+1"; "-1"; "+2"]%string 2 0.
Proof. vm_compute. reflexivity. Qed.

(** ** Shared facts: digits kept by the constructors *)

Lemma digitsBetween_range lo hi arr d :
  d ∈ digitsBetween lo hi arr → lo ≤ d ≤ hi.
Proof. unfold digitsBetween. rewrite list_elem_of_filter. tauto. Qed.

Lemma simple_digits_range cfg d :
  d ∈ selectedDigits (UnifiedSimpleRule.new cfg) → 1 ≤ d ≤ 9.
Proof.
  simpl. destruct (raw_selectedDigits cfg) as [arr|].
  - apply digitsBetween_range.
  - rewrite !elem_of_cons, elem_of_nil. lia.
Qed.

Lemma simpleBlock_range (block : option (list Z)) d :
  d ∈ match block with
      | Some arr => digitsBetween 1 9 arr
      | None => [1; 2; 3; 4; 5]
      end → 1 ≤ d ≤ 9.
Proof.
  destruct block as [arr|].
  - apply digitsBetween_range.
  - rewrite !elem_of_cons, elem_of_nil. lia.
Qed.

Lemma brothers_digits_range cfg d :
  d ∈ BrothersRule.brothersDigits (BrothersRule.new cfg) → 1 ≤ d ≤ 4.
Proof.
  simpl. destruct (raw_selectedDigits cfg) as [arr|].
  - apply digitsBetween_range.
  - rewrite list_elem_of_singleton. lia.
Qed.

Lemma friends_digits_range cfg d :
  d ∈ FriendsRule.friendsDigits (FriendsRule.new cfg) → 1 ≤ d ≤ 9.
Proof.
  simpl. destruct (raw_selectedDigits cfg) as [arr|].
  - apply digitsBetween_range.
  - rewrite list_elem_of_singleton. lia.
Qed.

Lemma mix_digits_range cfg d :
  d ∈ MixRule.mixDigits (MixRule.new cfg) → 6 ≤ d ≤ 9.
Proof.
  simpl. destruct (raw_selectedDigits cfg) as [arr|].
  - apply digitsBetween_range.
  - rewrite !elem_of_cons, elem_of_nil. lia.
Qed.

(** An action list assembled by [for (const digit of digits) ... push]. *)
Lemma Forall_pushed (P : Z → Prop) (digits : list Z) (f : Z → list Z) :
  (∀ d, d ∈ digits → Forall P (f d)) → Forall P (digits ≫= f).
Proof.
  intros H. apply Forall_bind, Forall_forall. exact H.
Qed.

(** ** Available actions *)

Ltac solve_pushed range_lemma :=
  apply Forall_pushed; intros d Hd; apply range_lemma in Hd; simpl;
  repeat match goal with
         | |- context [bool_decide ?P] => destruct (bool_decide_reflect P)
         | |- context [if ?b then _ else _] => destruct b eqn:?
         end; simpl;
  try (apply Forall_replicate);
  repeat constructor; lia.

Ltac solve_actions simple_lemma special_lemma :=
  repeat match goal with
         | |- Forall _ (_ ++ _) => apply Forall_app_2
         | |- Forall _ [] => constructor
         | |- Forall _ (if ?b then _ else _) => destruct b eqn:?
         end;
  first [ solve_pushed simple_lemma | solve_pushed special_lemma ].

Lemma simple_actions_nonnegative cfg state isFirst :
  state = 0 ∨ (isFirst = true ∧ onlySubtraction (UnifiedSimpleRule.new cfg) = false) →
  Forall (λ act, 0 ≤ act)
    (UnifiedSimpleRule.getAvailableActions (UnifiedSimpleRule.new cfg) state isFirst).
Proof.
  intros H. unfold UnifiedSimpleRule.getAvailableActions.
  set (c := UnifiedSimpleRule.new cfg) in *.
  assert (Hr : ∀ d, d ∈ selectedDigits c → 1 ≤ d ≤ 9)
    by apply simple_digits_range.
  destruct (onlySubtraction c) eqn:Hsub; destruct isFirst; simpl;
    destruct (bool_decide_reflect (state = 0)); simpl;
    try (destruct H as [? | [? ?]]; congruence);
    subst; solve_actions Hr Hr.
Qed.

Lemma brothers_actions_nonnegative cfg state isFirst :
  state = 0 ∨ (isFirst = true
               ∧ onlySubtraction (BrothersRule.config (BrothersRule.new cfg)) = false) →
  Forall (λ act, 0 ≤ act)
    (BrothersRule.getAvailableActions (BrothersRule.new cfg) state isFirst).
Proof.
  intros H.
  assert (Hs : ∀ d, d ∈ BrothersRule.simpleBlockDigits (BrothersRule.new cfg)
                    → 1 ≤ d ≤ 9) by (intros d; apply simpleBlock_range).
  assert (Hb : ∀ d, d ∈ BrothersRule.brothersDigits (BrothersRule.new cfg)
                    → 1 ≤ d ≤ 4) by apply brothers_digits_range.
  revert H Hs Hb. generalize (BrothersRule.new cfg). intros r H Hs Hb.
  unfold BrothersRule.getAvailableActions, BrothersRule.times.
  destruct (onlySubtraction (BrothersRule.config r)) eqn:Hsub;
    destruct isFirst; simpl;
    destruct (bool_decide_reflect (state = 0)); simpl;
    try (destruct H as [? | [? ?]]; congruence);
    subst; solve_actions Hs Hb.
Qed.

Lemma friends_actions_nonnegative cfg state isFirst :
  state = 0 ∨ (isFirst = true
               ∧ onlySubtraction (FriendsRule.config (FriendsRule.new cfg)) = false) →
  Forall (λ act, 0 ≤ act)
    (FriendsRule.getAvailableActions (FriendsRule.new cfg) state isFirst).
Proof.
  intros H.
  assert (Hs : ∀ d, d ∈ FriendsRule.simpleBlockDigits (FriendsRule.new cfg)
                    → 1 ≤ d ≤ 9) by (intros d; apply simpleBlock_range).
  assert (Hb : ∀ d, d ∈ FriendsRule.friendsDigits (FriendsRule.new cfg)
                    → 1 ≤ d ≤ 9) by apply friends_digits_range.
  revert H Hs Hb. generalize (FriendsRule.new cfg). intros r H Hs Hb.
  unfold FriendsRule.getAvailableActions, FriendsRule.times.
  destruct (onlySubtraction (FriendsRule.config r)) eqn:Hsub;
    destruct isFirst; simpl;
    destruct (bool_decide_reflect (state = 0)); simpl;
    try (destruct H as [? | [? ?]]; congruence);
    subst; solve_actions Hs Hb.
Qed.

Lemma mix_actions_nonnegative cfg state isFirst :
  state = 0 ∨ (isFirst = true
               ∧ onlySubtraction (MixRule.config (MixRule.new cfg)) = false) →
  Forall (λ act, 0 ≤ act)
    (MixRule.getAvailableActions (MixRule.new cfg) state isFirst).
Proof.
  intros H.
  assert (Hs : ∀ d, d ∈ MixRule.simpleBlockDigits (MixRule.new cfg)
                    → 1 ≤ d ≤ 9) by (intros d; apply simpleBlock_range).
  assert (Hb : ∀ d, d ∈ MixRule.mixDigits (MixRule.new cfg)
                    → 6 ≤ d ≤ 9) by apply mix_digits_range.
  revert H Hs Hb. generalize (MixRule.new cfg). intros r H Hs Hb.
  unfold MixRule.getAvailableActions, MixRule.times.
  destruct (onlySubtraction (MixRule.config r)) eqn:Hsub;
    destruct isFirst; simpl;
    destruct (bool_decide_reflect (state = 0)); simpl;
    try (destruct H as [? | [? ?]]; congruence);
    subst; solve_actions Hs Hb.
Qed.

(** C6, as amended: for each of the four rule variants, built by its
    constructor from any configuration, [getAvailableActions state isFirst]
    returns only non-negative actions when [state] is 0, or when [isFirst]
    holds and [onlySubtraction] is off.  (With [onlySubtraction] set the
    "first action" branch is skipped by its guard.) *)
Theorem available_actions_nonnegative
    (K : RuleClass) (cfg : RawConfig) (state : Z) (isFirst : bool) :
  state = 0
  ∨ (isFirst = true ∧ onlySubtraction (configOf (construct K cfg)) = false) →
  Forall (λ act, 0 ≤ act) (getAvailableActions (construct K cfg) state isFirst).
Proof.
  destruct K; cbn [construct configOf getAvailableActions].
  - apply simple_actions_nonnegative.
  - apply brothers_actions_nonnegative.
  - apply friends_actions_nonnegative.
  - apply mix_actions_nonnegative.
Qed.

Lemma available_actions_nonnegative_witness :
  Forall (λ act, 0 ≤ act)
    (getAvailableActions (construct BrothersRuleClass emptyRaw) 0 true).
Proof.
  apply (available_actions_nonnegative BrothersRuleClass emptyRaw 0 true).
  left. reflexivity.
Defined.

(** With [onlySubtraction] set, a first action taken from state 3 is
    negative. *)
Lemma first_action_may_be_negative :
  getAvailableActions (construct UnifiedSimpleRuleClass onlySubtractionRaw)
    3 true = [-1; -2; -3]
  ∧ ¬ Forall (λ act, 0 ≤ act)
        (getAvailableActions
           (construct UnifiedSimpleRuleClass onlySubtractionRaw) 3 true).
Proof.
  split; [vm_compute; reflexivity|].
  intros H. apply Forall_inv in H. vm_compute in H. by apply H.
Qed.

(** ** The Mix table *)

Lemma mixCombinations_entry digits k c :
  (∀ n, n ∈ digits → 6 ≤ n ≤ 9) →
  MixRule._buildMixCombinations digits !! k = Some c →
  6 ≤ Z.abs k ≤ 9 ∧ microSum (MixRule.microSteps c) = k.
Proof.
  unfold MixRule._buildMixCombinations.
  assert (Hempty : ∀ k c, (∅ : gmap Z MixRule.Combination) !! k = Some c →
            6 ≤ Z.abs k ≤ 9 ∧ microSum (MixRule.microSteps c) = k)
    by (intros ? ?; rewrite lookup_empty; discriminate).
  revert Hempty. generalize (∅ : gmap Z MixRule.Combination) as m.
  induction digits as [|n digits IH]; intros m Hm Hrange; simpl.
  - apply Hm.
  - apply IH.
    + intros k' c'. rewrite !lookup_insert.
      assert (6 ≤ n ≤ 9) by (apply Hrange; left).
      repeat case_decide; subst.
      * intros [= <-]. unfold microSum, MixRule.getFriend. simpl. lia.
      * intros [= <-]. unfold microSum, MixRule.getFriend. simpl. lia.
      * apply Hm.
    + intros n' Hn'. apply Hrange. by right.
Qed.

Lemma isMixTransition_false cfg from to :
  MixRule._isMixTransition (MixRule.new cfg) from to = false.
Proof.
  unfold MixRule._isMixTransition.
  destruct (bool_decide_reflect
              (is_Some (MixRule.mixCombinations (MixRule.new cfg) !! (to - from))))
    as [[c Hc] | _]; [|done].
  apply mixCombinations_entry in Hc as [Habs _];
    [| intros n; apply mix_digits_range].
  unfold MixRule.getFriend.
  repeat case_bool_decide; simpl; try done; lia.
Qed.

Lemma hasMixStep_false cfg cur sts :
  MixRule.hasMixStep (MixRule.new cfg) cur sts = false.
Proof.
  revert cur. induction sts as [|st sts IH]; intros cur; [done|].
  cbn [MixRule.hasMixStep]. rewrite isMixTransition_false. apply IH.
Qed.

(** C4: for every [MixRule] instance and all states [from], [to] in
    [0, 99], [_isMixTransition from to] is [false] (a table key [delta] has
    [6 <= |delta| <= 9], so [10 - |delta| > 5] never holds), and therefore
    [validateExample] rejects every example. *)
Theorem mix_rule_recognises_no_transition
    (cfg : RawConfig) (from to : Z) (example : Example) :
  0 ≤ from ≤ 99 → 0 ≤ to ≤ 99 →
  MixRule._isMixTransition (MixRule.new cfg) from to = false
  ∧ MixRule.validateExample (MixRule.new cfg) example = false.
Proof.
  intros _ _. split; [apply isMixTransition_false|].
  unfold MixRule.validateExample.
  rewrite hasMixStep_false. by case_bool_decide.
Qed.

Lemma mix_rule_recognises_no_transition_witness :
  MixRule._isMixTransition (MixRule.new emptyRaw) 5 12 = false
  ∧ MixRule.validateExample (MixRule.new emptyRaw)
      (mkExample 0 [mkStep 5 0 5; mkStep 7 5 12] 12) = false.
Proof.
  apply (mix_rule_recognises_no_transition emptyRaw 5 12); lia.
Defined.

(** ** Transition tables *)

Lemma tableLookup_true pairs from to delta digits :
  tableLookup pairs from to delta digits = true
  ↔ delta ∈ digits ∧ (from, to, delta) ∈ pairs.
Proof.
  induction digits as [|n digits IH]; simpl.
  - rewrite elem_of_nil. intuition discriminate.
  - rewrite elem_of_cons. case_bool_decide as Hd.
    + subst n. rewrite bool_decide_eq_true. tauto.
    + rewrite IH. intuition congruence.
Qed.

(** A loop whose body adds [key v] to the set when [cond v] holds. *)
Lemma foldl_conditional_add (cond : Z → bool) (key : Z → Z * Z * Z)
    (body : TransitionTable → Z → TransitionTable) :
  (∀ pairs v, body pairs v = if cond v then {[ key v ]} ∪ pairs else pairs) →
  ∀ (vs : list Z) (pairs : TransitionTable) (k : Z * Z * Z),
    k ∈ foldl body pairs vs
    ↔ k ∈ pairs ∨ ∃ v, v ∈ vs ∧ cond v = true ∧ k = key v.
Proof.
  intros Hbody vs. induction vs as [|v vs IH]; intros pairs k; simpl.
  - split; [by left|]. intros [?|(v & Hv & _)]; [done|]. by apply elem_of_nil in Hv.
  - rewrite IH, Hbody. split.
    + intros [Hk | (v' & Hv' & Hc & ->)].
      * destruct (cond v) eqn:Hc; [|by left].
        apply elem_of_union in Hk as [Hk|Hk]; [|by left].
        apply elem_of_singleton in Hk. right. exists v. rewrite elem_of_cons. eauto.
      * right. exists v'. rewrite elem_of_cons. eauto.
    + intros [Hk | (v' & Hv' & Hc & ->)].
      * left. destruct (cond v); [apply elem_of_union|]; auto.
      * apply elem_of_cons in Hv' as [->|Hv'].
        -- left. rewrite Hc. apply elem_of_union. left. by apply elem_of_singleton.
        -- right. eauto.
Qed.

Lemma foldl_step {A B : Type} (f : A → B → A) (a : A) (x : B) (l : list B) :
  foldl f a (x :: l) = foldl f (f a x) l.
Proof. reflexivity. Qed.

Lemma brothers_addUp_body n pairs v :
  BrothersRule.addUp n pairs v
  = if brotherUp n v then {[ (v, v + n, n) ]} ∪ pairs else pairs.
Proof.
  unfold BrothersRule.addUp, brotherUp, BrothersRule.getBrother.
  repeat case_bool_decide; simpl; try reflexivity; lia.
Qed.

Lemma brothers_addDown_body n pairs v :
  BrothersRule.addDown n pairs v
  = if brotherDown n v then {[ (v, v - n, n) ]} ∪ pairs else pairs.
Proof.
  unfold BrothersRule.addDown, brotherDown, BrothersRule.getBrother.
  repeat case_bool_decide; simpl; try reflexivity; lia.
Qed.

Lemma brotherPairs_member digits from to n :
  (from, to, n) ∈ BrothersRule._buildBrotherPairs digits
  ↔ n ∈ digits ∧ 0 ≤ from ≤ 9
    ∧ ((to = from + n ∧ brotherUp n from = true)
       ∨ (to = from - n ∧ brotherDown n from = true)).
Proof.
  unfold BrothersRule._buildBrotherPairs.
  transitivity ((from, to, n) ∈ (∅ : TransitionTable)
                ∨ (n ∈ digits ∧ 0 ≤ from ≤ 9
                   ∧ ((to = from + n ∧ brotherUp n from = true)
                      ∨ (to = from - n ∧ brotherDown n from = true))));
    [| rewrite elem_of_empty; tauto ].
  generalize (∅ : TransitionTable) as pairs.
  induction digits as [|m digits IH]; intros pairs.
  - cbn [foldl]. rewrite elem_of_nil. tauto.
  - rewrite foldl_step, IH.
    rewrite (foldl_conditional_add (brotherDown m) (λ v, (v, v - m, m)))
      by apply brothers_addDown_body.
    rewrite (foldl_conditional_add (brotherUp m) (λ v, (v, v + m, m)))
      by apply brothers_addUp_body.
    rewrite elem_of_cons. setoid_rewrite elem_of_seqZ.
    split.
    + intros [[[H | (v & Hv & Hc & [= -> -> ->])] | (v & Hv & Hc & [= -> -> ->])] | H].
      * by left.
      * right. split; [by left|]. split; [lia|]. by left.
      * right. split; [by left|]. split; [lia|]. by right.
      * right. destruct H as (? & ? & ?). split; [by right|]. by split.
    + intros [H | ([-> | Hn] & Hfrom & [[-> Hc] | [-> Hc]])].
      * by do 3 left.
      * left. left. right. exists from. split; [lia|]. by split.
      * left. right. exists from. split; [lia|]. by split.
      * right. split; [done|]. split; [done|]. by left.
      * right. split; [done|]. split; [done|]. by right.
Qed.

(** What the shipped table classifies as a brother transition. *)
Lemma isBrotherTransition_true cfg from to :
  BrothersRule._isBrotherTransition (BrothersRule.new cfg) from to = true
  ↔ Z.abs (to - from) ∈ BrothersRule.brothersDigits (BrothersRule.new cfg)
    ∧ 0 ≤ from ≤ 9 ∧ 0 ≤ to ≤ 9
    ∧ ((from < to ∧ from < 5) ∨ (to < from ∧ 5 ≤ to)).
Proof.
  unfold BrothersRule._isBrotherTransition.
  rewrite tableLookup_true.
  change (BrothersRule.brotherPairs (BrothersRule.new cfg))
    with (BrothersRule._buildBrotherPairs
            (BrothersRule.brothersDigits (BrothersRule.new cfg))).
  rewrite brotherPairs_member.
  split.
  - intros (Hd & _ & Hfrom & Hcases). pose proof (brothers_digits_range _ _ Hd).
    split; [done|]. unfold brotherUp, brotherDown in Hcases.
    destruct Hcases as [[Hto Hc] | [Hto Hc]];
      repeat (apply andb_prop in Hc as [Hc ?]);
      repeat match goal with
             | H : bool_decide _ = true |- _ => apply bool_decide_eq_true in H
             end; lia.
  - intros (Hd & Hfrom & Hto & Hcases). pose proof (brothers_digits_range _ _ Hd).
    split; [done|]. split; [done|]. split; [done|].
    unfold brotherUp, brotherDown.
    destruct Hcases as [[? ?] | [? ?]]; [left | right]; (split; [lia|]);
      repeat (apply andb_true_intro; split); apply bool_decide_eq_true; lia.
Qed.

(** ** Brother transitions against the stated bead condition *)

(** The stated condition is exactly "the move crosses the 5 boundary". *)
Lemma brotherTransition_spec_crosses n from to :
  1 ≤ n ≤ 4 → 0 ≤ from ≤ 9 → Z.abs (to - from) = n →
  brotherTransition_spec n from to = true
  ↔ (from < 5 ≤ to) ∨ (to < 5 ≤ from).
Proof.
  intros Hn Hfrom Habs. unfold brotherTransition_spec.
  rewrite orb_true_iff, !andb_true_iff, negb_true_iff.
  repeat case_bool_decide; intuition (try discriminate; try lia).
Qed.

(** C7, at the failing inputs: with digit 4 selected the table does not
    list the crossing move 8 -> 4 (= -5 + 1) though the stated bead condition
    holds for it, and lists 9 -> 5, which stays above the boundary; with
    digit 1 selected it lists 0 -> 1, which never reaches 5. *)
Theorem brother_table_disagrees_with_bead_condition :
  BrothersRule._isBrotherTransition (BrothersRule.new (brothersOf [4])) 8 4 = false
  ∧ brotherTransition_spec 4 8 4 = true
  ∧ BrothersRule._isBrotherTransition (BrothersRule.new (brothersOf [4])) 9 5 = true
  ∧ brotherTransition_spec 4 9 5 = false
  ∧ BrothersRule._isBrotherTransition (BrothersRule.new (brothersOf [1])) 0 1 = true
  ∧ brotherTransition_spec 1 0 1 = false.
Proof. vm_compute. repeat split. Qed.

(** ** Decompositions *)

Lemma brothers_decompose_sum (r : BrothersRule.t) state act :
  microSum (BrothersRule.decomposeAction r state act) = act.
Proof.
  unfold BrothersRule.decomposeAction, BrothersRule.getBrother.
  destruct (BrothersRule._isBrotherTransition r state (state + act));
    [case_bool_decide|]; unfold microSum; simpl; lia.
Qed.

Lemma mix_decompose_sum cfg act :
  microSum (MixRule.decomposeAction (MixRule.new cfg) act) = act.
Proof.
  unfold MixRule.decomposeAction.
  destruct (MixRule.mixCombinations (MixRule.new cfg) !! act) as [c|] eqn:Hc.
  - apply mixCombinations_entry in Hc as [_ Hsum]; [done|].
    intros n; apply mix_digits_range.
  - unfold microSum. simpl. lia.
Qed.

(** C8: the micro-steps [decomposeAction] returns for a brother transition
    sum to the action; those of [MixRule.decomposeAction] sum to the action
    for every action; and with only digit 4 selected a brother transition
    decomposes into [+5, -1] (for +4) or [-5, +1] (for -4). *)
Theorem decomposeAction_sums_to_action
    (cfgB cfgM : RawConfig) (state act : Z) :
  (BrothersRule._isBrotherTransition (BrothersRule.new cfgB) state (state + act) = true →
   microSum (BrothersRule.decomposeAction (BrothersRule.new cfgB) state act) = act)
  ∧ microSum (MixRule.decomposeAction (MixRule.new cfgM) act) = act
  ∧ (raw_selectedDigits cfgB = Some [4] →
     BrothersRule._isBrotherTransition (BrothersRule.new cfgB) state (state + act) = true →
     (act = 4 ∧ BrothersRule.decomposeAction (BrothersRule.new cfgB) state act
                = [mkMicro 5 TyUpper; mkMicro (-1) TyLower])
     ∨ (act = -4 ∧ BrothersRule.decomposeAction (BrothersRule.new cfgB) state act
                   = [mkMicro (-5) TyUpper; mkMicro 1 TyLower])).
Proof.
  split; [intros _; apply brothers_decompose_sum|].
  split; [apply mix_decompose_sum|].
  intros Hsel Hb. unfold BrothersRule.decomposeAction. rewrite Hb.
  apply isBrotherTransition_true in Hb as [Hd _].
  cbn [BrothersRule.new BrothersRule.brothersDigits] in Hd. rewrite Hsel in Hd.
  apply digitsBetween_range in Hd as Hr.
  unfold digitsBetween in Hd. apply list_elem_of_filter in Hd as [_ Hd].
  apply list_elem_of_singleton in Hd.
  assert (Habs : Z.abs act = 4) by lia.
  unfold BrothersRule.getBrother. rewrite Habs.
  case_bool_decide; [left | right]; (split; [lia | reflexivity]).
Qed.

Lemma decomposeAction_sums_to_action_witness :
  microSum (BrothersRule.decomposeAction
              (BrothersRule.new (brothersOf [4])) 0 4) = 4
  ∧ BrothersRule.decomposeAction (BrothersRule.new (brothersOf [4])) 0 4
    = [mkMicro 5 TyUpper; mkMicro (-1) TyLower].
Proof.
  destruct (decomposeAction_sums_to_action (brothersOf [4]) emptyRaw 0 4)
    as (Hsum & _ & Hfour).
  split.
  - apply Hsum. vm_compute. reflexivity.
  - destruct Hfour as [[_ H] | [Hneg _]].
    + reflexivity.
    + vm_compute. reflexivity.
    + exact H.
    + discriminate Hneg.
Defined.

(** ** BaseRule.validateExample in multi-digit mode *)

Lemma hasNegative_false sts :
  Forall (λ st, 0 ≤ action st) sts → hasNegative sts = false.
Proof.
  induction 1 as [|st sts Hst _ IH]; [done|].
  unfold hasNegative in *. simpl. rewrite IH.
  case_bool_decide; [lia | done].
Qed.

Lemma hasPositive_false sts :
  Forall (λ st, action st ≤ 0) sts → hasPositive sts = false.
Proof.
  induction 1 as [|st sts Hst _ IH]; [done|].
  unfold hasPositive in *. simpl. rewrite IH.
  case_bool_decide; [lia | done].
Qed.




(** * The sequence generator *)

Import ExampleGenerator.

(** ** Replaying steps *)

Lemma replay_app s l1 l2 : replay s (l1 ++ l2) = replay (replay s l1) l2.
Proof. unfold replay. apply foldl_app. Qed.

Lemma replay_snoc s l st : replay s (l ++ [st]) = replay s l + action st.
Proof. by rewrite replay_app. Qed.

Lemma chained_app s l1 l2 :
  chained s (l1 ++ l2) ↔ chained s l1 ∧ chained (replay s l1) l2.
Proof.
  revert s. induction l1 as [|st l1 IH]; intros s; simpl.
  - tauto.
  - rewrite IH. tauto.
Qed.

Lemma chained_snoc s l act :
  chained s l →
  chained s (l ++ [mkStep act (replay s l) (replay s l + act)]).
Proof. intros H. apply chained_app. simpl. auto. Qed.

Lemma chained_take s l k : chained s l → chained s (take k l).
Proof.
  intros H. rewrite <- (take_drop k l) in H. by apply chained_app in H as [? _].
Qed.

Lemma chained_lookup s l i st :
  chained s l → l !! i = Some st →
  fromState st = replay s (take i l) ∧ toState st = replay s (take (S i) l).
Proof.
  revert s i. induction l as [|st' l IH]; intros s i Hc Hl; [done|].
  destruct Hc as (Hf & Ht & Hc). destruct i as [|i]; simpl in *.
  - injection Hl as <-. unfold replay. simpl. split; [done | lia].
  - apply (IH _ _ Hc Hl).
Qed.

(** ** One attempt of the single-column generator *)

Lemma applyAction_add rule s act : applyAction rule s act = s + act.
Proof. by destruct rule. Qed.

Lemma generateStartState_zero rule : generateStartState rule = 0.
Proof. by destruct rule. Qed.

Lemma singleDigitLoop_chained rule s0 n i cur sts src res src' :
  singleDigitLoop rule n i cur sts src = (Ok res, src') →
  chained s0 sts → replay s0 sts = cur →
  chained s0 res.1 ∧ replay s0 res.1 = res.2.
Proof.
  revert i cur sts src. induction n as [|n IH]; intros i cur sts src Hrun Hc Hr.
  - apply ret_ok in Hrun as [<- _]. done.
  - cbn [singleDigitLoop] in Hrun. cbv zeta in Hrun.
    case_bool_decide; [discriminate|].
    apply bind_ok in Hrun as (act & src1 & _ & Hrun).
    rewrite applyAction_add in Hrun.
    apply IH in Hrun; [done | |].
    + subst cur. by apply chained_snoc.
    + rewrite replay_snoc. simpl. lia.
Qed.

Lemma singleDigitAttempt_consistent rule src ex src' :
  _generateSingleDigitAttempt rule src = (Ok ex, src') →
  start ex = 0 ∧ chained (start ex) (steps ex)
  ∧ answer ex = replay (start ex) (steps ex).
Proof.
  unfold _generateSingleDigitAttempt. intros Hrun.
  apply bind_ok in Hrun as (stepsCount & src1 & _ & Hrun).
  apply bind_ok in Hrun as ([sts cur] & src2 & Hloop & Hrun).
  apply ret_ok in Hrun as [<- _]. simpl.
  rewrite generateStartState_zero in *.
  apply (singleDigitLoop_chained _ 0) in Hloop as [? ?]; simpl in *; done.
Qed.

(** ** One attempt of the vector generator *)

Lemma vectorReduce_zeros len idx sum n :
  vectorReduce len idx sum (replicate n 0) = sum.
Proof.
  revert idx sum. induction n as [|n IH]; intros idx sum; simpl; [done|].
  rewrite IH. lia.
Qed.

Lemma vectorToNumber_zeros n : _vectorToNumber (replicate n 0) = 0.
Proof. apply vectorReduce_zeros. Qed.

Lemma vectorLoop_independent_chained rule s0 n i cur sts src res src' :
  vectorLoop rule false n i cur sts src = (Ok res, src') →
  chained s0 sts → replay s0 sts = _vectorToNumber cur →
  chained s0 res.1 ∧ replay s0 res.1 = _vectorToNumber res.2.
Proof.
  revert i cur sts src. induction n as [|n IH]; intros i cur sts src Hrun Hc Hr.
  - apply ret_ok in Hrun as [<- _]. done.
  - cbn [vectorLoop] in Hrun. cbv zeta in Hrun.
    apply bind_ok in Hrun as (next & src1 & _ & Hrun).
    apply IH in Hrun; [done | |].
    + rewrite <- Hr.
      replace (_vectorToNumber next) with
        (replay s0 sts + (_vectorToNumber next - replay s0 sts)) at 2 by lia.
      by apply chained_snoc.
    + rewrite replay_snoc. simpl. lia.
Qed.

Lemma vectorAttempt_consistent rule src ex src' :
  _generateMultiDigitAttemptVectorBased rule src = (Ok ex, src') →
  start ex = 0
  ∧ (combineLevels (configOf rule) = false →
     chained (start ex) (steps ex) ∧ answer ex = replay (start ex) (steps ex)).
Proof.
  unfold _generateMultiDigitAttemptVectorBased. cbv zeta. intros Hrun.
  destruct (negb _); [discriminate|].
  apply bind_ok in Hrun as (stepsCount & src1 & _ & Hrun).
  apply bind_ok in Hrun as ([sts cur] & src2 & Hloop & Hrun).
  apply ret_ok in Hrun as [<- _]. cbn [start steps answer].
  rewrite vectorToNumber_zeros. split; [done|]. intros Hcombine.
  rewrite Hcombine in Hloop.
  apply (vectorLoop_independent_chained _ 0) in Hloop as [? ?];
    [done | done |].
  by rewrite vectorToNumber_zeros.
Qed.

(** ** Truncation *)

Lemma truncateExample_start rule ex :
  start (truncateExample rule ex) = start ex.
Proof. unfold truncateExample. by case_bool_decide. Qed.

Lemma slice0_take {A : Type} (arr : list A) m : ∃ k, slice0 arr m = take k arr.
Proof. unfold slice0. case_bool_decide; eauto. Qed.

Lemma truncateExample_consistent rule ex :
  chained (start ex) (steps ex) ∧ answer ex = replay (start ex) (steps ex) →
  chained (start (truncateExample rule ex)) (steps (truncateExample rule ex))
  ∧ answer (truncateExample rule ex)
    = replay (start (truncateExample rule ex)) (steps (truncateExample rule ex)).
Proof.
  intros [Hc Ha]. unfold truncateExample. cbv zeta.
  case_bool_decide; [|done]. cbn [start steps answer]. split; [|done].
  destruct (slice0_take (steps ex) (maxSteps (configOf rule))) as [k ->].
  by apply chained_take.
Qed.

(** ** The attempt loop *)

Lemma tryAttempt_outcome rule src :
  ∃ res src',
    tryAttempt rule (effectiveDigitCount rule) src = (Ok res, src')
    ∧ ∀ ex, res = Some ex → accepted (Plain rule) ex.
Proof.
  unfold tryAttempt, tryCatch.
  match goal with |- context [match ?body src with _ => _ end] =>
    destruct (body src) as [[res|e] src1] eqn:Hbody end.
  2: { exists None, src1. split; [done | discriminate]. }
  exists res, src1. split; [done|]. intros ex ->.
  apply bind_ok in Hbody as (raw & src2 & Hraw & Hrest). cbv zeta in Hrest.
  destruct (validateExample rule (truncateExample rule raw)) eqn:Hvalid;
    cbn [negb] in Hrest; [|discriminate].
  apply ret_ok in Hrest as [[= <-] _].
  split; [exact Hvalid|].
  unfold lockStep. case_bool_decide as Hdc.
  - apply singleDigitAttempt_consistent in Hraw as (Hs & Hc).
    split; [by rewrite truncateExample_start|].
    intros _. by apply truncateExample_consistent.
  - apply vectorAttempt_consistent in Hraw as (Hs & Hc).
    split; [by rewrite truncateExample_start|].
    cbn [negb andb]. intros Hcombine.
    apply truncateExample_consistent. auto.
Qed.

Lemma attempts_outcome rule fuel src :
  ∃ res src',
    attempts rule (effectiveDigitCount rule) fuel src = (Ok res, src')
    ∧ ∀ ex, res = Some ex → accepted (Plain rule) ex.
Proof.
  revert src. induction fuel as [|fuel IH]; intros src.
  - exists None, src. split; [done | discriminate].
  - cbn [attempts]. rewrite bind_run.
    destruct (tryAttempt_outcome rule src) as (res & src1 & -> & Hres).
    destruct res as [ex|].
    + exists (Some ex), src1. split; [done|]. exact Hres.
    + apply IH.
Qed.

Lemma generate_plain_outcome rule src :
  ∃ ex src',
    generate (Plain rule) src = (Ok ex, src')
    ∧ (ex = _generateFallbackExample ∨ accepted (Plain rule) ex).
Proof.
  cbn [generate]. rewrite bind_run.
  destruct (attempts_outcome rule (maxAttempts rule) src)
    as (res & src1 & -> & Hres).
  destruct res as [ex|].
  - exists ex, src1. split; [done|]. right. by apply Hres.
  - exists _generateFallbackExample, src1. split; [done|]. by left.
Qed.

(** ** The multi-digit composer *)

Lemma multiDigit_attemptLoop_chained g n i cur sts zeros src res src' :
  MultiDigitGenerator.attemptLoop g n i cur sts zeros src = (Ok res, src') →
  chained 0 sts → replay 0 sts = cur →
  chained 0 res.1 ∧ replay 0 res.1 = res.2.
Proof.
  revert i cur sts zeros src.
  induction n as [|n IH]; intros i cur sts zeros src Hrun Hc Hr.
  - apply ret_ok in Hrun as [<- _]. done.
  - cbn [MultiDigitGenerator.attemptLoop] in Hrun. cbv zeta in Hrun.
    apply bind_ok in Hrun as ([[act|] zeros'] & src1 & _ & Hrun);
      [|discriminate].
    destruct (_ || _); [discriminate|].
    apply IH in Hrun; [done | |].
    + subst cur. by apply chained_snoc.
    + rewrite replay_snoc. simpl. lia.
Qed.

Lemma multiDigit_tryAttempt_outcome g stepsCount src :
  ∃ res src',
    MultiDigitGenerator.tryAttempt g stepsCount src = (Ok res, src')
    ∧ ∀ ex, res = Some ex → accepted (MultiDigit g) ex.
Proof.
  unfold MultiDigitGenerator.tryAttempt, tryCatch.
  match goal with |- context [match ?body src with _ => _ end] =>
    destruct (body src) as [[res|e] src1] eqn:Hbody end.
  2: { exists None, src1. split; [done | discriminate]. }
  exists res, src1. split; [done|]. intros ex ->.
  apply bind_ok in Hbody as (raw & src2 & Hraw & Hrest).
  destruct (validateExample (MultiDigitGenerator.baseRule g) raw) eqn:Hvalid;
    cbn [negb] in Hrest; [|discriminate].
  apply ret_ok in Hrest as [[= <-] _].
  unfold MultiDigitGenerator._generateAttempt in Hraw. cbv zeta in Hraw.
  apply bind_ok in Hraw as ([sts cur] & src3 & Hloop & Hret).
  apply ret_ok in Hret as [<- _].
  apply multiDigit_attemptLoop_chained in Hloop as [? ?]; [|done|done].
  split; [exact Hvalid|]. split; [done|]. intros _. simpl in *. done.
Qed.

Lemma multiDigit_attempts_outcome g stepsCount fuel src :
  ∃ res src',
    MultiDigitGenerator.attempts g stepsCount fuel src = (Ok res, src')
    ∧ ∀ ex, res = Some ex → accepted (MultiDigit g) ex.
Proof.
  revert src. induction fuel as [|fuel IH]; intros src.
  - exists None, src. split; [done | discriminate].
  - cbn [MultiDigitGenerator.attempts]. rewrite bind_run.
    destruct (multiDigit_tryAttempt_outcome g stepsCount src)
      as (res & src1 & -> & Hres).
    destruct res as [ex|].
    + exists (Some ex), src1. split; [done|]. exact Hres.
    + apply IH.
Qed.

Lemma randomStepsCount_ok c src :
  ∃ n src', randomStepsCount c src = (Ok n, src').
Proof.
  unfold randomStepsCount, randomFloor, Math_random.
  rewrite !bind_run. destruct src; eauto.
Qed.

Lemma generateStepsCount_ok rule src :
  ∃ n src', generateStepsCount rule src = (Ok n, src').
Proof. destruct rule; apply randomStepsCount_ok. Qed.

Lemma generate_multiDigit_outcome g src :
  (∃ ex src', generate (MultiDigit g) src = (Ok ex, src')
              ∧ accepted (MultiDigit g) ex)
  ∨ (∃ src', generate (MultiDigit g) src = (Thrown GenerationFailed, src')).
Proof.
  cbn [generate]. unfold MultiDigitGenerator.generateExample.
  rewrite bind_run.
  destruct (generateStepsCount_ok (MultiDigitGenerator.baseRule g) src)
    as (n & src1 & ->).
  rewrite bind_run.
  destruct (multiDigit_attempts_outcome g n MultiDigitGenerator.maxAttempts src1)
    as (res & src2 & -> & Hres).
  destruct res as [ex|]; [left | right]; eauto.
Qed.

(** Every example the generator returns is the fallback or passed the
    rule's validator. *)
Lemma generate_outcome obj src ex src' :
  generate obj src = (Ok ex, src') →
  (ex = _generateFallbackExample ∧ ∃ rule, obj = Plain rule) ∨ accepted obj ex.
Proof.
  destruct obj as [rule | g]; intros Hrun.
  - destruct (generate_plain_outcome rule src) as (ex' & src1 & Hgen & Hcases).
    rewrite Hgen in Hrun. injection Hrun as <- <-.
    destruct Hcases; [left | right]; eauto.
  - destruct (generate_multiDigit_outcome g src)
      as [(ex' & src1 & Hgen & Hacc) | (src1 & Hgen)];
      rewrite Hgen in Hrun; [|discriminate].
    injection Hrun as <- <-. by right.
Qed.

(** ** What the validators check *)

Lemma take_S_cons {A : Type} (x : A) (l : list A) (k : nat) :
  take (S k) (x :: l) = x :: take k l.
Proof. reflexivity. Qed.

Lemma statesWithin_prefix lo hi s sts k :
  statesWithin lo hi s sts = true → (0 < k ≤ length sts)%nat →
  lo ≤ replay s (take k sts) ≤ hi.
Proof.
  revert s k. induction sts as [|st sts IH]; intros s k Hw Hk; simpl in Hk.
  - lia.
  - cbn [statesWithin] in Hw. cbv zeta in Hw.
    destruct (bool_decide_reflect (s + action st < lo)); [discriminate|].
    destruct (bool_decide_reflect (s + action st > hi)); [discriminate|].
    cbn [orb] in Hw.
    destruct k as [|k]; [lia|]. rewrite take_S_cons.
    destruct k as [|k].
    + rewrite take_0. unfold replay. simpl. lia.
    + change (replay s (st :: take (S k) sts))
        with (replay (s + action st) (take (S k) sts)).
      apply IH; [done | lia].
Qed.

Lemma allPhysicallyPossible_within c s sts :
  UnifiedSimpleRule.allPhysicallyPossible c s sts = true →
  statesWithin 0 (maxState c) s sts = true.
Proof.
  revert s. induction sts as [|st sts IH]; intros s H; [done|].
  cbn [UnifiedSimpleRule.allPhysicallyPossible statesWithin] in *.
  cbv zeta.
  destruct (UnifiedSimpleRule.isPhysicallyPossible c s (action st)) eqn:Hp;
    cbn [negb] in H; [|discriminate].
  unfold UnifiedSimpleRule.isPhysicallyPossible in Hp. cbv zeta in Hp.
  destruct (bool_decide (s + action st < 0) || bool_decide (s + action st > maxState c));
    [discriminate|].
  apply IH. exact H.
Qed.

Lemma enforcedBound_construct K cfg :
  enforcedBound (construct K cfg) = maxState (configOf (construct K cfg)).
Proof. by destruct K. Qed.

Lemma nonempty_steps (sts : list Step) :
  bool_decide (length sts = 0%nat) = false → sts ≠ [].
Proof. destruct sts; [discriminate | done]. Qed.

(** Every validator implies the bounds loop of its rule. *)
Lemma validateExample_within rule ex :
  validateExample rule ex = true →
  steps ex ≠ []
  ∧ statesWithin 0 (enforcedBound rule) (start ex) (steps ex) = true.
Proof.
  destruct rule as [c | r | r | r]; cbn [validateExample enforcedBound].
  - unfold UnifiedSimpleRule.validateExample.
    destruct (BaseRule.validateExample c ex) eqn:Hbase;
      cbn [negb]; [|discriminate].
    intros H. split; [|by apply allPhysicallyPossible_within].
    unfold BaseRule.validateExample in Hbase.
    destruct (bool_decide (length (steps ex) = 0%nat)) eqn:Hlen;
      [discriminate | by apply nonempty_steps].
  - unfold BrothersRule.validateExample.
    destruct (bool_decide (length (steps ex) = 0%nat)) eqn:Hlen;
      [discriminate|].
    destruct (BrothersRule.hasBrotherStep _ _ _); cbn [negb]; [|discriminate].
    destruct (statesWithin 0 9 (start ex) (steps ex));
      cbn [negb]; [|discriminate].
    intros _. split; [by apply nonempty_steps | done].
  - unfold FriendsRule.validateExample.
    destruct (bool_decide (length (steps ex) = 0%nat)) eqn:Hlen;
      [discriminate|].
    destruct (FriendsRule.hasFriendStep _ _ _); cbn [negb]; [|discriminate].
    destruct (statesWithin 0 99 (start ex) (steps ex));
      cbn [negb]; [|discriminate].
    intros _. split; [by apply nonempty_steps | done].
  - unfold MixRule.validateExample.
    destruct (bool_decide (length (steps ex) = 0%nat)) eqn:Hlen;
      [discriminate|].
    destruct (MixRule.hasMixStep _ _ _); cbn [negb]; [|discriminate].
    destruct (statesWithin 0 99 (start ex) (steps ex));
      cbn [negb]; [|discriminate].
    intros _. split; [by apply nonempty_steps | done].
Qed.

(** The scan "is there a signature step" that the three compensation
    validators run, over any classifier. *)
Lemma signature_scan (classify : Z → Z → bool)
    (scan : Z → list Step → bool) :
  (∀ cur, scan cur [] = false) →
  (∀ cur st rest,
     scan cur (st :: rest)
     = if classify cur (cur + action st) then true
       else scan (cur + action st) rest) →
  ∀ sts cur, scan cur sts = true →
    ∃ i, (i < length sts)%nat
         ∧ classify (replay cur (take i sts)) (replay cur (take (S i) sts))
           = true.
Proof.
  intros Hnil Hcons sts. induction sts as [|st sts IH]; intros cur Hscan.
  - rewrite Hnil in Hscan. discriminate.
  - rewrite Hcons in Hscan.
    destruct (classify cur (cur + action st)) eqn:Hc.
    + exists 0%nat. split; [simpl; lia|]. exact Hc.
    + apply IH in Hscan as (i & Hi & Hsig).
      exists (S i). split; [simpl; lia|]. exact Hsig.
Qed.

Lemma validateExample_signature rule ex :
  classOf rule ≠ UnifiedSimpleRuleClass →
  validateExample rule ex = true →
  ∃ i, signatureAt rule ex i.
Proof.
  unfold signatureAt, prefixSum.
  destruct rule as [c | r | r | r]; cbn [classOf validateExample]; [done| | |];
    intros _.
  - unfold BrothersRule.validateExample.
    destruct (bool_decide _); [discriminate|].
    destruct (BrothersRule.hasBrotherStep r (start ex) (steps ex)) eqn:Hscan;
      cbn [negb]; [|discriminate].
    intros _. revert Hscan. by apply signature_scan.
  - unfold FriendsRule.validateExample.
    destruct (bool_decide _); [discriminate|].
    destruct (FriendsRule.hasFriendStep r (start ex) (steps ex)) eqn:Hscan;
      cbn [negb]; [|discriminate].
    intros _. revert Hscan. by apply signature_scan.
  - unfold MixRule.validateExample.
    destruct (bool_decide _); [discriminate|].
    destruct (MixRule.hasMixStep r (start ex) (steps ex)) eqn:Hscan;
      cbn [negb]; [|discriminate].
    intros _. revert Hscan. by apply signature_scan.
Qed.

(** ** The generator's results *)

Lemma replay_sum s sts :
  replay s sts = s + foldr (λ st acc, action st + acc) 0 sts.
Proof.
  revert s. induction sts as [|st sts IH]; intros s; simpl; [lia|].
  change (replay s (st :: sts)) with (replay (s + action st) sts).
  rewrite IH. lia.
Qed.

(** Outside lock-step mode every returned example keeps
    [answer = start + sum(step.action)] and chained steps. *)
Lemma generate_consistent obj src ex src' :
  lockStep obj = false →
  generate obj src = (Ok ex, src') →
  chained (start ex) (steps ex) ∧ answer ex = sumOfActions ex.
Proof.
  intros Hmode Hrun. unfold sumOfActions. rewrite <- replay_sum.
  apply generate_outcome in Hrun as [[-> _] | (_ & _ & Hc)].
  - vm_compute. tauto.
  - by apply Hc.
Qed.

(** C1, at the failing input: a Brothers rule driven in lock-step vector
    mode ([digitCount = 2], [combineLevels = true]) returns an example with
    actions 4, 1, 1 from start 0 whose answer is 66, not 6. *)
Theorem lockstep_answer_is_not_the_sum_of_actions :
  ∃ example,
    generate lockStepBrothers [0; 2 ^ 52; 0; 0] = (Ok example, [])
    ∧ action <$> steps example = [4; 1; 1]
    ∧ start example = 0
    ∧ answer example = 66
    ∧ sumOfActions example = 6.
Proof. eexists. vm_compute. repeat split. Qed.

(** C2, as amended: for the Brothers, Friends and Mix rules, an example
    returned by the generator is either the hard-coded fallback or was
    accepted by the rule's [validateExample]; in the second case some step is
    a signature transition on the re-simulated running sums, and, outside
    lock-step vector mode, on the [fromState]/[toState] the step records. *)
Theorem returned_example_has_signature_step
    (obj : RuleObject) (src : Source) (example : Example) (src' : Source) :
  classOf (ruleOf obj) ≠ UnifiedSimpleRuleClass →
  generate obj src = (Ok example, src') →
  (example = _generateFallbackExample ∧ ∃ rule, obj = Plain rule)
  ∨ (validateExample (ruleOf obj) example = true
     ∧ ∃ i, signatureAt (ruleOf obj) example i
            ∧ (lockStep obj = false → signatureStepAt (ruleOf obj) example i)).
Proof.
  intros Hclass Hrun.
  apply generate_outcome in Hrun as [Hfb | (Hvalid & Hstart & Hc)];
    [by left | right].
  split; [done|].
  destruct (validateExample_signature _ _ Hclass Hvalid) as (i & Hi & Hsig).
  exists i. split; [by split|]. intros Hmode.
  destruct (Hc Hmode) as [Hchain _].
  destruct (lookup_lt_is_Some_2 _ _ Hi) as [st Hst].
  exists st. split; [done|].
  destruct (chained_lookup _ _ _ _ Hchain Hst) as [-> ->]. exact Hsig.
Qed.

Lemma returned_example_has_signature_step_witness :
  ∃ example src',
    generate variableBrothers
      [0; 0; 0; 0; 0; 0; 0; 2 ^ 52; 0; 2 ^ 52; 0; 0; 2 ^ 53 - 1]
    = (Ok example, src')
    ∧ ∃ i, signatureStepAt (ruleOf variableBrothers) example i.
Proof.
  eexists _, _. split; [vm_compute; reflexivity|].
  match goal with |- ∃ i, signatureStepAt ?r ?ex i =>
    destruct (returned_example_has_signature_step variableBrothers
                [0; 0; 0; 0; 0; 0; 0; 2 ^ 52; 0; 2 ^ 52; 0; 0; 2 ^ 53 - 1]
                ex [0; 2 ^ 53 - 1])
      as [[Hfb _] | (_ & i & _ & Hfield)]
  end.
  - discriminate.
  - vm_compute. reflexivity.
  - discriminate Hfb.
  - exists i. apply Hfield. reflexivity.
Defined.

(** The fallback returned for a Brothers rule whose flags leave no action,
    and an example produced in lock-step mode, contain no step whose
    recorded transition is a brother transition. *)
Lemma fallback_and_lockstep_lack_signature_step :
  (generate contradictoryBrothers [] = (Ok _generateFallbackExample, [])
   ∧ ∀ i, ¬ signatureStepAt (ruleOf contradictoryBrothers)
              _generateFallbackExample i)
  ∧ (∃ example,
       generate lockStepBrothers [0; 2 ^ 52; 0; 0] = (Ok example, [])
       ∧ ∀ i, ¬ signatureStepAt (ruleOf lockStepBrothers) example i).
Proof.
  split.
  - split; [vm_compute; reflexivity|].
    intros i (st & Hst & Hsig).
    destruct i as [|[|[|i]]]; simpl in Hst; try discriminate;
      injection Hst as <-; vm_compute in Hsig; discriminate.
  - eexists. split; [vm_compute; reflexivity|].
    intros i (st & Hst & Hsig).
    destruct i as [|[|[|i]]]; simpl in Hst; try discriminate;
      injection Hst as <-; vm_compute in Hsig; discriminate.
Qed.

(** C3, as amended: [generate] on a plain rule (single-column or vector
    mode) never raises, and when every attempt of its budget fails it
    returns the hard-coded fallback, which has 3 steps, start 0 and a
    self-consistent answer; on a [MultiDigitGenerator], exhausting the 500
    attempts makes [generate] raise. *)
Theorem exhausted_budget_outcome
    (rule : Rule) (g : MultiDigitGenerator.t) (src src' : Source) :
  (∃ example src1, generate (Plain rule) src = (Ok example, src1))
  ∧ (attempts rule (effectiveDigitCount rule) (maxAttempts rule) src
       = (Ok None, src') →
     generate (Plain rule) src = (Ok _generateFallbackExample, src'))
  ∧ (length (steps _generateFallbackExample) = 3%nat
     ∧ start _generateFallbackExample = 0
     ∧ answer _generateFallbackExample = sumOfActions _generateFallbackExample)
  ∧ (∀ stepsCount src1,
       generateStepsCount (MultiDigitGenerator.baseRule g) src
         = (Ok stepsCount, src1) →
       MultiDigitGenerator.attempts g stepsCount MultiDigitGenerator.maxAttempts
         src1 = (Ok None, src') →
       generate (MultiDigit g) src = (Thrown GenerationFailed, src')).
Proof.
  split.
  { destruct (generate_plain_outcome rule src) as (ex & src1 & H & _). eauto. }
  split.
  { intros H. cbn [generate]. rewrite bind_run, H. reflexivity. }
  split; [by vm_compute|].
  intros stepsCount src1 Hcount Hloop. cbn [generate].
  unfold MultiDigitGenerator.generateExample.
  rewrite bind_run, Hcount, bind_run, Hloop. reflexivity.
Qed.

Lemma exhausted_budget_outcome_witness :
  generate contradictoryBrothers [] = (Ok _generateFallbackExample, [])
  ∧ generate twoDigitSimple [] = (Thrown GenerationFailed, []).
Proof.
  destruct (exhausted_budget_outcome contradictoryBrothersRule
              twoDigitSimpleGenerator [] [])
    as (_ & Hplain & _ & Hmulti).
  split.
  - apply Hplain. vm_compute. reflexivity.
  - apply (Hmulti 3 []); vm_compute; reflexivity.
Defined.

(** Two-digit generation over the Simple rule exhausts its budget and
    raises to the caller of [generate]. *)
Lemma multi_digit_exhaustion_raises :
  generate twoDigitSimple [] = (Thrown GenerationFailed, []).
Proof. vm_compute. reflexivity. Qed.

(** ** State bounds *)

Lemma declaredBound_construct K cfg :
  declaredBoundOk K (maxState (configOf (construct K cfg))).
Proof.
  destruct K; [|reflexivity..].
  cbn [construct configOf UnifiedSimpleRule.new maxState declaredBoundOk].
  destruct (_ || _); auto.
Qed.

(** C5: for every example the generator returns (for a rule built by its
    constructor, driven directly or through [MultiDigitGenerator]) and every
    prefix of its steps, the running sum lies in [0, maxState], where
    [maxState] is 4 or 9 for Simple, 9 for Brothers, 99 for Friends and
    Mix. *)
Theorem prefix_sums_stay_within_bounds
    (K : RuleClass) (cfg : RawConfig) (obj : RuleObject)
    (src : Source) (example : Example) (src' : Source) (k : nat) :
  ruleOf obj = construct K cfg →
  generate obj src = (Ok example, src') →
  (k ≤ length (steps example))%nat →
  0 ≤ prefixSum example k ≤ maxState (configOf (construct K cfg))
  ∧ declaredBoundOk K (maxState (configOf (construct K cfg))).
Proof.
  intros Hrule Hrun Hk.
  pose proof (declaredBound_construct K cfg) as Hbound.
  split; [|exact Hbound].
  assert (Hmax : 4 ≤ maxState (configOf (construct K cfg))).
  { destruct K; cbn [declaredBoundOk] in Hbound; lia. }
  apply generate_outcome in Hrun as [[-> _] | (Hvalid & Hstart & _)].
  - clear Hbound Hrule. revert Hmax.
    generalize (maxState (configOf (construct K cfg))). intros bound Hmax.
    unfold prefixSum. cbn [steps _generateFallbackExample] in Hk |- *.
    destruct k as [|[|[|[|k]]]]; cbn in Hk; try lia; unfold replay; simpl; lia.
  - rewrite Hrule in Hvalid.
    apply validateExample_within in Hvalid as [_ Hwithin].
    rewrite enforcedBound_construct in Hwithin. unfold prefixSum.
    destruct k as [|k].
    + rewrite take_0. unfold replay. simpl. lia.
    + apply (statesWithin_prefix _ _ _ _ (S k)) in Hwithin; [done | lia].
Qed.

Lemma prefix_sums_stay_within_bounds_witness :
  ∃ example src',
    generate variableBrothers
      [0; 0; 0; 0; 0; 0; 0; 2 ^ 52; 0; 2 ^ 52; 0; 0; 2 ^ 53 - 1]
    = (Ok example, src')
    ∧ 0 ≤ prefixSum example 2 ≤ 9.
Proof.
  eexists _, _. split; [vm_compute; reflexivity|].
  match goal with |- _ ≤ prefixSum ?ex _ ≤ _ =>
    destruct (prefix_sums_stay_within_bounds BrothersRuleClass
                variableBrothersRaw variableBrothers
                [0; 0; 0; 0; 0; 0; 0; 2 ^ 52; 0; 2 ^ 52; 0; 0; 2 ^ 53 - 1]
                ex [0; 2 ^ 53 - 1] 2) as [H _]
  end.
  - reflexivity.
  - vm_compute. reflexivity.
  - vm_compute. lia.
  - exact H.
Defined.

(** * The print batch *)

Lemma outside_range (lo hi x : Z) :
  bool_decide (x < lo) || bool_decide (x > hi)
  = negb (bool_decide (lo ≤ x ≤ hi)).
Proof. repeat case_bool_decide; try reflexivity; lia. Qed.

Lemma print_validate_outcome c src :
  if configInvalid c
  then ∃ e, PrintGenerator.validate c src = (Thrown e, src)
  else PrintGenerator.validate c src = (Ok true, src).
Proof.
  unfold configInvalid, violatesPreconditions, PrintGenerator.validate,
    PrintGenerator._hasActiveBlock.
  rewrite !outside_range.
  destruct (bool_decide (1 ≤ PrintGenerator.examplesCount c ≤ 1000));
    cbn [negb orb]; [|by eauto].
  destruct (bool_decide (1 ≤ PrintGenerator.actionsCount c ≤ 20));
    cbn [negb orb]; [|by eauto].
  destruct (bool_decide (1 ≤ PrintGenerator.digitCount c ≤ 9));
    cbn [negb orb]; [|by eauto].
  destruct (blockActive (block_simple _)), (blockActive (block_brothers _)),
    (blockActive (block_friends _)), (blockActive (block_mix _));
    cbn [negb orb andb];
    try destruct (bool_decide (PrintGenerator.digitCount c < 2));
    cbn [negb orb andb]; eauto.
Qed.

Lemma print_generateLoop_ok c n i examples src :
  ∃ res src', PrintGenerator.generateLoop c n i examples src = (Ok res, src').
Proof.
  revert i examples src. induction n as [|n IH]; intros i examples src.
  - by eexists _, _.
  - cbn [PrintGenerator.generateLoop]. rewrite bind_run. unfold tryCatch at 1.
    match goal with |- context [match ?body src with _ => _ end] =>
      destruct (body src) as [[res|e] src1] end; apply IH.
Qed.

Lemma print_generate_outcome c src :
  if configInvalid c
  then ∃ e, PrintGenerator.generate c src = (Thrown e, src)
  else ∃ examples src', PrintGenerator.generate c src = (Ok examples, src').
Proof.
  unfold PrintGenerator.generate. rewrite bind_run. unfold tryCatch.
  pose proof (print_validate_outcome c src) as Hv.
  destruct (configInvalid c).
  - destruct Hv as [e ->]. by exists e.
  - rewrite Hv. apply print_generateLoop_ok.
Qed.

(** C9, as amended: [PrintGenerator.generate] raises exactly when the
    configuration resolved by the constructor (falsy counts replaced by the
    defaults 20, 5, 1) violates a precondition, and then it raises before
    drawing any random number, i.e. before any generation attempt; the error
    reaches the caller. *)
Theorem print_generate_raises_iff_invalid
    (supplied : PrintGenerator.Supplied) (src : Source) :
  ((∃ e src', PrintGenerator.generate (PrintGenerator.new supplied) src
              = (Thrown e, src'))
   ↔ configInvalid (PrintGenerator.new supplied) = true)
  ∧ (configInvalid (PrintGenerator.new supplied) = true →
     ∃ e, PrintGenerator.generate (PrintGenerator.new supplied) src
          = (Thrown e, src)).
Proof.
  pose proof (print_generate_outcome (PrintGenerator.new supplied) src) as H.
  destruct (configInvalid (PrintGenerator.new supplied)).
  - destruct H as [e He]. split; [|eauto]. split; [done | eauto].
  - destruct H as (examples & src1 & He). split; [|discriminate].
    split; [|discriminate]. intros (e & src2 & Hthrow). congruence.
Qed.

Lemma print_generate_raises_iff_invalid_witness :
  ∃ e, PrintGenerator.generate (PrintGenerator.new tooManyExamplesSupplied) []
       = (Thrown e, []).
Proof.
  apply (print_generate_raises_iff_invalid tooManyExamplesSupplied []).
  vm_compute. reflexivity.
Defined.

(** A supplied [examplesCount] of 0 lies outside [1, 1000], yet the batch is
    generated: the constructor replaced it by 20. *)
Lemma zero_examplesCount_is_not_rejected :
  PrintGenerator.supplied_examplesCount zeroExamplesSupplied = Some 0
  ∧ violatesPreconditions 0 5 1 simpleBlocks = true
  ∧ ∃ examples src',
      PrintGenerator.generate (PrintGenerator.new zeroExamplesSupplied) []
      = (Ok examples, src').
Proof.
  split; [reflexivity|]. split; [reflexivity|].
  apply (print_generate_outcome (PrintGenerator.new zeroExamplesSupplied) []).
Qed.

(** * Further properties of the rules *)

(** ** The bead test of the Simple rule *)

Ltac decide_bools :=
  repeat match goal with
         | |- context [bool_decide ?P] =>
             first [ rewrite (bool_decide_eq_true_2 P) by lia
                   | rewrite (bool_decide_eq_false_2 P) by lia ]
         end.

Lemma isPhysicallyPossible_bounds (c : RuleConfig) state act :
  maxState c ≤ 9 →
  UnifiedSimpleRule.isPhysicallyPossible c state act
  = bool_decide (0 ≤ state + act ≤ maxState c).
Proof.
  intros Hmax. unfold UnifiedSimpleRule.isPhysicallyPossible. cbv zeta.
  destruct (decide (0 ≤ state + act ≤ maxState c)) as [Hin | Hout].
  - destruct (decide (state >= 5)), (decide (state + act >= 5)),
      (decide (act > 0)); try (exfalso; lia); decide_bools; cbn [andb orb];
      repeat (destruct (bool_decide _); cbn [andb orb]); reflexivity.
  - rewrite (bool_decide_eq_false_2 _ Hout).
    destruct (decide (state + act < 0)); decide_bools; reflexivity.
Qed.

Lemma simple_maxState cfg :
  maxState (UnifiedSimpleRule.new cfg) = 4 ∨ maxState (UnifiedSimpleRule.new cfg) = 9.
Proof. cbn [UnifiedSimpleRule.new maxState]. destruct (_ || _); auto. Qed.

(** X1: for every [UnifiedSimpleRule] instance, [isPhysicallyPossible]
    answers exactly "the new state lies in [0, maxState]": the bead
    bookkeeping after the bounds test never rejects a move, whatever the
    state and the action. *)
Theorem isPhysicallyPossible_is_a_bounds_check cfg state act :
  UnifiedSimpleRule.isPhysicallyPossible (UnifiedSimpleRule.new cfg) state act
  = bool_decide (0 ≤ state + act ≤ maxState (UnifiedSimpleRule.new cfg)).
Proof.
  apply isPhysicallyPossible_bounds.
  destruct (simple_maxState cfg) as [-> | ->]; lia.
Qed.

Lemma allPhysicallyPossible_statesWithin (c : RuleConfig) s sts :
  maxState c ≤ 9 →
  UnifiedSimpleRule.allPhysicallyPossible c s sts
  = statesWithin 0 (maxState c) s sts.
Proof.
  intros Hmax. revert s. induction sts as [|st sts IH]; intros s; [done|].
  cbn [UnifiedSimpleRule.allPhysicallyPossible statesWithin]. cbv zeta.
  rewrite isPhysicallyPossible_bounds by done.
  unfold UnifiedSimpleRule.applyAction. rewrite IH.
  destruct (decide (0 ≤ s + action st ≤ maxState c)).
  - decide_bools. reflexivity.
  - rewrite (bool_decide_eq_false_2 (0 ≤ s + action st ≤ maxState c)) by done.
    destruct (decide (s + action st < 0)); decide_bools; reflexivity.
Qed.

Lemma statesWithin_true lo hi s sts :
  statesWithin lo hi s sts = true
  ↔ ∀ k, (0 < k ≤ length sts)%nat → lo ≤ replay s (take k sts) ≤ hi.
Proof.
  split; [intros H k; by apply statesWithin_prefix|].
  revert s. induction sts as [|st sts IH]; intros s H; [done|].
  cbn [statesWithin]. cbv zeta.
  pose proof (H 1%nat ltac:(simpl; lia)) as H1. unfold replay in H1. simpl in H1.
  decide_bools. cbn [orb]. apply IH. intros k Hk.
  apply (H (S k)). simpl. lia.
Qed.

Lemma hasNegative_false_iff sts :
  hasNegative sts = false ↔ Forall (λ st, 0 ≤ action st) sts.
Proof.
  split; [|apply hasNegative_false].
  induction sts as [|st sts IH]; [constructor|].
  unfold hasNegative in *. simpl. intros H.
  apply orb_false_elim in H as [H1 H2].
  constructor; [|by apply IH]. apply bool_decide_eq_false in H1. lia.
Qed.

Lemma hasPositive_false_iff sts :
  hasPositive sts = false ↔ Forall (λ st, action st ≤ 0) sts.
Proof.
  split; [|apply hasPositive_false].
  induction sts as [|st sts IH]; [constructor|].
  unfold hasPositive in *. simpl. intros H.
  apply orb_false_elim in H as [H1 H2].
  constructor; [|by apply IH]. apply bool_decide_eq_false in H1. lia.
Qed.

(** X2: [UnifiedSimpleRule.validateExample] accepts an example exactly when
    it has a step, its answer is the start plus the sum of the actions, no
    action has a sign an [only...] flag forbids, and every running sum lies
    in [0, maxState]; the [fromState]/[toState] fields are never read. *)
Theorem simple_validateExample_spec cfg ex :
  UnifiedSimpleRule.validateExample (UnifiedSimpleRule.new cfg) ex = true
  ↔ steps ex ≠ []
    ∧ answer ex = replay (start ex) (steps ex)
    ∧ (onlyAddition (UnifiedSimpleRule.new cfg) = true →
       Forall (λ st, 0 ≤ action st) (steps ex))
    ∧ (onlySubtraction (UnifiedSimpleRule.new cfg) = true →
       Forall (λ st, action st ≤ 0) (steps ex))
    ∧ ∀ k, (0 < k ≤ length (steps ex))%nat →
           0 ≤ prefixSum ex k ≤ maxState (UnifiedSimpleRule.new cfg).
Proof.
  assert (Hmax : maxState (UnifiedSimpleRule.new cfg) ≤ 9)
    by (destruct (simple_maxState cfg) as [-> | ->]; lia).
  assert (Hmin : minState (UnifiedSimpleRule.new cfg) = 0) by reflexivity.
  revert Hmax Hmin. generalize (UnifiedSimpleRule.new cfg). intros c Hmax Hmin.
  unfold UnifiedSimpleRule.validateExample, BaseRule.validateExample, prefixSum.
  rewrite Hmin.
  rewrite allPhysicallyPossible_statesWithin by done.
  rewrite <- statesWithin_true, <- hasNegative_false_iff,
    <- hasPositive_false_iff.
  split.
  - intros H.
    destruct (statesWithin 0 (maxState c) (start ex) (steps ex)) eqn:Hw.
    2: { match type of H with (if ?b then _ else _) = _ =>
           destruct b; discriminate end. }
    destruct (bool_decide (length (steps ex) = 0%nat)) eqn:Hlen;
      [discriminate|].
    destruct (bool_decide_reflect (replay (start ex) (steps ex) = answer ex))
      as [Hsum|]; [|discriminate]. cbn [negb] in H.
    split; [by apply nonempty_steps|]. split; [done|].
    destruct (onlyAddition c), (hasNegative (steps ex)); cbn [andb] in H;
      try discriminate;
      destruct (onlySubtraction c), (hasPositive (steps ex)); cbn [andb] in H;
      try discriminate; done.
  - intros (Hne & Hsum & Hadd & Hsub & Hw).
    destruct (steps ex) as [|st sts] eqn:Hsts; [done|].
    cbn [length]. rewrite bool_decide_eq_false_2 by done.
    rewrite bool_decide_eq_true_2 by done. cbn [negb].
    destruct (onlyAddition c); cbn [andb]; [rewrite Hadd by done|];
      (destruct (onlySubtraction c); cbn [andb]; [rewrite Hsub by done|]);
      rewrite Hw; by destruct (bool_decide (digitCount c > 1)).
Qed.

(** ** What the rules offer *)

Ltac pushed_digits range_lemma :=
  apply Forall_pushed; intros d Hd; apply range_lemma in Hd; cbv zeta;
  repeat match goal with
         | |- context [bool_decide ?P] => destruct (bool_decide_reflect P)
         | |- context [if ?b then _ else _] => destruct b eqn:?
         end; cbn [andb];
  try (apply Forall_replicate);
  repeat constructor; cbv beta;
  first [ lia | intros; first [discriminate | lia] ].

Ltac offered_actions simple_lemma special_lemma :=
  repeat match goal with
         | |- Forall _ (_ ++ _) => apply Forall_app_2
         | |- Forall _ [] => constructor
         | |- Forall _ (if ?b then _ else _) => destruct b eqn:?
         end;
  first [ pushed_digits simple_lemma | pushed_digits special_lemma ].

Section Offered.
Variables (state : Z) (isFirst : bool).

Lemma simple_offered_ok cfg :
  Forall (offeredOk (UnifiedSimpleRule.new cfg) state)
    (UnifiedSimpleRule.getAvailableActions (UnifiedSimpleRule.new cfg)
       state isFirst).
Proof.
  unfold UnifiedSimpleRule.getAvailableActions, offeredOk.
  assert (Hr : ∀ d, d ∈ selectedDigits (UnifiedSimpleRule.new cfg) → 1 ≤ d ≤ 9)
    by apply simple_digits_range.
  revert Hr. generalize (UnifiedSimpleRule.new cfg). intros c Hr.
  destruct (onlyAddition c), (onlySubtraction c), isFirst; cbn [andb negb];
    (destruct (bool_decide_reflect (state = 0)); cbn [andb];
     [subst|]; offered_actions Hr Hr).
Qed.

Lemma brothers_offered_ok cfg :
  Forall (offeredOk (BrothersRule.config (BrothersRule.new cfg)) state)
    (BrothersRule.getAvailableActions (BrothersRule.new cfg) state isFirst).
Proof.
  assert (Hs : ∀ d, d ∈ BrothersRule.simpleBlockDigits (BrothersRule.new cfg)
                    → 1 ≤ d ≤ 9) by (intros d; apply simpleBlock_range).
  assert (Hb : ∀ d, d ∈ BrothersRule.brothersDigits (BrothersRule.new cfg)
                    → 1 ≤ d ≤ 4) by apply brothers_digits_range.
  assert (Hmax : maxState (BrothersRule.config (BrothersRule.new cfg)) = 9)
    by reflexivity.
  revert Hs Hb Hmax. generalize (BrothersRule.new cfg). intros r Hs Hb Hmax.
  unfold BrothersRule.getAvailableActions, BrothersRule.times, offeredOk.
  cbv zeta. rewrite Hmax.
  destruct (onlyAddition (BrothersRule.config r)),
    (onlySubtraction (BrothersRule.config r)), isFirst; cbn [andb negb];
    (destruct (bool_decide_reflect (state = 0)); cbn [andb];
     [subst|]; offered_actions Hs Hb).
Qed.

Lemma friends_offered_ok cfg :
  Forall (offeredOk (FriendsRule.config (FriendsRule.new cfg)) state)
    (FriendsRule.getAvailableActions (FriendsRule.new cfg) state isFirst).
Proof.
  assert (Hs : ∀ d, d ∈ FriendsRule.simpleBlockDigits (FriendsRule.new cfg)
                    → 1 ≤ d ≤ 9) by (intros d; apply simpleBlock_range).
  assert (Hb : ∀ d, d ∈ FriendsRule.friendsDigits (FriendsRule.new cfg)
                    → 1 ≤ d ≤ 9) by apply friends_digits_range.
  assert (Hmax : maxState (FriendsRule.config (FriendsRule.new cfg)) = 99)
    by reflexivity.
  revert Hs Hb Hmax. generalize (FriendsRule.new cfg). intros r Hs Hb Hmax.
  unfold FriendsRule.getAvailableActions, FriendsRule.times, offeredOk.
  cbv zeta. rewrite Hmax.
  destruct (onlyAddition (FriendsRule.config r)),
    (onlySubtraction (FriendsRule.config r)), isFirst; cbn [andb negb];
    (destruct (bool_decide_reflect (state = 0)); cbn [andb];
     [subst|]; offered_actions Hs Hb).
Qed.

Lemma mix_offered_ok cfg :
  Forall (offeredOk (MixRule.config (MixRule.new cfg)) state)
    (MixRule.getAvailableActions (MixRule.new cfg) state isFirst).
Proof.
  assert (Hs : ∀ d, d ∈ MixRule.simpleBlockDigits (MixRule.new cfg)
                    → 1 ≤ d ≤ 9) by (intros d; apply simpleBlock_range).
  assert (Hb : ∀ d, d ∈ MixRule.mixDigits (MixRule.new cfg)
                    → 6 ≤ d ≤ 9) by apply mix_digits_range.
  assert (Hmax : maxState (MixRule.config (MixRule.new cfg)) = 99)
    by reflexivity.
  revert Hs Hb Hmax. generalize (MixRule.new cfg). intros r Hs Hb Hmax.
  unfold MixRule.getAvailableActions, MixRule.times, offeredOk.
  cbv zeta. rewrite Hmax.
  destruct (onlyAddition (MixRule.config r)),
    (onlySubtraction (MixRule.config r)), isFirst; cbn [andb negb];
    (destruct (bool_decide_reflect (state = 0)); cbn [andb];
     [subst|]; offered_actions Hs Hb).
Qed.

(** X3: for all four rules, every action [getAvailableActions] offers from
    a state is a non-zero single digit, keeps the state inside
    [0, maxState] of the rule, and is positive under [onlyAddition] and
    negative under [onlySubtraction]. *)
Theorem offered_actions_are_legal (K : RuleClass) (cfg : RawConfig) :
  Forall (offeredOk (configOf (construct K cfg)) state)
    (getAvailableActions (construct K cfg) state isFirst).
Proof.
  destruct K; cbn [construct getAvailableActions configOf].
  - apply simple_offered_ok.
  - apply brothers_offered_ok.
  - apply friends_offered_ok.
  - apply mix_offered_ok.
Qed.

End Offered.

(** ** The Friends table *)

Lemma friends_addUp_body n pairs v :
  FriendsRule.addUp n pairs v
  = if friendUp n v then {[ (v, v + n, n) ]} ∪ pairs else pairs.
Proof.
  unfold FriendsRule.addUp, friendUp. cbv zeta.
  repeat (destruct (bool_decide _); cbn [andb]); reflexivity.
Qed.

Lemma friends_addDown_body n pairs v :
  FriendsRule.addDown n pairs v
  = if friendDown n v then {[ (v, v - n, n) ]} ∪ pairs else pairs.
Proof.
  unfold FriendsRule.addDown, friendDown. cbv zeta.
  repeat (destruct (bool_decide _); cbn [andb]); reflexivity.
Qed.

Lemma friendPairs_member digits from to n :
  (from, to, n) ∈ FriendsRule._buildFriendPairs digits
  ↔ n ∈ digits ∧ 0 ≤ from ≤ 99
    ∧ ((to = from + n ∧ friendUp n from = true)
       ∨ (to = from - n ∧ friendDown n from = true)).
Proof.
  unfold FriendsRule._buildFriendPairs.
  transitivity ((from, to, n) ∈ (∅ : TransitionTable)
                ∨ (n ∈ digits ∧ 0 ≤ from ≤ 99
                   ∧ ((to = from + n ∧ friendUp n from = true)
                      ∨ (to = from - n ∧ friendDown n from = true))));
    [| rewrite elem_of_empty; tauto ].
  generalize (∅ : TransitionTable) as pairs.
  induction digits as [|m digits IH]; intros pairs.
  - cbn [foldl]. rewrite elem_of_nil. tauto.
  - rewrite foldl_step, IH.
    rewrite (foldl_conditional_add (friendDown m) (λ v, (v, v - m, m)))
      by apply friends_addDown_body.
    rewrite (foldl_conditional_add (friendUp m) (λ v, (v, v + m, m)))
      by apply friends_addUp_body.
    rewrite elem_of_cons. setoid_rewrite elem_of_seqZ.
    split.
    + intros [[[H | (v & Hv & Hc & [= -> -> ->])] | (v & Hv & Hc & [= -> -> ->])] | H].
      * by left.
      * right. split; [by left|]. split; [lia|]. by left.
      * right. split; [by left|]. split; [lia|]. by right.
      * right. destruct H as (? & ? & ?). split; [by right|]. by split.
    + intros [H | ([-> | Hn] & Hfrom & [[-> Hc] | [-> Hc]])].
      * by do 3 left.
      * left. left. right. exists from. split; [lia|]. by split.
      * left. right. exists from. split; [lia|]. by split.
      * right. split; [done|]. split; [done|]. by left.
      * right. split; [done|]. split; [done|]. by right.
Qed.

Lemma isFriendTransition_true cfg from to :
  FriendsRule._isFriendTransition (FriendsRule.new cfg) from to = true
  ↔ Z.abs (to - from) ∈ FriendsRule.friendsDigits (FriendsRule.new cfg)
    ∧ 0 ≤ from ≤ 99 ∧ 0 ≤ to ≤ 99
    ∧ to `div` 10 ≠ from `div` 10.
Proof.
  unfold FriendsRule._isFriendTransition.
  rewrite tableLookup_true.
  change (FriendsRule.friendPairs (FriendsRule.new cfg))
    with (FriendsRule._buildFriendPairs
            (FriendsRule.friendsDigits (FriendsRule.new cfg))).
  rewrite friendPairs_member.
  split.
  - intros (Hd & _ & Hfrom & Hcases). pose proof (friends_digits_range _ _ Hd).
    split; [done|]. unfold friendUp, friendDown in Hcases.
    destruct Hcases as [[Hto Hc] | [Hto Hc]];
      repeat (apply andb_prop in Hc as [Hc ?]);
      repeat match goal with
             | H : bool_decide _ = true |- _ => apply bool_decide_eq_true in H
             end;
      Z.to_euclidean_division_equations; lia.
  - intros (Hd & Hfrom & Hto & Hcases). pose proof (friends_digits_range _ _ Hd).
    split; [done|]. split; [done|]. split; [done|].
    unfold friendUp, friendDown.
    destruct (decide (from < to)); [left | right]; (split; [lia|]);
      repeat (apply andb_true_intro; split); apply bool_decide_eq_true;
      Z.to_euclidean_division_equations; lia.
Qed.

(** X4: [FriendsRule._isFriendTransition from to] holds exactly when both
    states lie in [0, 99], the size of the move is one of the selected
    friends digits and the move changes the tens digit. *)
Theorem friend_transition_crosses_a_ten
    (cfg : RawConfig) (from to : Z) :
  FriendsRule._isFriendTransition (FriendsRule.new cfg) from to = true
  ↔ Z.abs (to - from) ∈ FriendsRule.friendsDigits (FriendsRule.new cfg)
    ∧ 0 ≤ from ≤ 99 ∧ 0 ≤ to ≤ 99
    ∧ to `div` 10 ≠ from `div` 10.
Proof. apply isFriendTransition_true. Qed.


(** ** Replication of signature actions *)

Lemma countIn_app x l1 l2 : countIn x (l1 ++ l2) = (countIn x l1 + countIn x l2)%nat.
Proof. unfold countIn. by rewrite filter_app, length_app. Qed.

Lemma countIn_replicate x n : countIn x (replicate n x) = n.
Proof.
  unfold countIn. induction n as [|n IH]; [done|].
  cbn [replicate]. rewrite filter_cons_True by done. simpl. by rewrite IH.
Qed.

Lemma countIn_pushed x (digits : list Z) (f : Z → list Z) d :
  d ∈ digits → (countIn x (f d) ≤ countIn x (digits ≫= f))%nat.
Proof.
  induction digits as [|d' digits IH]; [by rewrite elem_of_nil|].
  rewrite elem_of_cons, bind_cons, countIn_app. intros [-> | Hd]; [lia|].
  apply IH in Hd. lia.
Qed.

Lemma brothers_addition_replicated (r : BrothersRule.t) state isFirst d :
  onlySubtraction (BrothersRule.config r) = false →
  d ∈ BrothersRule.brothersDigits r → 0 ≤ state + d ≤ 9 →
  BrothersRule._isBrotherTransition r state (state + d) = true →
  (5 ≤ countIn d (BrothersRule.getAvailableActions r state isFirst))%nat.
Proof.
  intros Hsub Hd Hr Hsig.
  pose proof (countIn_pushed d (BrothersRule.brothersDigits r)
    (λ digit, if bool_decide (state + digit >= 0)
                 && bool_decide (state + digit ≤ 9)
                 && BrothersRule._isBrotherTransition r state (state + digit)
              then replicate BrothersRule.times digit else []) d Hd) as H1.
  pose proof (countIn_pushed d (BrothersRule.brothersDigits r)
    (λ digit, if bool_decide (state + digit ≤ 9)
                 && BrothersRule._isBrotherTransition r state (state + digit)
              then replicate BrothersRule.times digit else []) d Hd) as H2.
  cbv beta in H1, H2. rewrite Hsig in H1, H2.
  assert (E1 : bool_decide (state + d >= 0) = true)
    by (apply bool_decide_eq_true_2; lia).
  rewrite E1 in H1. clear E1.
  match type of H2 with context [bool_decide ?P] =>
    rewrite (bool_decide_eq_true_2 P) in H1, H2 by lia end.
  cbn [andb] in H1, H2.
  rewrite countIn_replicate in H1, H2. unfold BrothersRule.times in H1, H2.
  unfold BrothersRule.getAvailableActions. cbv zeta. rewrite Hsub.
  cbn [negb]. rewrite !andb_true_r.
  destruct isFirst; [|destruct (bool_decide (state = 0))];
    rewrite ?countIn_app; unfold BrothersRule.times; lia.
Qed.

Lemma brothers_subtraction_replicated (r : BrothersRule.t) state d :
  onlyAddition (BrothersRule.config r) = false → state ≠ 0 →
  d ∈ BrothersRule.brothersDigits r → 0 ≤ state - d ≤ 9 →
  BrothersRule._isBrotherTransition r state (state - d) = true →
  (5 ≤ countIn (- d) (BrothersRule.getAvailableActions r state false))%nat.
Proof.
  intros Hadd Hstate Hd Hr Hsig.
  pose proof (countIn_pushed (- d) (BrothersRule.brothersDigits r)
    (λ digit, if bool_decide (state - digit >= 0)
                 && bool_decide (state - digit ≤ 9)
                 && BrothersRule._isBrotherTransition r state (state - digit)
              then replicate BrothersRule.times (- digit) else []) d Hd) as H1.
  cbv beta in H1. rewrite Hsig in H1.
  assert (E1 : bool_decide (state - d >= 0) = true)
    by (apply bool_decide_eq_true_2; lia).
  rewrite E1 in H1. clear E1.
  match type of H1 with context [bool_decide ?P] =>
    rewrite (bool_decide_eq_true_2 P) in H1 by lia end.
  cbn [andb] in H1.
  rewrite countIn_replicate in H1. unfold BrothersRule.times in H1.
  unfold BrothersRule.getAvailableActions. cbv zeta. rewrite Hadd.
  cbn [negb andb]. rewrite (bool_decide_eq_false_2 (state = 0)) by done.
  cbn [andb]. rewrite !countIn_app. unfold BrothersRule.times. lia.
Qed.

Lemma friends_addition_replicated (r : FriendsRule.t) state isFirst d :
  onlySubtraction (FriendsRule.config r) = false →
  d ∈ FriendsRule.friendsDigits r → 0 ≤ state + d ≤ 99 →
  FriendsRule._isFriendTransition r state (state + d) = true →
  (5 ≤ countIn d (FriendsRule.getAvailableActions r state isFirst))%nat.
Proof.
  intros Hsub Hd Hr Hsig.
  pose proof (countIn_pushed d (FriendsRule.friendsDigits r)
    (λ digit, if bool_decide (state + digit >= 0)
                 && bool_decide (state + digit ≤ 99)
                 && FriendsRule._isFriendTransition r state (state + digit)
              then replicate FriendsRule.times digit else []) d Hd) as H1.
  pose proof (countIn_pushed d (FriendsRule.friendsDigits r)
    (λ digit, if bool_decide (state + digit ≤ 99)
                 && FriendsRule._isFriendTransition r state (state + digit)
              then replicate FriendsRule.times digit else []) d Hd) as H2.
  cbv beta in H1, H2. rewrite Hsig in H1, H2.
  assert (E1 : bool_decide (state + d >= 0) = true)
    by (apply bool_decide_eq_true_2; lia).
  rewrite E1 in H1. clear E1.
  match type of H2 with context [bool_decide ?P] =>
    rewrite (bool_decide_eq_true_2 P) in H1, H2 by lia end.
  cbn [andb] in H1, H2.
  rewrite countIn_replicate in H1, H2. unfold FriendsRule.times in H1, H2.
  unfold FriendsRule.getAvailableActions. cbv zeta. rewrite Hsub.
  cbn [negb]. rewrite !andb_true_r.
  destruct isFirst; [|destruct (bool_decide (state = 0))];
    rewrite ?countIn_app; unfold FriendsRule.times; lia.
Qed.

Lemma friends_subtraction_replicated (r : FriendsRule.t) state d :
  onlyAddition (FriendsRule.config r) = false → state ≠ 0 →
  d ∈ FriendsRule.friendsDigits r → 0 ≤ state - d ≤ 99 →
  FriendsRule._isFriendTransition r state (state - d) = true →
  (5 ≤ countIn (- d) (FriendsRule.getAvailableActions r state false))%nat.
Proof.
  intros Hadd Hstate Hd Hr Hsig.
  pose proof (countIn_pushed (- d) (FriendsRule.friendsDigits r)
    (λ digit, if bool_decide (state - digit >= 0)
                 && bool_decide (state - digit ≤ 99)
                 && FriendsRule._isFriendTransition r state (state - digit)
              then replicate FriendsRule.times (- digit) else []) d Hd) as H1.
  cbv beta in H1. rewrite Hsig in H1.
  assert (E1 : bool_decide (state - d >= 0) = true)
    by (apply bool_decide_eq_true_2; lia).
  rewrite E1 in H1. clear E1.
  match type of H1 with context [bool_decide ?P] =>
    rewrite (bool_decide_eq_true_2 P) in H1 by lia end.
  cbn [andb] in H1.
  rewrite countIn_replicate in H1. unfold FriendsRule.times in H1.
  unfold FriendsRule.getAvailableActions. cbv zeta. rewrite Hadd.
  cbn [negb andb]. rewrite (bool_decide_eq_false_2 (state = 0)) by done.
  cbn [andb]. rewrite !countIn_app. unfold FriendsRule.times. lia.
Qed.

(** X5: the priority of the compensating moves.  When a positive digit [d]
    (resp. [-d] from a non-zero state, not as the first step) makes a
    signature transition of the rule from [state] and the flags allow its
    sign, the offered list contains it at least five times. *)
Theorem signature_actions_are_replicated
    (K : RuleClass) (cfg : RawConfig) (state d : Z) (isFirst : bool) :
  0 < d →
  (onlySubtraction (configOf (construct K cfg)) = false →
   isSignatureTransition (construct K cfg) state (state + d) = true →
   (5 ≤ countIn d (getAvailableActions (construct K cfg) state isFirst))%nat)
  ∧ (onlyAddition (configOf (construct K cfg)) = false →
     state ≠ 0 →
     isSignatureTransition (construct K cfg) state (state - d) = true →
     (5 ≤ countIn (- d) (getAvailableActions (construct K cfg) state false))%nat).
Proof.
  intros Hpos.
  destruct K; cbn [construct configOf isSignatureTransition getAvailableActions].
  - split; intros; discriminate.
  - split.
    + intros Hsub Hsig.
      pose proof (proj1 (isBrotherTransition_true _ _ _) Hsig) as (Hd & ? & ? & _).
      replace (Z.abs (state + d - state)) with d in Hd by lia.
      apply brothers_addition_replicated; auto.
    + intros Hadd Hstate Hsig.
      pose proof (proj1 (isBrotherTransition_true _ _ _) Hsig) as (Hd & ? & ? & _).
      replace (Z.abs (state - d - state)) with d in Hd by lia.
      apply brothers_subtraction_replicated; auto.
  - split.
    + intros Hsub Hsig.
      pose proof (proj1 (isFriendTransition_true _ _ _) Hsig) as (Hd & ? & ? & _).
      replace (Z.abs (state + d - state)) with d in Hd by lia.
      apply friends_addition_replicated; auto.
    + intros Hadd Hstate Hsig.
      pose proof (proj1 (isFriendTransition_true _ _ _) Hsig) as (Hd & ? & ? & _).
      replace (Z.abs (state - d - state)) with d in Hd by lia.
      apply friends_subtraction_replicated; auto.
  - split; intros; rewrite isMixTransition_false in *; discriminate.
Qed.

Lemma signature_actions_are_replicated_witness :
  (5 ≤ countIn 4
         (getAvailableActions (construct BrothersRuleClass emptyRaw) 0 true))%nat.
Proof.
  destruct (signature_actions_are_replicated BrothersRuleClass emptyRaw 0 4
              true) as [H _]; [lia|].
  apply H; vm_compute; reflexivity.
Defined.

(** * Further properties of the sequence generator *)

(** ** Where a returned example comes from *)

Lemma tryAttempt_origin rule src ex src' :
  tryAttempt rule (effectiveDigitCount rule) src = (Ok (Some ex), src') →
  ∃ raw src1,
    rawAttempt rule src = (Ok raw, src1)
    ∧ ex = truncateExample rule raw
    ∧ validateExample rule ex = true.
Proof.
  unfold tryAttempt, tryCatch, rawAttempt. rewrite bind_run.
  destruct (if bool_decide (effectiveDigitCount rule = 1) then _ else _)
    as [[raw|e] src1]; [|discriminate].
  cbv zeta.
  destruct (validateExample rule (truncateExample rule raw)) eqn:Hv;
    cbn [negb]; [|discriminate].
  intros [= <- <-]. eauto.
Qed.

Lemma attempts_origin rule fuel src ex src' :
  attempts rule (effectiveDigitCount rule) fuel src = (Ok (Some ex), src') →
  ∃ raw src0 src1,
    rawAttempt rule src0 = (Ok raw, src1)
    ∧ ex = truncateExample rule raw
    ∧ validateExample rule ex = true.
Proof.
  revert src. induction fuel as [|fuel IH]; intros src; [discriminate|].
  cbn [attempts]. rewrite bind_run.
  destruct (tryAttempt rule (effectiveDigitCount rule) src)
    as [[[ex'|]|e] src1] eqn:Htry; [| apply IH | discriminate].
  intros [= <- <-]. apply tryAttempt_origin in Htry as (raw & s1 & ?).
  eauto.
Qed.

Lemma generate_plain_origin rule src ex src' :
  generate (Plain rule) src = (Ok ex, src') →
  ex = _generateFallbackExample
  ∨ ∃ raw src0 src1,
      rawAttempt rule src0 = (Ok raw, src1)
      ∧ ex = truncateExample rule raw
      ∧ validateExample rule ex = true.
Proof.
  cbn [generate]. rewrite bind_run.
  destruct (attempts rule (effectiveDigitCount rule) (maxAttempts rule) src)
    as [[[ex'|]|e] src1] eqn:Hloop; [| | discriminate].
  - intros [= <- <-]. right. by apply attempts_origin in Hloop.
  - intros [= <- <-]. by left.
Qed.

Lemma multiDigit_attempts_origin g stepsCount fuel src ex src' :
  MultiDigitGenerator.attempts g stepsCount fuel src = (Ok (Some ex), src') →
  ∃ src0 src1,
    MultiDigitGenerator._generateAttempt g stepsCount src0 = (Ok ex, src1)
    ∧ validateExample (MultiDigitGenerator.baseRule g) ex = true.
Proof.
  revert src. induction fuel as [|fuel IH]; intros src; [discriminate|].
  cbn [MultiDigitGenerator.attempts]. rewrite bind_run.
  destruct (MultiDigitGenerator.tryAttempt g stepsCount src)
    as [[[ex'|]|e] src1] eqn:Htry; [| apply IH | discriminate].
  intros [= <- <-]. unfold MultiDigitGenerator.tryAttempt, tryCatch in Htry.
  rewrite bind_run in Htry.
  destruct (MultiDigitGenerator._generateAttempt g stepsCount src)
    as [[raw|e] src2] eqn:Hraw; [|discriminate].
  destruct (validateExample (MultiDigitGenerator.baseRule g) raw) eqn:Hv;
    cbn [negb] in Htry; [|discriminate].
  injection Htry as <- <-. eauto.
Qed.

Lemma generate_multiDigit_origin g src ex src' :
  generate (MultiDigit g) src = (Ok ex, src') →
  ∃ stepsCount src0 src1 src2,
    generateStepsCount (MultiDigitGenerator.baseRule g) src
      = (Ok stepsCount, src0)
    ∧ MultiDigitGenerator._generateAttempt g stepsCount src1 = (Ok ex, src2)
    ∧ validateExample (MultiDigitGenerator.baseRule g) ex = true.
Proof.
  cbn [generate]. unfold MultiDigitGenerator.generateExample.
  rewrite bind_run.
  destruct (generateStepsCount (MultiDigitGenerator.baseRule g) src)
    as [[n|e] src0] eqn:Hn; [|discriminate].
  rewrite bind_run.
  destruct (MultiDigitGenerator.attempts g n MultiDigitGenerator.maxAttempts src0)
    as [[[ex'|]|e] src1] eqn:Hloop; [| discriminate | discriminate].
  intros [= <- <-].
  apply multiDigit_attempts_origin in Hloop as (s0 & s1 & ? & ?).
  eauto 10.
Qed.

(** ** Random draws *)

Lemma Math_random_range src :
  ∃ u src', Math_random src = (Ok u, src') ∧ 0 ≤ u < RESOLUTION.
Proof.
  unfold Math_random, RESOLUTION. destruct src as [|u src].
  - exists 0, []. split; [done | lia].
  - exists (u `mod` 2 ^ 53), src. split; [done|].
    apply Z.mod_pos_bound. lia.
Qed.

Lemma randomFloor_range n src :
  0 < n → ∃ k src', randomFloor n src = (Ok k, src') ∧ 0 ≤ k < n.
Proof.
  intros Hn. unfold randomFloor. rewrite bind_run.
  destruct (Math_random_range src) as (u & src' & -> & Hu).
  exists ((u * n) `div` RESOLUTION), src'. split; [done|].
  unfold RESOLUTION in *. split.
  - apply Z.div_pos; nia.
  - apply Z.div_lt_upper_bound; nia.
Qed.

Lemma pickRandom_member arr src act src' :
  arr ≠ [] → pickRandom arr src = (Ok act, src') → act ∈ arr.
Proof.
  intros Hne. unfold pickRandom. rewrite bind_run.
  destruct (randomFloor_range (Z.of_nat (length arr)) src)
    as (k & src1 & -> & Hk).
  { destruct arr; [done | simpl; lia]. }
  intros [= <- <-].
  destruct (arr !! Z.to_nat k) as [x|] eqn:Hx.
  - simpl. by apply list_elem_of_lookup_2 in Hx.
  - apply lookup_ge_None in Hx. lia.
Qed.

Lemma stepsCount_range rule src n src' :
  minSteps (configOf rule) ≤ maxSteps (configOf rule) →
  generateStepsCount rule src = (Ok n, src') →
  minSteps (configOf rule) ≤ n ≤ maxSteps (configOf rule).
Proof.
  intros Hle Hrun.
  assert (Hrun' : randomStepsCount (configOf rule) src = (Ok n, src'))
    by (by destruct rule).
  unfold randomStepsCount in Hrun'. rewrite bind_run in Hrun'.
  destruct (randomFloor_range
              (maxSteps (configOf rule) - minSteps (configOf rule) + 1) src)
    as (k & src1 & Hk & Hrange); [lia|].
  rewrite Hk in Hrun'. injection Hrun' as <- <-. lia.
Qed.

(** ** Number of steps *)

Lemma singleDigitLoop_length rule n i cur sts src res src' :
  singleDigitLoop rule n i cur sts src = (Ok res, src') →
  length res.1 = (length sts + n)%nat.
Proof.
  revert i cur sts src. induction n as [|n IH]; intros i cur sts src Hrun.
  - apply ret_ok in Hrun as [<- _]. simpl. lia.
  - cbn [singleDigitLoop] in Hrun. cbv zeta in Hrun.
    case_bool_decide; [discriminate|].
    apply bind_ok in Hrun as (act & src1 & _ & Hrun).
    apply IH in Hrun. rewrite Hrun, length_app. simpl. lia.
Qed.

Lemma vectorLoop_length rule combine n i cur sts src res src' :
  vectorLoop rule combine n i cur sts src = (Ok res, src') →
  length res.1 = (length sts + n)%nat.
Proof.
  revert i cur sts src. induction n as [|n IH]; intros i cur sts src Hrun.
  - apply ret_ok in Hrun as [<- _]. simpl. lia.
  - cbn [vectorLoop] in Hrun. cbv zeta in Hrun. destruct combine.
    + apply bind_ok in Hrun as (act & src1 & _ & Hrun).
      apply IH in Hrun. rewrite Hrun, length_app. simpl. lia.
    + apply bind_ok in Hrun as (next & src1 & _ & Hrun).
      apply IH in Hrun. rewrite Hrun, length_app. simpl. lia.
Qed.

Lemma multiDigit_attemptLoop_length g n i cur sts zeros src res src' :
  MultiDigitGenerator.attemptLoop g n i cur sts zeros src = (Ok res, src') →
  length res.1 = (length sts + n)%nat.
Proof.
  revert i cur sts zeros src.
  induction n as [|n IH]; intros i cur sts zeros src Hrun.
  - apply ret_ok in Hrun as [<- _]. simpl. lia.
  - cbn [MultiDigitGenerator.attemptLoop] in Hrun. cbv zeta in Hrun.
    apply bind_ok in Hrun as ([[act|] zeros'] & src1 & _ & Hrun);
      [|discriminate].
    destruct (_ || _); [discriminate|].
    apply IH in Hrun. rewrite Hrun, length_app. simpl. lia.
Qed.

Lemma rawAttempt_length rule src raw src' :
  0 ≤ minSteps (configOf rule) ≤ maxSteps (configOf rule) →
  rawAttempt rule src = (Ok raw, src') →
  minSteps (configOf rule) ≤ Z.of_nat (length (steps raw))
  ≤ maxSteps (configOf rule).
Proof.
  intros Hle. unfold rawAttempt. case_bool_decide.
  - unfold _generateSingleDigitAttempt. intros Hrun.
    apply bind_ok in Hrun as (n & src1 & Hn & Hrun).
    apply stepsCount_range in Hn; [|lia].
    apply bind_ok in Hrun as ([sts cur] & src2 & Hloop & Hrun).
    apply ret_ok in Hrun as [<- _].
    apply singleDigitLoop_length in Hloop. simpl in *. lia.
  - unfold _generateMultiDigitAttemptVectorBased. cbv zeta.
    destruct (negb _); [discriminate|]. intros Hrun.
    apply bind_ok in Hrun as (n & src1 & Hn & Hrun).
    apply stepsCount_range in Hn; [|lia].
    apply bind_ok in Hrun as ([sts cur] & src2 & Hloop & Hrun).
    apply ret_ok in Hrun as [<- _].
    apply vectorLoop_length in Hloop. simpl in *. lia.
Qed.

Lemma truncateExample_unchanged rule ex :
  Z.of_nat (length (steps ex)) ≤ maxSteps (configOf rule) →
  truncateExample rule ex = ex.
Proof.
  intros H. unfold truncateExample. cbv zeta.
  by rewrite bool_decide_eq_false_2 by lia.
Qed.

Lemma generate_step_count obj src example src' :
  0 ≤ minSteps (configOf (ruleOf obj)) ≤ maxSteps (configOf (ruleOf obj)) →
  generate obj src = (Ok example, src') →
  example = _generateFallbackExample
  ∨ (minSteps (configOf (ruleOf obj)) ≤ Z.of_nat (length (steps example))
     ≤ maxSteps (configOf (ruleOf obj))
     ∧ steps example ≠ []).
Proof.
  intros Hle Hrun. destruct obj as [rule | g]; cbn [ruleOf] in *.
  - apply generate_plain_origin in Hrun
      as [-> | (raw & s0 & s1 & Hraw & -> & Hvalid)]; [by left | right].
    apply rawAttempt_length in Hraw as Hlen; [|done].
    rewrite truncateExample_unchanged in * by lia.
    split; [done|]. by apply validateExample_within in Hvalid as [? _].
  - right.
    apply generate_multiDigit_origin in Hrun
      as (n & s0 & s1 & s2 & Hn & Hraw & Hvalid).
    apply stepsCount_range in Hn; [|lia].
    split; [|by apply validateExample_within in Hvalid as [? _]].
    unfold MultiDigitGenerator._generateAttempt in Hraw. cbv zeta in Hraw.
    apply bind_ok in Hraw as ([sts cur] & src2 & Hloop & Hret).
    apply ret_ok in Hret as [<- _].
    apply multiDigit_attemptLoop_length in Hloop. simpl in *. lia.
Qed.

(** X6: with [0 <= minSteps <= maxSteps], an example [generate] returns is
    the hard-coded fallback or has between [minSteps] and [maxSteps] steps
    and at least one. *)
Theorem returned_example_step_count
    (obj : RuleObject) (src : Source) (example : Example) (src' : Source) :
  0 ≤ minSteps (configOf (ruleOf obj)) ≤ maxSteps (configOf (ruleOf obj)) →
  generate obj src = (Ok example, src') →
  example = _generateFallbackExample
  ∨ (minSteps (configOf (ruleOf obj)) ≤ Z.of_nat (length (steps example))
     ≤ maxSteps (configOf (ruleOf obj))
     ∧ steps example ≠ []).
Proof. apply generate_step_count. Qed.

Lemma returned_example_step_count_witness :
  ∃ example src',
    generate variableBrothers variableBrothersSource = (Ok example, src')
    ∧ (example = _generateFallbackExample
       ∨ (3 ≤ Z.of_nat (length (steps example)) ≤ 3 ∧ steps example ≠ [])).
Proof.
  eexists _, _. split; [vm_compute; reflexivity|].
  apply (returned_example_step_count variableBrothers variableBrothersSource
           _ [0; 2 ^ 53 - 1]).
  - cbn. lia.
  - vm_compute. reflexivity.
Defined.

(** ** Flags on returned examples *)

Lemma validateExample_flags rule ex :
  validateExample rule ex = true →
  (onlyAddition (configOf rule) = true → hasNegative (steps ex) = false)
  ∧ (onlySubtraction (configOf rule) = true → hasPositive (steps ex) = false).
Proof.
  destruct rule as [c | r | r | r]; cbn [validateExample configOf].
  - unfold UnifiedSimpleRule.validateExample.
    destruct (BaseRule.validateExample c ex) eqn:Hbase; [|discriminate].
    intros _. unfold BaseRule.validateExample in Hbase.
    destruct (bool_decide _); [discriminate|].
    destruct (negb _); [discriminate|].
    destruct (onlyAddition c), (hasNegative (steps ex)); try discriminate;
      destruct (onlySubtraction c), (hasPositive (steps ex));
      try discriminate; split; intros; congruence.
  - unfold BrothersRule.validateExample.
    destruct (bool_decide _); [discriminate|].
    destruct (negb _); [discriminate|]. destruct (negb _); [discriminate|].
    destruct (onlyAddition _), (hasNegative (steps ex)); try discriminate;
      destruct (onlySubtraction _), (hasPositive (steps ex));
      try discriminate; split; intros; congruence.
  - unfold FriendsRule.validateExample.
    destruct (bool_decide _); [discriminate|].
    destruct (negb _); [discriminate|]. destruct (negb _); [discriminate|].
    destruct (onlyAddition _), (hasNegative (steps ex)); try discriminate;
      destruct (onlySubtraction _), (hasPositive (steps ex));
      try discriminate; split; intros; congruence.
  - unfold MixRule.validateExample.
    destruct (bool_decide _); [discriminate|].
    destruct (negb _); [discriminate|]. destruct (negb _); [discriminate|].
    destruct (onlyAddition _), (hasNegative (steps ex)); try discriminate;
      destruct (onlySubtraction _), (hasPositive (steps ex));
      try discriminate; split; intros; congruence.
Qed.

(** X7: an example [generate] returns is the hard-coded fallback or obeys
    the rule's flags: no negative action under [onlyAddition], no positive
    one under [onlySubtraction]. *)
Theorem returned_example_respects_flags
    (obj : RuleObject) (src : Source) (example : Example) (src' : Source) :
  generate obj src = (Ok example, src') →
  example = _generateFallbackExample
  ∨ ((onlyAddition (configOf (ruleOf obj)) = true →
      Forall (λ st, 0 ≤ action st) (steps example))
     ∧ (onlySubtraction (configOf (ruleOf obj)) = true →
        Forall (λ st, action st ≤ 0) (steps example))).
Proof.
  intros Hrun.
  apply generate_outcome in Hrun as [[-> _] | (Hvalid & _)]; [by left | right].
  apply validateExample_flags in Hvalid as [Hadd Hsub].
  split; intros H.
  - by apply hasNegative_false_iff, Hadd.
  - by apply hasPositive_false_iff, Hsub.
Qed.

Lemma returned_example_respects_flags_witness :
  ∃ example src',
    generate variableBrothers variableBrothersSource = (Ok example, src')
    ∧ (example = _generateFallbackExample
       ∨ ((onlyAddition (configOf (ruleOf variableBrothers)) = true →
           Forall (λ st, 0 ≤ action st) (steps example))
          ∧ (onlySubtraction (configOf (ruleOf variableBrothers)) = true →
             Forall (λ st, action st ≤ 0) (steps example)))).
Proof.
  eexists _, _. split; [vm_compute; reflexivity|].
  apply (returned_example_respects_flags variableBrothers
           variableBrothersSource _ [0; 2 ^ 53 - 1]).
  vm_compute. reflexivity.
Defined.

(** ** Only-subtraction exercises *)

Lemma Forall_absurd_nil {A : Type} (P : A → Prop) (l : list A) :
  Forall P l → (∀ x, P x → False) → l = [].
Proof. destruct 1 as [|x l Hx _]; [done|]. intros H. by destruct (H x). Qed.

Lemma no_action_from_zero_when_only_subtracting K cfg isFirst :
  onlySubtraction (configOf (construct K cfg)) = true →
  getAvailableActions (construct K cfg) 0 isFirst = [].
Proof.
  intros Hsub.
  apply (Forall_absurd_nil (offeredOk (configOf (construct K cfg)) 0)).
  - destruct K; cbn [construct getAvailableActions configOf].
    + apply simple_offered_ok.
    + apply brothers_offered_ok.
    + apply friends_offered_ok.
    + apply mix_offered_ok.
  - intros act (Hrange & _ & _ & Hneg). specialize (Hneg Hsub). lia.
Qed.

Lemma truncateExample_nil rule ex :
  steps ex = [] → steps (truncateExample rule ex) = [].
Proof.
  intros H. unfold truncateExample. cbv zeta. case_bool_decide; [|done].
  cbn [steps]. destruct (slice0_take (steps ex) (maxSteps (configOf rule)))
    as [k ->]. rewrite H. by destruct k.
Qed.

(** X8: with [onlySubtraction] set, single-column generation never
    succeeds: nothing can be subtracted from the start state 0, every
    attempt raises, and [generate] returns the hard-coded fallback, whose
    first two actions are additions. *)
Theorem only_subtraction_yields_the_fallback
    (K : RuleClass) (cfg : RawConfig) (src : Source) :
  onlySubtraction (configOf (construct K cfg)) = true →
  effectiveDigitCount (construct K cfg) = 1 →
  ∃ src', generate (Plain (construct K cfg)) src
          = (Ok _generateFallbackExample, src').
Proof.
  intros Hsub Hone.
  destruct (generate_plain_outcome (construct K cfg) src)
    as (ex & src' & Hrun & _).
  exists src'. rewrite Hrun. f_equal. f_equal.
  apply generate_plain_origin in Hrun
    as [-> | (raw & s0 & s1 & Hraw & -> & Hvalid)]; [done | exfalso].
  apply validateExample_within in Hvalid as [Hne _]. apply Hne.
  apply truncateExample_nil.
  unfold rawAttempt in Hraw. rewrite bool_decide_eq_true_2 in Hraw by done.
  unfold _generateSingleDigitAttempt in Hraw.
  apply bind_ok in Hraw as (n & src1 & _ & Hraw).
  apply bind_ok in Hraw as ([sts cur] & src2 & Hloop & Hret).
  apply ret_ok in Hret as [<- _]. cbn [steps].
  rewrite generateStartState_zero in Hloop.
  destruct (Z.to_nat n) as [|m].
  - apply ret_ok in Hloop as [[= <- _] _]. done.
  - cbn [singleDigitLoop] in Hloop. cbv zeta in Hloop.
    rewrite no_action_from_zero_when_only_subtracting in Hloop by done.
    discriminate.
Qed.

Lemma only_subtraction_yields_the_fallback_witness :
  ∃ src',
    generate (Plain (construct UnifiedSimpleRuleClass onlySubtractionRaw)) []
    = (Ok _generateFallbackExample, src').
Proof.
  apply (only_subtraction_yields_the_fallback UnifiedSimpleRuleClass
           onlySubtractionRaw []); reflexivity.
Defined.

(** ** Every step was offered by the rule *)

Lemma singleDigitLoop_offered rule n i cur sts src res src' :
  singleDigitLoop rule n i cur sts src = (Ok res, src') →
  i = Z.of_nat (length sts) →
  (∀ j st, sts !! j = Some st → offeredAt rule j st) →
  ∀ j st, res.1 !! j = Some st → offeredAt rule j st.
Proof.
  revert i cur sts src. induction n as [|n IH]; intros i cur sts src Hrun Hi Hinv.
  - apply ret_ok in Hrun as [<- _]. exact Hinv.
  - cbn [singleDigitLoop] in Hrun. cbv zeta in Hrun.
    case_bool_decide as Hempty; [discriminate|].
    apply bind_ok in Hrun as (act & src1 & Hpick & Hrun).
    apply pickRandom_member in Hpick; [|by destruct (getAvailableActions _ _ _)].
    apply (IH _ _ _ _ Hrun); [rewrite length_app; simpl; lia |].
    intros j st Hj. apply lookup_app_Some in Hj as [Hj | [Hlen Hj]];
      [by apply Hinv|].
    apply list_lookup_singleton_Some in Hj as [Hj <-].
    unfold offeredAt. cbn [action fromState].
    replace (bool_decide (j = 0%nat)) with (bool_decide (i = 0)); [done|].
    apply bool_decide_ext. lia.
Qed.

(** X9: in single-column mode every step of a returned example, unless the
    example is the fallback, carries an action that [getAvailableActions]
    offers from the state the step records, with [isFirst] set exactly for
    step 0. *)
Theorem returned_steps_were_offered
    (rule : Rule) (src : Source) (example : Example) (src' : Source) :
  effectiveDigitCount rule = 1 →
  generate (Plain rule) src = (Ok example, src') →
  example = _generateFallbackExample
  ∨ ∀ i st, steps example !! i = Some st → offeredAt rule i st.
Proof.
  intros Hone Hrun.
  apply generate_plain_origin in Hrun
    as [-> | (raw & s0 & s1 & Hraw & -> & _)]; [by left | right].
  unfold rawAttempt in Hraw. rewrite bool_decide_eq_true_2 in Hraw by done.
  unfold _generateSingleDigitAttempt in Hraw.
  apply bind_ok in Hraw as (n & src1 & _ & Hraw).
  apply bind_ok in Hraw as ([sts cur] & src2 & Hloop & Hret).
  apply ret_ok in Hret as [<- _].
  pose proof (singleDigitLoop_offered _ _ _ _ _ _ _ _ Hloop eq_refl) as Hall.
  cbn [fst] in Hall.
  intros i st Hi. apply Hall; [by intros ? ? ?|].
  unfold truncateExample in Hi. cbv zeta in Hi.
  case_bool_decide; [|done]. cbn [steps] in Hi.
  destruct (slice0_take sts (maxSteps (configOf rule))) as [k Hk].
  rewrite Hk in Hi. by apply lookup_take_Some in Hi as [? _].
Qed.

Lemma returned_steps_were_offered_witness :
  ∃ example src',
    generate plainSimple [] = (Ok example, src')
    ∧ (example = _generateFallbackExample
       ∨ ∀ i st, steps example !! i = Some st →
                 offeredAt (construct UnifiedSimpleRuleClass emptyRaw) i st).
Proof.
  eexists _, _. split; [vm_compute; reflexivity|].
  apply (returned_steps_were_offered (construct UnifiedSimpleRuleClass emptyRaw)
           [] _ []).
  - reflexivity.
  - vm_compute. reflexivity.
Defined.

(** * Further properties of the multi-digit composer *)

(** ** Positional value *)

Lemma composeNumber_value digits len i number :
  len = i + Z.of_nat (length digits) →
  MultiDigitGenerator.composeNumber len i number digits
  = number + valueOf digits.
Proof.
  revert i number. induction digits as [|d rest IH]; intros i number Hlen.
  - simpl. lia.
  - cbn [MultiDigitGenerator.composeNumber valueOf].
    rewrite IH by (cbn [length] in Hlen; lia).
    replace (len - 1 - i) with (Z.of_nat (length rest))
      by (cbn [length] in Hlen; lia).
    lia.
Qed.





Lemma valueOf_bounds digits :
  Forall (λ d, 0 ≤ d ≤ 9) digits →
  0 ≤ valueOf digits < 10 ^ Z.of_nat (length digits).
Proof.
  induction 1 as [|d rest Hd _ IH]; [simpl; lia|].
  cbn [valueOf length].
  replace (Z.of_nat (S (length rest))) with (Z.succ (Z.of_nat (length rest)))
    by lia.
  rewrite Z.pow_succ_r by lia.
  assert (0 < 10 ^ Z.of_nat (length rest)) by (apply Z.pow_pos_nonneg; lia).
  nia.
Qed.

Lemma valueOf_lower digits :
  digits ≠ [] → Forall (λ d, 1 ≤ d ≤ 9) digits →
  10 ^ (Z.of_nat (length digits) - 1) ≤ valueOf digits.
Proof.
  intros Hne H. destruct H as [|d rest Hd Hrest]; [done|].
  cbn [valueOf length].
  replace (Z.of_nat (S (length rest)) - 1) with (Z.of_nat (length rest)) by lia.
  assert (0 < 10 ^ Z.of_nat (length rest)) by (apply Z.pow_pos_nonneg; lia).
  assert (0 ≤ valueOf rest).
  { apply valueOf_bounds. eapply Forall_impl; [exact Hrest|]. simpl. lia. }
  nia.
Qed.

(** ** Digits of one action *)

Lemma chooseDigit_member fuel selected used pos zeros src d src' :
  selected ≠ [] →
  MultiDigitGenerator.chooseDigit fuel selected used pos zeros src
    = (Ok d, src') →
  d ∈ selected.
Proof.
  intros Hne. revert src. induction fuel as [|fuel IH]; intros src Hrun.
  - apply ret_ok in Hrun as [<- _]. destruct selected; [done|]. simpl. by left.
  - cbn [MultiDigitGenerator.chooseDigit] in Hrun.
    apply bind_ok in Hrun as (digit & src1 & Hpick & Hrun).
    apply pickRandom_member in Hpick; [|done].
    apply bind_ok in Hrun as (allow & src2 & _ & Hrun).
    destruct (negb _ || allow); [|by eapply IH].
    destruct (_ && _); [by eapply IH|].
    destruct (_ && _); [by eapply IH|].
    by apply ret_ok in Hrun as [<- _].
Qed.

Lemma chooseDigits_step n selected pos digits used zeros :
  MultiDigitGenerator.chooseDigits (S n) selected pos digits used zeros
  = (digit ← MultiDigitGenerator.chooseDigit 50 selected used pos zeros;
     MultiDigitGenerator.chooseDigits n selected (pos + 1) (digits ++ [digit])
       ({[ digit ]} ∪ used)
       (if bool_decide (digit = 0) then zeros + 1 else zeros)).
Proof. reflexivity. Qed.

Lemma chooseDigits_members n selected pos digits used zeros src res src'
    (P : Z → Prop) :
  selected ≠ [] → Forall P selected → Forall P digits →
  MultiDigitGenerator.chooseDigits n selected pos digits used zeros src
    = (Ok res, src') →
  Forall P res.1 ∧ length res.1 = (length digits + n)%nat.
Proof.
  intros Hne Hsel. revert pos digits used zeros src.
  induction n as [|n IH]; intros pos digits used zeros src Hdigits Hrun.
  - apply ret_ok in Hrun as [<- _]. simpl. split; [done | lia].
  - rewrite chooseDigits_step in Hrun.
    apply bind_ok in Hrun as (d & src1 & Hd & Hrun).
    apply chooseDigit_member in Hd; [|done].
    apply IH in Hrun as [? Hlen].
    + split; [done|]. rewrite Hlen, length_app. simpl. lia.
    + apply Forall_app_2; [done|]. constructor; [|constructor].
      by apply (proj1 (Forall_forall _ _) Hsel).
Qed.

(** ** Magnitude of the composed actions *)

Lemma multiDigitAction_ok g cur isFirst zeros src act zeros' src' :
  1 ≤ MultiDigitGenerator.displayDigitCount g →
  Forall (λ d, 1 ≤ d ≤ 9)
    (selectedDigits (configOf (MultiDigitGenerator.baseRule g))) →
  MultiDigitGenerator._generateMultiDigitAction g cur isFirst zeros src
    = (Ok (Some act, zeros'), src') →
  multiDigitActionOk g act ∧ (isFirst = true → 0 < act).
Proof.
  intros HD Hsel. unfold MultiDigitGenerator._generateMultiDigitAction.
  cbv zeta. case_bool_decide as Hempty; [discriminate|]. intros Hrun.
  assert (Hne : selectedDigits (configOf (MultiDigitGenerator.baseRule g)) ≠ [])
    by (by destruct (selectedDigits _)).
  apply bind_ok in Hrun as (dc & src1 & Hdc & Hrun).
  assert (Hdc' : 1 ≤ dc ≤ MultiDigitGenerator.displayDigitCount g
                 ∧ (MultiDigitGenerator.variableDigitCounts g = false →
                    dc = MultiDigitGenerator.displayDigitCount g)).
  { destruct (MultiDigitGenerator.variableDigitCounts g).
    - rewrite bind_run in Hdc.
      destruct (randomFloor_range (MultiDigitGenerator.displayDigitCount g) src)
        as (k & s & Hk & Hrange); [lia|].
      rewrite Hk in Hdc. injection Hdc as <- <-. split; [lia | discriminate].
    - apply ret_ok in Hdc as [<- _]. split; [lia | done]. }
  clear Hdc. destruct Hdc' as [Hdc Hfixed].
  apply bind_ok in Hrun as ([digits z1] & src2 & Hdigits & Hrun).
  apply (chooseDigits_members _ _ _ _ _ _ _ _ _ (λ d, 1 ≤ d ≤ 9)) in Hdigits
    as [Hall Hlen]; [| done | done | constructor].
  cbn [fst length] in Hall, Hlen.
  rewrite composeNumber_value in Hrun by lia.
  assert (Hdigits_ne : digits ≠ []) by (destruct digits; [simpl in Hlen; lia | done]).
  pose proof (valueOf_lower digits Hdigits_ne Hall) as Hlow.
  assert (Hup : 0 ≤ valueOf digits < 10 ^ Z.of_nat (length digits)).
  { apply valueOf_bounds. eapply Forall_impl; [exact Hall|]. simpl. lia. }
  replace (Z.of_nat (length digits)) with dc in * by lia.
  assert (Hpow1 : 1 ≤ 10 ^ (dc - 1))
    by (pose proof (Z.pow_pos_nonneg 10 (dc - 1)); lia).
  assert (Hpow2 : 10 ^ dc ≤ 10 ^ MultiDigitGenerator.displayDigitCount g)
    by (apply Z.pow_le_mono_r; lia).
  apply bind_ok in Hrun as (sign & src3 & Hsign & Hrun).
  assert (Hsign' : (sign = 1 ∨ sign = -1) ∧ (isFirst = true → sign = 1)).
  { destruct isFirst; [apply ret_ok in Hsign as [<- _]; auto|].
    destruct (bool_decide (cur = 0)); [apply ret_ok in Hsign as [<- _]; auto|].
    destruct (onlyAddition _); [apply ret_ok in Hsign as [<- _]; auto|].
    destruct (onlySubtraction _);
      [apply ret_ok in Hsign as [<- _]; split; [auto | discriminate]|].
    apply bind_ok in Hsign as (b & s & _ & Hsign).
    apply ret_ok in Hsign as [<- _]. destruct b; split; auto; discriminate. }
  clear Hsign. destruct Hsign' as [Hsign Hfirst].
  destruct (_ || _); apply ret_ok in Hrun as [Heq _]; [discriminate|].
  injection Heq as <- <-. unfold multiDigitActionOk.
  split; [split|].
  - destruct Hsign as [-> | ->]; lia.
  - intros Hv. rewrite <- (Hfixed Hv). destruct Hsign as [-> | ->]; lia.
  - intros Hf. rewrite (Hfirst Hf). lia.
Qed.

Lemma multiDigit_attemptLoop_actions g n i cur sts zeros src res src' :
  1 ≤ MultiDigitGenerator.displayDigitCount g →
  Forall (λ d, 1 ≤ d ≤ 9)
    (selectedDigits (configOf (MultiDigitGenerator.baseRule g))) →
  MultiDigitGenerator.attemptLoop g n i cur sts zeros src = (Ok res, src') →
  i = Z.of_nat (length sts) →
  Forall (λ st, multiDigitActionOk g (action st)) sts →
  (∀ st, sts !! 0%nat = Some st → 0 < action st) →
  Forall (λ st, multiDigitActionOk g (action st)) res.1
  ∧ (∀ st, res.1 !! 0%nat = Some st → 0 < action st).
Proof.
  intros HD Hsel. revert i cur sts zeros src.
  induction n as [|n IH]; intros i cur sts zeros src Hrun Hi Hall Hfirst.
  - apply ret_ok in Hrun as [<- _]. done.
  - cbn [MultiDigitGenerator.attemptLoop] in Hrun. cbv zeta in Hrun.
    apply bind_ok in Hrun as ([[act|] zeros'] & src1 & Hact & Hrun);
      [|discriminate].
    apply multiDigitAction_ok in Hact as [Hok Hpos]; [|done|done].
    destruct (_ || _); [discriminate|].
    apply IH in Hrun; [done | rewrite length_app; simpl; lia | |].
    + apply Forall_app_2; [done|]. constructor; [exact Hok | constructor].
    + intros st Hst. destruct sts as [|st0 sts].
      * injection Hst as <-. cbn [action]. apply Hpos.
        apply bool_decide_eq_true. simpl in Hi. lia.
      * apply Hfirst. exact Hst.
Qed.


(** ** Fixed-length multi-digit generation *)

Lemma multiDigit_generate_actions g src example src' :
  1 ≤ MultiDigitGenerator.displayDigitCount g →
  Forall (λ d, 1 ≤ d ≤ 9)
    (selectedDigits (configOf (MultiDigitGenerator.baseRule g))) →
  generate (MultiDigit g) src = (Ok example, src') →
  start example = 0
  ∧ Forall (λ st, multiDigitActionOk g (action st)) (steps example)
  ∧ (∀ st, steps example !! 0%nat = Some st → 0 < action st).
Proof.
  intros HD Hsel Hrun.
  apply generate_multiDigit_origin in Hrun
    as (n & s0 & s1 & s2 & _ & Hraw & _).
  unfold MultiDigitGenerator._generateAttempt in Hraw. cbv zeta in Hraw.
  apply bind_ok in Hraw as ([sts cur] & src2 & Hloop & Hret).
  apply ret_ok in Hret as [<- _]. cbn [steps start]. split; [done|].
  apply multiDigit_attemptLoop_actions in Hloop;
    [done | done | done | done | constructor |].
  intros st Hst. discriminate Hst.
Qed.

(** X11: when the selected digits are all in [1, 9] and
    [displayDigitCount >= 1], every operand of an example the multi-digit
    generator returns is non-zero with at most [displayDigitCount] digits,
    with exactly that many when [variableDigitCounts] is off, and the first
    operand is positive. *)
Theorem multi_digit_actions_have_the_displayed_length
    (g : MultiDigitGenerator.t) (src : Source) (example : Example)
    (src' : Source) :
  1 ≤ MultiDigitGenerator.displayDigitCount g →
  Forall (λ d, 1 ≤ d ≤ 9)
    (selectedDigits (configOf (MultiDigitGenerator.baseRule g))) →
  generate (MultiDigit g) src = (Ok example, src') →
  Forall (λ st, multiDigitActionOk g (action st)) (steps example)
  ∧ (∀ st, steps example !! 0%nat = Some st → 0 < action st).
Proof.
  intros HD Hsel Hrun.
  by apply multiDigit_generate_actions in Hrun as (_ & ? & ?).
Qed.

Lemma multi_digit_actions_have_the_displayed_length_witness :
  ∃ example src',
    generate variableBrothers variableBrothersSource = (Ok example, src')
    ∧ Forall (λ st, multiDigitActionOk
                      (MultiDigitGenerator.new BrothersRuleClass 2
                         variableBrothersRaw (Some true)) (action st))
        (steps example)
    ∧ (∀ st, steps example !! 0%nat = Some st → 0 < action st).
Proof.
  eexists _, _. split; [vm_compute; reflexivity|].
  apply (multi_digit_actions_have_the_displayed_length
           (MultiDigitGenerator.new BrothersRuleClass 2 variableBrothersRaw
              (Some true))
           variableBrothersSource _ [0; 2 ^ 53 - 1]).
  - cbn. lia.
  - cbn. repeat constructor; lia.
  - vm_compute. reflexivity.
Defined.

Lemma prefixSum_step ex i st :
  steps ex !! i = Some st →
  prefixSum ex (S i) = prefixSum ex i + action st.
Proof.
  intros Hst. unfold prefixSum.
  rewrite (take_S_r _ _ _ Hst). apply replay_snoc.
Qed.

Lemma ten_le_pow (D : Z) : 2 ≤ D → 10 ≤ 10 ^ (D - 1).
Proof.
  intros HD. change 10 with (10 ^ 1) at 1. apply Z.pow_le_mono_r; lia.
Qed.

Lemma long_actions_rejected K cfg ex :
  start ex = 0 →
  Forall (λ st, 10 ≤ Z.abs (action st)) (steps ex) →
  (∀ st, steps ex !! 0%nat = Some st → 0 < action st) →
  validateExample (construct K cfg) ex = false.
Proof.
  intros Hstart Hall Hfirst.
  destruct (validateExample (construct K cfg) ex) eqn:Hvalid; [exfalso | done].
  pose proof (validateExample_within _ _ Hvalid) as [Hne Hwithin].
  destruct (steps ex) as [|st0 rest] eqn:Hsteps; [done|].
  pose proof (Hfirst st0 eq_refl) as Hpos.
  pose proof (Forall_inv Hall) as Hbig. cbv beta in Hbig.
  pose proof (statesWithin_prefix _ _ _ _ 1%nat Hwithin) as Hone.
  rewrite take_S_cons, take_0, Hstart in Hone.
  unfold replay in Hone. cbn [foldl length] in Hone.
  specialize (Hone ltac:(lia)).
  rewrite enforcedBound_construct in Hone.
  destruct K.
  - destruct (simple_maxState cfg) as [Hm | Hm];
      cbn [construct configOf] in Hone; rewrite Hm in Hone; lia.
  - cbn [construct configOf BrothersRule.new BrothersRule.config maxState]
      in Hone. lia.
  - apply validateExample_signature in Hvalid as [i [Hi Hsig]]; [|done].
    rewrite Hsteps in Hi.
    destruct (lookup_lt_is_Some_2 (st0 :: rest) i Hi) as [st Hst].
    rewrite <- Hsteps in Hst.
    rewrite (prefixSum_step _ _ _ Hst) in Hsig.
    cbn [construct isSignatureTransition] in Hsig.
    unfold FriendsRule._isFriendTransition in Hsig. cbv zeta in Hsig.
    apply tableLookup_true in Hsig as [Hin _].
    apply friends_digits_range in Hin.
    rewrite Hsteps in Hst. apply list_elem_of_lookup_2 in Hst.
    rewrite Forall_forall in Hall. specialize (Hall _ Hst). cbv beta in Hall.
    lia.
  - cbn [construct validateExample] in Hvalid.
    unfold MixRule.validateExample in Hvalid.
    rewrite hasMixStep_false in Hvalid.
    by destruct (bool_decide _).
Qed.

Lemma fixed_length_generation_fails K d cfg variable src :
  2 ≤ d →
  default false variable = false →
  Forall (λ x, 1 ≤ x ≤ 9) (selectedDigits (configOf (construct K cfg))) →
  ∃ src', generate (MultiDigit (MultiDigitGenerator.new K d cfg variable)) src
          = (Thrown GenerationFailed, src').
Proof.
  intros Hd Hfixed Hsel.
  set (g := MultiDigitGenerator.new K d cfg variable).
  assert (HD : 2 ≤ MultiDigitGenerator.displayDigitCount g)
    by (unfold g; cbn [MultiDigitGenerator.new
                       MultiDigitGenerator.displayDigitCount]; lia).
  destruct (generate_multiDigit_outcome g src)
    as [(ex & src1 & Hgen & Hacc) | Hfail]; [exfalso | exact Hfail].
  destruct Hacc as [Hvalid _]. cbn [ruleOf] in Hvalid.
  apply multiDigit_generate_actions in Hgen as (Hstart & Hall & Hfirst);
    [| lia | exact Hsel].
  change (MultiDigitGenerator.baseRule g) with (construct K cfg) in Hvalid.
  rewrite long_actions_rejected in Hvalid; [discriminate | done | | done].
  eapply Forall_impl; [exact Hall|]. intros st [_ Hlow]. cbv beta.
  specialize (Hlow Hfixed). pose proof (ten_le_pow _ HD). lia.
Qed.

(** X12: with [variableDigitCounts] off, two or more digits and selected
    digits in [1, 9], multi-digit generation never succeeds, for any of the
    four rules and any random source: each attempt starts with an operand of
    at least 10, which the base rule's validator rejects, and after 500
    attempts [generate] raises. *)
Theorem fixed_length_multi_digit_generation_always_fails
    (K : RuleClass) (d : Z) (cfg : RawConfig) (variable : option bool)
    (src : Source) :
  2 ≤ d →
  default false variable = false →
  Forall (λ x, 1 ≤ x ≤ 9) (selectedDigits (configOf (construct K cfg))) →
  ∃ src', generate (MultiDigit (MultiDigitGenerator.new K d cfg variable)) src
          = (Thrown GenerationFailed, src').
Proof. apply fixed_length_generation_fails. Qed.

Lemma fixed_length_multi_digit_generation_always_fails_witness :
  ∃ src', generate twoDigitSimple [] = (Thrown GenerationFailed, src').
Proof.
  apply (fixed_length_multi_digit_generation_always_fails
           UnifiedSimpleRuleClass 2 twoDigitSimpleRaw (Some false) []).
  - lia.
  - reflexivity.
  - cbn. repeat constructor; lia.
Defined.

(** ** core/generator.js *)

Lemma generateExample_unfold settings :
  Generator.generateExample settings
  = tryCatch (rawExample ← generate (settingsRule settings);
              mret (toTrainerFormat rawExample))
             (λ error, mret Generator.fallback).
Proof. reflexivity. Qed.

Lemma generateExample_cases settings src :
  (∃ raw src', generate (settingsRule settings) src = (Ok raw, src')
               ∧ Generator.generateExample settings src
                 = (Ok (toTrainerFormat raw), src'))
  ∨ (∃ e src', generate (settingsRule settings) src = (Thrown e, src')
               ∧ Generator.generateExample settings src
                 = (Ok Generator.fallback, src')).
Proof.
  rewrite generateExample_unfold. unfold tryCatch. rewrite bind_run.
  destruct (generate (settingsRule settings) src) as [[raw|e] src1];
    [left | right]; eauto.
Qed.

Lemma construct_selectedDigits K cfg :
  selectedDigits (configOf (construct K cfg))
  = match K with
    | UnifiedSimpleRuleClass =>
        match raw_selectedDigits cfg with
        | Some arr => digitsBetween 1 9 arr
        | None => [1; 2; 3; 4]
        end
    | _ => default [] (raw_selectedDigits cfg)
    end.
Proof. by destruct K. Qed.

Lemma construct_steps_range K cfg :
  minSteps (configOf (construct K cfg)) = default 3 (raw_minSteps cfg)
  ∧ maxSteps (configOf (construct K cfg)) = default 7 (raw_maxSteps cfg).
Proof. by destruct K. Qed.

Lemma Forall_digitsBetween lo hi arr :
  Forall (λ x, lo ≤ x ≤ hi) (digitsBetween lo hi arr).
Proof. apply Forall_forall. intros x. apply digitsBetween_range. Qed.

Lemma ruleConfigFor_digits K blocks mn mx combine :
  Forall (λ x, 1 ≤ x ≤ 9)
    (selectedDigits
       (configOf (construct K (Generator.ruleConfigFor K blocks mn mx combine)))).
Proof.
  rewrite construct_selectedDigits.
  destruct K; cbn [Generator.ruleConfigFor raw_selectedDigits default].
  - apply Forall_digitsBetween.
  - case_bool_decide.
    + eapply Forall_impl; [apply Forall_digitsBetween|]. simpl. lia.
    + repeat constructor; lia.
  - case_bool_decide; [apply Forall_digitsBetween | repeat constructor; lia].
  - case_bool_decide.
    + eapply Forall_impl; [apply Forall_digitsBetween|]. simpl. lia.
    + repeat constructor; lia.
Qed.

Lemma settingsRule_config settings :
  minSteps (configOf (ruleOf (settingsRule settings))) = settingsMinSteps settings
  ∧ maxSteps (configOf (ruleOf (settingsRule settings)))
    = settingsMaxSteps settings.
Proof.
  unfold settingsRule. cbv zeta.
  destruct (bool_decide (settingsDigitCount settings > 1));
    cbn [ruleOf MultiDigitGenerator.new MultiDigitGenerator.baseRule];
    rewrite !(proj1 (construct_steps_range _ _)),
            !(proj2 (construct_steps_range _ _));
    unfold settingsRuleConfig;
    by destruct (Generator.chooseRuleClass _).
Qed.

Lemma fixed_length_settings_fallback settings d src :
  settings_digits settings = Some d → 2 ≤ d →
  settings_combineLevels settings = false →
  ∃ src', Generator.generateExample settings src
          = (Ok Generator.fallback, src').
Proof.
  intros Hdigits Hd Hcombine.
  destruct (generateExample_cases settings src)
    as [(raw & src1 & Hgen & _) | (e & src1 & _ & Hres)]; [exfalso | eauto].
  revert Hgen. unfold settingsRule, settingsDigitCount. cbv zeta.
  rewrite Hdigits, Hcombine.
  rewrite (bool_decide_eq_true_2 (d > 0)) by lia.
  rewrite (bool_decide_eq_true_2 (d > 1)) by lia.
  unfold settingsRuleConfig. rewrite Hcombine. intros Hgen.
  destruct (fixed_length_generation_fails
              (Generator.chooseRuleClass (settings_blocks settings)) d
              (Generator.ruleConfigFor
                 (Generator.chooseRuleClass (settings_blocks settings))
                 (settings_blocks settings) (settingsMinSteps settings)
                 (settingsMaxSteps settings) false)
              (Some false) src Hd eq_refl (ruleConfigFor_digits _ _ _ _ _))
    as [src2 Hfail].
  rewrite Hfail in Hgen. discriminate.
Qed.

(** X13: [generateExample] called with [digits >= 2] and [combineLevels]
    off returns its fallback [+1 +2 -1 = 2], whatever the blocks and the
    random source. *)
Theorem multi_digit_settings_need_combineLevels
    (settings : Settings) (d : Z) (src : Source) :
  settings_digits settings = Some d → 2 ≤ d →
  settings_combineLevels settings = false →
  ∃ src', Generator.generateExample settings src
          = (Ok Generator.fallback, src').
Proof. apply fixed_length_settings_fallback. Qed.

Lemma multi_digit_settings_need_combineLevels_witness :
  ∃ src', Generator.generateExample twoDigitSettings []
          = (Ok Generator.fallback, src').
Proof.
  apply (multi_digit_settings_need_combineLevels twoDigitSettings 2 []);
    [reflexivity | lia | reflexivity].
Defined.

Lemma mix_rejects cfg ex :
  validateExample (construct MixRuleClass cfg) ex = false.
Proof.
  cbn [construct validateExample]. unfold MixRule.validateExample.
  rewrite hasMixStep_false. by destruct (bool_decide _).
Qed.

Lemma mix_plain_fallback cfg src :
  ∃ src', generate (Plain (construct MixRuleClass cfg)) src
          = (Ok _generateFallbackExample, src').
Proof.
  destruct (generate_plain_outcome (construct MixRuleClass cfg) src)
    as (ex & src1 & Hgen & [-> | [Hvalid _]]); [eauto|].
  cbn [ruleOf] in Hvalid. rewrite mix_rejects in Hvalid. discriminate.
Qed.

Lemma mix_multiDigit_fails d cfg variable src :
  ∃ src',
    generate (MultiDigit (MultiDigitGenerator.new MixRuleClass d cfg variable))
      src
    = (Thrown GenerationFailed, src').
Proof.
  destruct (generate_multiDigit_outcome
              (MultiDigitGenerator.new MixRuleClass d cfg variable) src)
    as [(ex & src1 & _ & [Hvalid _]) | Hfail]; [|exact Hfail].
  cbn [ruleOf MultiDigitGenerator.new MultiDigitGenerator.baseRule] in Hvalid.
  rewrite mix_rejects in Hvalid. discriminate.
Qed.

Lemma mix_settings_fallback settings src :
  blockActive (block_mix (settings_blocks settings)) = true →
  ∃ src',
    Generator.generateExample settings src
    = (Ok (if bool_decide (settingsDigitCount settings > 1)
           then Generator.fallback
           else toTrainerFormat _generateFallbackExample), src').
Proof.
  intros Hmix.
  assert (HK : Generator.chooseRuleClass (settings_blocks settings)
               = MixRuleClass)
    by (unfold Generator.chooseRuleClass; by rewrite Hmix).
  destruct (generateExample_cases settings src)
    as [(raw & src1 & Hgen & Hres) | (e & src1 & Hgen & Hres)];
    rewrite Hres; revert Hgen; unfold settingsRule; cbv zeta; rewrite HK;
    case_bool_decide; intros Hgen.
  - destruct (mix_multiDigit_fails (settingsDigitCount settings)
                (settingsRuleConfig settings)
                (Some (settings_combineLevels settings)) src) as [src2 Hfail].
    rewrite Hfail in Hgen. discriminate.
  - destruct (mix_plain_fallback (settingsRuleConfig settings) src)
      as [src2 Hfb].
    rewrite Hfb in Hgen. injection Hgen as <- <-. eauto.
  - eauto.
  - destruct (mix_plain_fallback (settingsRuleConfig settings) src)
      as [src2 Hfb].
    rewrite Hfb in Hgen. discriminate.
Qed.

(** X14: when the Mix block is active, [generateExample] returns a
    fallback for every random source: its own [+1 +2 -1 = 2] in multi-digit
    mode, the formatted fallback of [ExampleGenerator] otherwise. *)
Theorem mix_block_always_yields_a_fallback
    (settings : Settings) (src : Source) :
  blockActive (block_mix (settings_blocks settings)) = true →
  ∃ src',
    Generator.generateExample settings src
    = (Ok (if bool_decide (settingsDigitCount settings > 1)
           then Generator.fallback
           else toTrainerFormat _generateFallbackExample), src').
Proof. apply mix_settings_fallback. Qed.

Lemma mix_block_always_yields_a_fallback_witness :
  ∃ src', Generator.generateExample mixSettings []
          = (Ok Generator.fallback, src').
Proof.
  apply (mix_block_always_yields_a_fallback mixSettings []). reflexivity.
Defined.

Lemma generate_start obj src ex src' :
  generate obj src = (Ok ex, src') → start ex = 0.
Proof.
  intros Hrun. apply generate_outcome in Hrun as [[-> _] | (_ & Hstart & _)];
    done.
Qed.

Lemma generateExample_formatted settings src :
  0 ≤ settingsMinSteps settings ≤ settingsMaxSteps settings →
  ∃ ex src',
    Generator.generateExample settings src = (Ok ex, src')
    ∧ formattedOk (settingsMinSteps settings) (settingsMaxSteps settings) ex
    ∧ trainer_steps ex ≠ [].
Proof.
  intros Hle.
  destruct (generateExample_cases settings src)
    as [(raw & src1 & Hgen & Hres) | (e & src1 & Hgen & Hres)];
    rewrite Hres; eexists _, _; (split; [reflexivity|]).
  - pose proof (generate_start _ _ _ _ Hgen) as Hstart.
    destruct (settingsRule_config settings) as [Hmin Hmax].
    apply generate_step_count in Hgen as [-> | [Hlen Hne]];
      [| | by rewrite Hmin, Hmax].
    + split; [|done]. split; [done|]. auto.
    + rewrite Hmin, Hmax in Hlen. split.
      * split; [done|]. right. right.
        cbn [toTrainerFormat trainer_steps]. by rewrite length_fmap.
      * cbn [toTrainerFormat trainer_steps]. by destruct (steps raw).
  - split; [|done]. split; [done|]. auto.
Qed.

(** X15: with [0 <= minSteps <= maxSteps] derived from the settings,
    [generateExample] always returns an example; it starts from 0, has at
    least one step, and is one of the two fallbacks or has between
    [minSteps] and [maxSteps] steps. *)
Theorem generated_example_has_the_requested_length
    (settings : Settings) (src : Source) :
  0 ≤ settingsMinSteps settings ≤ settingsMaxSteps settings →
  ∃ ex src',
    Generator.generateExample settings src = (Ok ex, src')
    ∧ formattedOk (settingsMinSteps settings) (settingsMaxSteps settings) ex
    ∧ trainer_steps ex ≠ [].
Proof. apply generateExample_formatted. Qed.

Lemma generated_example_has_the_requested_length_witness :
  ∃ ex src',
    Generator.generateExample oneDigitSettings [] = (Ok ex, src')
    ∧ formattedOk 3 3 ex ∧ trainer_steps ex ≠ [].
Proof.
  apply (generated_example_has_the_requested_length oneDigitSettings []).
  split; vm_compute; discriminate.
Defined.

(** ** print/PrintGenerator.js *)

Lemma settingsOf_steps c :
  settingsMinSteps (PrintGenerator.settingsOf c) = PrintGenerator.actionsCount c
  ∧ settingsMaxSteps (PrintGenerator.settingsOf c)
    = PrintGenerator.actionsCount c.
Proof. done. Qed.

Lemma print_fallback_ok c id :
  1 ≤ PrintGenerator.actionsCount c →
  printedOk c (PrintGenerator._generateFallbackExample c id).
Proof.
  intros Hc. split; [done|].
  unfold PrintGenerator._generateFallbackExample. cbv zeta.
  cbn [PrintGenerator.print_steps]. rewrite !length_fmap, length_seqZ. lia.
Qed.

Lemma singleExampleLoop_shape c id fuel src :
  1 ≤ PrintGenerator.actionsCount c →
  ∃ ex src',
    PrintGenerator.singleExampleLoop c id fuel src = (Ok ex, src')
    ∧ PrintGenerator.id ex = id ∧ printedOk c ex.
Proof.
  intros Hc. revert src. induction fuel as [|fuel IH]; intros src.
  - eexists _, _. split; [reflexivity|]. split; [done|].
    by apply print_fallback_ok.
  - cbn [PrintGenerator.singleExampleLoop]. rewrite bind_run.
    unfold tryCatch at 1. rewrite bind_run.
    destruct (generateExample_formatted (PrintGenerator.settingsOf c) src)
      as (ex & src1 & -> & [Hstart Hshape] & Hne).
    { destruct (settingsOf_steps c) as [-> ->]. lia. }
    destruct (settingsOf_steps c) as [Hmin Hmax].
    rewrite Hmin, Hmax in Hshape.
    rewrite bool_decide_eq_false_2 by (by destruct (trainer_steps ex)).
    eexists _, _. split; [reflexivity|]. split; [done|].
    split; [done|]. cbn [PrintGenerator.print_steps].
    destruct Hshape as [-> | [-> | Hlen]]; [by right | by right | left; lia].
Qed.

Lemma print_generateLoop_shape c n i examples src :
  1 ≤ PrintGenerator.actionsCount c →
  ∃ new src',
    PrintGenerator.generateLoop c n i examples src
    = (Ok (examples ++ new), src')
    ∧ PrintGenerator.id <$> new = seqZ (i + 1) (Z.of_nat n)
    ∧ Forall (printedOk c) new.
Proof.
  intros Hc. revert i examples src.
  induction n as [|n IH]; intros i examples src.
  - exists [], src. rewrite app_nil_r. by repeat split.
  - cbn [PrintGenerator.generateLoop]. rewrite bind_run.
    unfold tryCatch at 1. rewrite bind_run.
    unfold PrintGenerator._generateSingleExample.
    destruct (singleExampleLoop_shape c (i + 1)
                (Z.to_nat (PrintGenerator.maxAttemptsPerExample c)) src Hc)
      as (ex & src1 & -> & Hid & Hok).
    change ((mret (examples ++ [ex]) : M _) src1)
      with (Ok (examples ++ [ex]), src1).
    cbv iota beta.
    destruct (IH (i + 1) (examples ++ [ex]) src1)
      as (new & src2 & Hloop & Hids & Hall).
    exists (ex :: new), src2. split; [|split].
    + rewrite Hloop. by rewrite <- app_assoc.
    + rewrite fmap_cons, Hid, Hids.
      replace (Z.of_nat (S n)) with (Z.succ (Z.of_nat n)) by lia.
      rewrite (seqZ_cons (i + 1) (Z.succ (Z.of_nat n))) by lia.
      rewrite Z.pred_succ. by replace (Z.succ (i + 1)) with (i + 1 + 1) by lia.
    + by constructor.
Qed.

Lemma print_generate_shape c src :
  configInvalid c = false →
  ∃ examples src',
    PrintGenerator.generate c src = (Ok examples, src')
    ∧ PrintGenerator.id <$> examples = seqZ 1 (PrintGenerator.examplesCount c)
    ∧ Forall (printedOk c) examples.
Proof.
  intros Hvalid.
  pose proof (print_validate_outcome c src) as Hv. rewrite Hvalid in Hv.
  unfold configInvalid, violatesPreconditions in Hvalid.
  apply orb_false_elim in Hvalid as [Hvalid _].
  apply orb_false_elim in Hvalid as [Hvalid _].
  apply orb_false_elim in Hvalid as [Hvalid _].
  apply orb_false_elim in Hvalid as [Hex Hact].
  apply negb_false_iff, bool_decide_eq_true in Hex, Hact.
  unfold PrintGenerator.generate. rewrite bind_run. unfold tryCatch.
  rewrite Hv.
  destruct (print_generateLoop_shape c
              (Z.to_nat (PrintGenerator.examplesCount c)) 0 [] src)
    as (new & src1 & Hloop & Hids & Hall); [lia|].
  exists new, src1. split; [exact Hloop|]. split; [|done].
  rewrite Hids. f_equal. lia.
Qed.

(** X16: for a configuration that passes [validate], [generate] returns
    exactly [examplesCount] examples, numbered 1, 2, ... in order; each
    starts from 0 and has [actionsCount] steps or the three steps of a
    fallback. *)
Theorem print_batch_shape (c : PrintGenerator.Config) (src : Source) :
  configInvalid c = false →
  ∃ examples src',
    PrintGenerator.generate c src = (Ok examples, src')
    ∧ PrintGenerator.id <$> examples = seqZ 1 (PrintGenerator.examplesCount c)
    ∧ Forall (printedOk c) examples.
Proof. apply print_generate_shape. Qed.

Lemma print_batch_shape_witness :
  ∃ examples src',
    PrintGenerator.generate smallWorksheet [] = (Ok examples, src')
    ∧ PrintGenerator.id <$> examples = [1; 2]
    ∧ Forall (printedOk smallWorksheet) examples.
Proof.
  apply (print_batch_shape smallWorksheet []). reflexivity.
Defined.

Lemma singleExampleLoop_fallback c id fuel src :
  alwaysFallback (PrintGenerator.settingsOf c) →
  ∃ src',
    PrintGenerator.singleExampleLoop c id (S fuel) src
    = (Ok (printedFallback id), src').
Proof.
  intros Hfb. cbn [PrintGenerator.singleExampleLoop]. rewrite bind_run.
  unfold tryCatch at 1. rewrite bind_run.
  destruct (Hfb src) as [src1 ->]. by eexists.
Qed.

Lemma print_generateLoop_fallback c n i examples src :
  alwaysFallback (PrintGenerator.settingsOf c) →
  1 ≤ PrintGenerator.maxAttemptsPerExample c →
  ∃ src',
    PrintGenerator.generateLoop c n i examples src
    = (Ok (examples ++ (printedFallback <$> seqZ (i + 1) (Z.of_nat n))), src').
Proof.
  intros Hfb Hattempts. revert i examples src.
  induction n as [|n IH]; intros i examples src.
  - exists src. by rewrite app_nil_r.
  - cbn [PrintGenerator.generateLoop]. rewrite bind_run.
    unfold tryCatch at 1. rewrite bind_run.
    unfold PrintGenerator._generateSingleExample.
    destruct (Z.to_nat (PrintGenerator.maxAttemptsPerExample c))
      as [|fuel] eqn:Hfuel; [lia|].
    destruct (singleExampleLoop_fallback c (i + 1) fuel src Hfb) as [src1 ->].
    change ((mret (examples ++ [printedFallback (i + 1)]) : M _) src1)
      with (Ok (examples ++ [printedFallback (i + 1)]), src1).
    cbv iota beta.
    destruct (IH (i + 1) (examples ++ [printedFallback (i + 1)]) src1)
      as [src2 ->].
    exists src2. rewrite <- app_assoc.
    replace (Z.of_nat (S n)) with (Z.succ (Z.of_nat n)) by lia.
    rewrite (seqZ_cons (i + 1) (Z.succ (Z.of_nat n))) by lia.
    rewrite Z.pred_succ. by replace (Z.succ (i + 1)) with (i + 1 + 1) by lia.
Qed.

Lemma print_generate_fallbacks c src :
  configInvalid c = false →
  1 ≤ PrintGenerator.maxAttemptsPerExample c →
  2 ≤ PrintGenerator.digitCount c →
  PrintGenerator.combineLevels c = false
  ∨ blockActive (block_mix (PrintGenerator.blocks c)) = true →
  ∃ src',
    PrintGenerator.generate c src
    = (Ok (printedFallback <$> seqZ 1 (PrintGenerator.examplesCount c)), src').
Proof.
  intros Hvalid Hattempts Hdigits Hcase.
  pose proof (print_validate_outcome c src) as Hv. rewrite Hvalid in Hv.
  unfold PrintGenerator.generate. rewrite bind_run. unfold tryCatch.
  rewrite Hv.
  assert (Hfb : alwaysFallback (PrintGenerator.settingsOf c)).
  { intros src0. destruct Hcase as [Hcombine | Hmix].
    - by apply (fixed_length_settings_fallback _ (PrintGenerator.digitCount c)).
    - destruct (mix_settings_fallback (PrintGenerator.settingsOf c) src0 Hmix)
        as [src1 Hres].
      rewrite Hres. exists src1.
      unfold settingsDigitCount. cbn [PrintGenerator.settingsOf settings_digits].
      rewrite (bool_decide_eq_true_2 (PrintGenerator.digitCount c > 0)) by lia.
      by rewrite (bool_decide_eq_true_2 (PrintGenerator.digitCount c > 1))
        by lia. }
  destruct (print_generateLoop_fallback c
              (Z.to_nat (PrintGenerator.examplesCount c)) 0 [] src Hfb Hattempts)
    as [src1 ->].
  exists src1. cbn [app]. do 3 f_equal.
  unfold seqZ. by rewrite Nat2Z.id.
Qed.

(** X17: for a valid configuration with at least one attempt per example,
    [digitCount >= 2] and either [combineLevels] off or the Mix block
    active, every line of the worksheet is the fallback [+1 +2 -1 = 2]. *)
Theorem worksheet_of_fallbacks (c : PrintGenerator.Config) (src : Source) :
  configInvalid c = false →
  1 ≤ PrintGenerator.maxAttemptsPerExample c →
  2 ≤ PrintGenerator.digitCount c →
  PrintGenerator.combineLevels c = false
  ∨ blockActive (block_mix (PrintGenerator.blocks c)) = true →
  ∃ src',
    PrintGenerator.generate c src
    = (Ok (printedFallback <$> seqZ 1 (PrintGenerator.examplesCount c)), src').
Proof. apply print_generate_fallbacks. Qed.

Lemma worksheet_of_fallbacks_witness :
  ∃ src',
    PrintGenerator.generate twoDigitWorksheet []
    = (Ok [printedFallback 1; printedFallback 2], src').
Proof.
  apply (worksheet_of_fallbacks twoDigitWorksheet []).
  - reflexivity.
  - vm_compute. discriminate.
  - vm_compute. discriminate.
  - left. reflexivity.
Defined.

(** ** print: one attempt is enough *)

Lemma generateExample_nonempty settings src :
  ∃ ex src',
    Generator.generateExample settings src = (Ok ex, src')
    ∧ trainer_steps ex ≠ [].
Proof.
  destruct (generateExample_cases settings src)
    as [(raw & src1 & Hgen & Hres) | (e & src1 & Hgen & Hres)];
    rewrite Hres; eexists _, _; (split; [reflexivity|]); [|done].
  cbn [toTrainerFormat trainer_steps].
  apply generate_outcome in Hgen as [[-> _] | [Hvalid _]]; [done|].
  apply validateExample_within in Hvalid as [Hne _].
  by destruct (steps raw).
Qed.

(** X18: with [maxAttemptsPerExample >= 1], [_generateSingleExample]
    returns the result of its first call of [generateExample] under the
    given id: the retry branch and [PrintGenerator._generateFallbackExample]
    are never reached. *)
Theorem print_example_takes_one_attempt
    (c : PrintGenerator.Config) (id : Z) (src : Source) :
  1 ≤ PrintGenerator.maxAttemptsPerExample c →
  ∃ raw src',
    Generator.generateExample (PrintGenerator.settingsOf c) src = (Ok raw, src')
    ∧ PrintGenerator._generateSingleExample c id src
      = (Ok {| PrintGenerator.id := id;
               PrintGenerator.print_steps := trainer_steps raw;
               PrintGenerator.print_answer := trainer_answer raw;
               PrintGenerator.print_start := trainer_start raw |}, src').
Proof.
  intros Hattempts. unfold PrintGenerator._generateSingleExample.
  destruct (Z.to_nat (PrintGenerator.maxAttemptsPerExample c))
    as [|fuel] eqn:Hfuel; [lia|].
  destruct (generateExample_nonempty (PrintGenerator.settingsOf c) src)
    as (raw & src1 & Hgen & Hne).
  exists raw, src1. split; [exact Hgen|].
  cbn [PrintGenerator.singleExampleLoop]. rewrite bind_run.
  unfold tryCatch at 1. rewrite bind_run, Hgen.
  by rewrite bool_decide_eq_false_2 by (by destruct (trainer_steps raw)).
Qed.

Lemma print_example_takes_one_attempt_witness :
  ∃ raw src',
    Generator.generateExample (PrintGenerator.settingsOf smallWorksheet) []
    = (Ok raw, src')
    ∧ PrintGenerator._generateSingleExample smallWorksheet 1 []
      = (Ok {| PrintGenerator.id := 1;
               PrintGenerator.print_steps := trainer_steps raw;
               PrintGenerator.print_answer := trainer_answer raw;
               PrintGenerator.print_start := trainer_start raw |}, src').
Proof.
  apply (print_example_takes_one_attempt smallWorksheet 1 []).
  vm_compute. discriminate.
Defined.

(** ** generator.js never reaches the vector modes *)

Lemma construct_digitCount K cfg :
  digitCount (configOf (construct K cfg))
  = default (match K with
             | UnifiedSimpleRuleClass | BrothersRuleClass => 1
             | _ => 2
             end) (raw_digitCount cfg).
Proof. by destruct K. Qed.

Lemma settingsRule_not_lockStep settings :
  lockStep (settingsRule settings) = false.
Proof.
  unfold settingsRule. cbv zeta.
  destruct (bool_decide (settingsDigitCount settings > 1)); [done|].
  cbn [lockStep]. unfold effectiveDigitCount.
  rewrite construct_digitCount. unfold settingsRuleConfig.
  by destruct (Generator.chooseRuleClass _).
Qed.

(** X19: [generateExample] always returns the formatting of a raw example
    that starts at 0, whose steps are chained and whose answer is the sum of
    its actions: the rule configuration it builds has [digitCount = 1], so
    the vector modes of [ExampleGenerator] are never entered. *)
Theorem generator_answer_is_the_sum_of_the_shown_actions
    (settings : Settings) (src : Source) :
  ∃ raw src',
    Generator.generateExample settings src = (Ok (toTrainerFormat raw), src')
    ∧ start raw = 0
    ∧ chained 0 (steps raw)
    ∧ answer raw = sumOfActions raw.
Proof.
  destruct (generateExample_cases settings src)
    as [(raw & src1 & Hgen & Hres) | (e & src1 & Hgen & Hres)]; rewrite Hres.
  - exists raw, src1. split; [done|].
    pose proof (generate_start _ _ _ _ Hgen) as Hstart.
    apply generate_consistent in Hgen as [Hchained Hanswer];
      [| apply settingsRule_not_lockStep].
    rewrite Hstart in Hchained. done.
  - exists generatorFallbackRaw, src1. split; [reflexivity|].
    vm_compute. tauto.
Qed.

(** ** Lock-step mode *)






(** ** The rule's bound limits the operands *)

Lemma statesWithin_actions lo hi s sts :
  lo ≤ s ≤ hi → statesWithin lo hi s sts = true →
  Forall (λ st, Z.abs (action st) ≤ hi - lo) sts.
Proof.
  revert s. induction sts as [|st sts IH]; intros s Hs Hw; [constructor|].
  cbn [statesWithin] in Hw. cbv zeta in Hw.
  destruct (bool_decide_reflect (s + action st < lo)); [discriminate|].
  destruct (bool_decide_reflect (s + action st > hi)); [discriminate|].
  cbn [orb] in Hw. constructor; [lia|]. apply (IH (s + action st)); [lia|done].
Qed.

(** X21: an example [generate] returns, unless it is the fallback, has
    every action of magnitude at most the bound its validator enforces: 9
    for Brothers, [maxState] for Simple, 99 for Friends and Mix, also in
    multi-digit mode. *)
Theorem operands_are_bounded_by_the_rule
    (obj : RuleObject) (src : Source) (example : Example) (src' : Source) :
  generate obj src = (Ok example, src') →
  example = _generateFallbackExample
  ∨ Forall (λ st, Z.abs (action st) ≤ enforcedBound (ruleOf obj))
      (steps example).
Proof.
  intros Hrun.
  apply generate_outcome in Hrun as [[-> _] | (Hvalid & Hstart & _)];
    [by left | right].
  pose proof (validateExample_within _ _ Hvalid) as [Hne Hwithin].
  rewrite Hstart in Hwithin.
  destruct (steps example) as [|st0 rest] eqn:Hsteps; [done|].
  pose proof (statesWithin_prefix _ _ _ _ 1%nat Hwithin) as Hone.
  cbn [length] in Hone. specialize (Hone ltac:(lia)).
  apply statesWithin_actions in Hwithin; [|lia].
  eapply Forall_impl; [exact Hwithin|]. cbv beta. lia.
Qed.

Lemma operands_are_bounded_by_the_rule_witness :
  ∃ example src',
    generate variableBrothers variableBrothersSource = (Ok example, src')
    ∧ (example = _generateFallbackExample
       ∨ Forall (λ st, Z.abs (action st) ≤ 9) (steps example)).
Proof.
  eexists _, _. split; [vm_compute; reflexivity|].
  apply (operands_are_bounded_by_the_rule variableBrothers
           variableBrothersSource _ [0; 2 ^ 53 - 1]).
  vm_compute. reflexivity.
Defined.

(** * Further properties of the settings form *)

Lemma selected_blockActive block :
  blockActive (Some (PrintScreen.blockObject block)) = PrintScreen.selected block.
Proof. reflexivity. Qed.

Lemma selected_false block :
  PrintScreen.selected block = false ↔ PrintScreen.ui_digits block = [].
Proof.
  unfold PrintScreen.selected.
  destruct (PrintScreen.ui_digits block); simpl; split; done.
Qed.

Lemma orElse_in_range (x : option Z) (lo hi dflt : Z) :
  1 ≤ lo → lo ≤ dflt ≤ hi →
  PrintScreen.below x lo || PrintScreen.above x hi = false →
  lo ≤ PrintGenerator.orElse x dflt ≤ hi.
Proof.
  intros Hlo Hd. destruct x as [v|]; simpl; [|lia].
  intros H. apply orb_false_elim in H as [H1 H2].
  apply bool_decide_eq_false in H1, H2.
  rewrite bool_decide_eq_false_2 by lia. lia.
Qed.

Lemma valid_page_config page :
  PrintScreen.validateSettings (PrintScreen.collectSettings page)
    = PrintScreen.Valid →
  (configInvalid (pageConfig page) = true ↔ blankDigitCount page)
  ∧ 1 ≤ PrintGenerator.examplesCount (pageConfig page) ≤ 1000.
Proof.
  unfold PrintScreen.validateSettings.
  cbn [PrintScreen.collectSettings PrintScreen.examplesCount
       PrintScreen.actionsCount PrintScreen.digitCount PrintScreen.blocks].
  destruct (PrintScreen.below (PrintScreen.field_examplesCount page) 1
            || PrintScreen.above (PrintScreen.field_examplesCount page) 1000)
    eqn:Hex; [discriminate|].
  destruct (PrintScreen.below (PrintScreen.field_actionsCount page) 1
            || PrintScreen.above (PrintScreen.field_actionsCount page) 20)
    eqn:Hact; [discriminate|].
  destruct (PrintScreen.below (PrintScreen.field_digitCount page) 1
            || PrintScreen.above (PrintScreen.field_digitCount page) 9)
    eqn:Hdig; [discriminate|].
  apply orElse_in_range with (dflt := 20) in Hex; [|lia|lia].
  apply orElse_in_range with (dflt := 5) in Hact; [|lia|lia].
  apply orElse_in_range with (dflt := 1) in Hdig; [|lia|lia].
  intros Hvalid. split; [|exact Hex].
  unfold blankDigitCount, configInvalid, violatesPreconditions, pageConfig.
  cbn [PrintGenerator.new PrintGenerator.examplesCount
       PrintGenerator.actionsCount PrintGenerator.digitCount
       PrintGenerator.blocks PrintScreen.generatorConfig
       PrintScreen.collectSettings PrintScreen.examplesCount
       PrintScreen.actionsCount PrintScreen.digitCount PrintScreen.blocks
       PrintGenerator.supplied_examplesCount
       PrintGenerator.supplied_actionsCount
       PrintGenerator.supplied_digitCount PrintGenerator.supplied_blocks
       default id PrintScreen.blocksObject block_simple block_brothers
       block_friends block_mix].
  rewrite !selected_blockActive.
  rewrite (bool_decide_eq_true_2 _ Hex), (bool_decide_eq_true_2 _ Hact),
    (bool_decide_eq_true_2 _ Hdig).
  cbn [negb orb].
  rewrite <- !selected_false.
  destruct (PrintScreen.field_digitCount page) as [d|];
    cbn [PrintScreen.below PrintGenerator.orElse] in *.
  - assert (Hno : (PrintScreen.selected
                     (PrintScreen.ui_friends (PrintScreen.page_blocks page))
                   || PrintScreen.selected
                        (PrintScreen.ui_mix (PrintScreen.page_blocks page)))
                  && bool_decide ((if bool_decide (d = 0) then 1 else d) < 2)
                  = false).
    { revert Hvalid Hdig. repeat case_bool_decide;
        destruct (PrintScreen.selected (PrintScreen.ui_simple _)),
          (PrintScreen.selected (PrintScreen.ui_brothers _)),
          (PrintScreen.selected (PrintScreen.ui_friends _)),
          (PrintScreen.selected (PrintScreen.ui_mix _));
        cbn [negb orb andb]; intros; try done; lia. }
    rewrite Hno, orb_false_r.
    destruct (negb _) eqn:Hnone; [discriminate Hvalid|].
    split; [discriminate | by intros [? _]].
  - rewrite andb_false_r in Hvalid. rewrite (bool_decide_eq_true_2 (1 < 2)) by lia.
    rewrite andb_true_r.
    destruct (PrintScreen.selected (PrintScreen.ui_simple _)),
      (PrintScreen.selected (PrintScreen.ui_brothers _)),
      (PrintScreen.selected (PrintScreen.ui_friends _)),
      (PrintScreen.selected (PrintScreen.ui_mix _));
      cbn [negb orb andb] in *; try discriminate Hvalid;
      split; try discriminate; try (intros _; split; [done|]; auto; fail);
      intros [_ [H | H]]; done.
Qed.

Lemma handleGenerate_valid page src :
  PrintScreen.validateSettings (PrintScreen.collectSettings page)
    = PrintScreen.Valid →
  PrintScreen.handleGenerate page true src
  = tryCatch
      (examples ← PrintGenerator.generate (pageConfig page);
       if bool_decide (length examples = 0%nat)
       then mret PrintScreen.AlertNoExamples
       else mret (PrintScreen.Displayed examples))
      (λ error, mret (PrintScreen.AlertGenerationFailed error)) src.
Proof.
  intros Hvalid. unfold PrintScreen.handleGenerate. cbv zeta.
  rewrite Hvalid. by rewrite andb_false_r.
Qed.

Lemma numbered_nonempty (examples : list PrintGenerator.PrintExample) n :
  1 ≤ n → PrintGenerator.id <$> examples = seqZ 1 n →
  bool_decide (length examples = 0%nat) = false.
Proof.
  intros Hn Hids. apply bool_decide_eq_false. intros Hlen.
  apply (f_equal length) in Hids.
  rewrite length_fmap, length_seqZ, Hlen in Hids. lia.
Qed.

(** X22: when [validateSettings] accepts the collected settings (and the
    [confirm] dialog, if shown, is answered yes), [handleGenerate] displays
    a worksheet whose examples are numbered 1, 2, ... up to the requested
    count (20 if that field is unreadable), except in one case: the
    digit-count field is unreadable while Friends or Mix digits are
    selected; then the generator's own [validate] raises and the
    generation-failed alert is shown. *)
Theorem accepted_form_is_generated_unless_digit_count_is_blank
    (page : PrintScreen.Page) (src : Source) :
  PrintScreen.validateSettings (PrintScreen.collectSettings page)
    = PrintScreen.Valid →
  (blankDigitCount page
   ∧ ∃ e, PrintScreen.handleGenerate page true src
          = (Ok (PrintScreen.AlertGenerationFailed e), src))
  ∨ (¬ blankDigitCount page
     ∧ ∃ examples src',
         PrintScreen.handleGenerate page true src
         = (Ok (PrintScreen.Displayed examples), src')
         ∧ PrintGenerator.id <$> examples
           = seqZ 1 (PrintGenerator.orElse
                       (PrintScreen.field_examplesCount page) 20)).
Proof.
  intros Hvalid. rewrite (handleGenerate_valid _ _ Hvalid).
  destruct (valid_page_config page Hvalid) as [Hblank Hcount].
  unfold tryCatch. rewrite bind_run.
  pose proof (print_generate_outcome (pageConfig page) src) as Hout.
  destruct (configInvalid (pageConfig page)) eqn:Hinvalid.
  - left. destruct Hout as [e ->]. split; [by apply Hblank | by exists e].
  - right. split; [intros Hb; apply Hblank in Hb; discriminate|].
    destruct (print_generate_shape (pageConfig page) src Hinvalid)
      as (examples & src1 & -> & Hids & _).
    rewrite (numbered_nonempty examples _ (proj1 Hcount) Hids).
    by exists examples, src1.
Qed.

Lemma accepted_form_is_generated_unless_digit_count_is_blank_witness :
  (blankDigitCount simplePage
   ∧ ∃ e, PrintScreen.handleGenerate simplePage true []
          = (Ok (PrintScreen.AlertGenerationFailed e), []))
  ∨ (¬ blankDigitCount simplePage
     ∧ ∃ examples src',
         PrintScreen.handleGenerate simplePage true []
         = (Ok (PrintScreen.Displayed examples), src')
         ∧ PrintGenerator.id <$> examples = seqZ 1 2).
Proof.
  apply (accepted_form_is_generated_unless_digit_count_is_blank simplePage []).
  reflexivity.
Defined.

(** X23: [collectSettings] hard-codes [combineLevels: false]; therefore a
    form accepted by [validateSettings] with a digit count of 2 or more is
    answered with a worksheet in which every example is the fallback
    [+1 +2 -1 = 2], whatever blocks are selected. *)
Theorem multi_column_worksheets_are_all_fallbacks
    (page : PrintScreen.Page) (d : Z) (src : Source) :
  PrintScreen.validateSettings (PrintScreen.collectSettings page)
    = PrintScreen.Valid →
  PrintScreen.field_digitCount page = Some d → 2 ≤ d →
  ∃ src',
    PrintScreen.handleGenerate page true src
    = (Ok (PrintScreen.Displayed
             (printedFallback
                <$> seqZ 1 (PrintGenerator.orElse
                              (PrintScreen.field_examplesCount page) 20))),
       src').
Proof.
  intros Hvalid Hd Hd2. rewrite (handleGenerate_valid _ _ Hvalid).
  destruct (valid_page_config page Hvalid) as [Hblank Hcount].
  assert (Hinvalid : configInvalid (pageConfig page) = false).
  { destruct (configInvalid (pageConfig page)); [|done].
    destruct (proj1 Hblank eq_refl) as [Hnone _]. congruence. }
  destruct (print_generate_fallbacks (pageConfig page) src Hinvalid)
    as [src1 Hgen].
  - vm_compute. discriminate.
  - unfold pageConfig. cbn. rewrite Hd. cbn.
    by rewrite bool_decide_eq_false_2 by lia.
  - left. reflexivity.
  - unfold tryCatch. rewrite bind_run, Hgen.
    rewrite bool_decide_eq_false_2; [by exists src1|].
    rewrite length_fmap, length_seqZ. change (PrintGenerator.examplesCount
      (pageConfig page)) with (PrintGenerator.orElse
                       (PrintScreen.field_examplesCount page) 20) in *. lia.
Qed.

Lemma multi_column_worksheets_are_all_fallbacks_witness :
  ∃ src',
    PrintScreen.handleGenerate twoColumnPage true []
    = (Ok (PrintScreen.Displayed [printedFallback 1; printedFallback 2]), src').
Proof.
  apply (multi_column_worksheets_are_all_fallbacks twoColumnPage 2 []);
    [reflexivity | reflexivity | lia].
Defined.
